(** * electron-clipboard-ex: the Linux clipboard layer ([src/clipboard_linux.cc])

    A shallow embedding of the clipboard facade and of its URI-list codec,
    with the properties the specification states about them.

    - [std::string] is [string] (a sequence of 8-bit [ascii] bytes);
      [std::vector<std::string>] is [list string], [emplace_back] appends at
      the end.
    - A [const char *] handed to GLib is the bytes of the string up to the
      first NUL ([c_str]); a [gchar *] coming back is the bytes before its
      terminator.
    - The function-local statics, the C++ free store and the graphical
      session are fields of one [World] record which every operation
      threads through.
    - Releases of transient GLib objects ([g_free], [g_error_free],
      [g_object_unref], [gtk_selection_data_free]) change nothing the
      model observes and are left out. *)

From Stdlib Require Import ZArith Ascii String List Bool Lia.
From Stdlib Require Import Floats.SpecFloat.
From stdpp Require Import base option list strings gmap pretty.

Local Open Scope Z_scope.
Set Warnings "-clear-no-such-hyp".

(** ** Bytes and strings *)

Module Bytes.

Definition NUL : ascii := "000"%char.

Definition LF : ascii := "010"%char.

Definition CR : ascii := "013"%char.

Definition HASH : ascii := "#"%char.

Definition CRLF : string := String CR (String LF EmptyString).

(** [s.empty()] *)
Definition empty (s : string) : bool :=
  match s with
  | EmptyString => true
  | String _ _ => false
  end.

(** [s.push_back(ch)] *)
Definition push_back (s : string) (ch : ascii) : string :=
  s +:+ String ch EmptyString.

(** [s[0]] of a string known to be non-empty; the terminating NUL of the
    buffer otherwise, which is what [operator[]] reads at [size()]. *)
Definition front (s : string) : ascii :=
  match s with
  | EmptyString => NUL
  | String ch _ => ch
  end.

(** [s.c_str()] as a C callee sees it: the bytes before the first NUL. *)
Fixpoint c_str (s : string) : string :=
  match s with
  | EmptyString => EmptyString
  | String ch rest =>
      if Ascii.eqb ch NUL then EmptyString else String ch (c_str rest)
  end.

(** Does the byte occur in the string? *)
Fixpoint mem (ch : ascii) (s : string) : bool :=
  match s with
  | EmptyString => false
  | String c rest => Ascii.eqb c ch || mem ch rest
  end.

End Bytes.

Import Bytes.

(** ** The URI-list codec *)

(** [splitLines] (lines 24-46): the loop over the bytes of [data], with the
    vector [lines] and the accumulator [current] as loop state. *)
Fixpoint splitLines_loop (data : string) (lines : list string)
    (current : string) : list string :=
  match data with
  | EmptyString =>
      if negb (empty current) then lines ++ [current] else lines
  | String ch rest =>
      if Ascii.eqb ch CR then splitLines_loop rest lines current
      else if Ascii.eqb ch LF then
        if negb (empty current)
        then splitLines_loop rest (lines ++ [current]) EmptyString
        else splitLines_loop rest (lines ++ [EmptyString]) current
      else splitLines_loop rest lines (push_back current ch)
  end.

Definition splitLines (data : string) : list string :=
  splitLines_loop data [] EmptyString.

(** [joinWithCrlf] (lines 48-55): the indexed loop writes [items[i]] and
    then CRLF into the stream [oss], for [i] from 0 to [size() - 1]. *)
Fixpoint joinWithCrlf_loop (items : list string) (i : nat) (steps : nat)
    (oss : string) : string :=
  match steps with
  | O => oss
  | S steps' =>
      let oss := oss +:+ nth i items EmptyString in
      let oss := oss +:+ CRLF in
      joinWithCrlf_loop items (S i) steps' oss
  end.

Definition joinWithCrlf (items : list string) : string :=
  joinWithCrlf_loop items 0 (length items) EmptyString.

(** The plain-text fallback of [WriteFilePaths] (lines 172-180): every
    path, and a single LF after it unless it is the last one. *)
Fixpoint plain_text_loop (file_paths : list string) (i : nat) (steps : nat)
    (plain : string) : string :=
  match steps with
  | O => plain
  | S steps' =>
      let plain := plain +:+ nth i file_paths EmptyString in
      let plain :=
        if (i + 1 <? length file_paths)%nat
        then push_back plain LF else plain in
      plain_text_loop file_paths (S i) steps' plain
  end.

Definition plain_text_of (file_paths : list string) : string :=
  plain_text_loop file_paths 0 (length file_paths) EmptyString.

(** The two GLib conversions the codec calls are collaborators outside the
    repository. They are parameters of the codec: [None] is a NULL result
    (the [GError] is only freed by the callers). *)
Section Codec.

Variable g_filename_to_uri : string -> option string.

Variable g_filename_from_uri : string -> option string.

(** The loop of [WriteFilePaths] building [uris] (lines 154-167). *)
Fixpoint build_uris (file_paths : list string) (uris : list string)
    : list string :=
  match file_paths with
  | [] => uris
  | path :: rest =>
      match g_filename_to_uri (c_str path) with
      | Some uri => build_uris rest (uris ++ [uri])
      | None => build_uris rest uris
      end
  end.

(** [payload->uri_list] (line 170). *)
Definition uri_list_of (file_paths : list string) : string :=
  joinWithCrlf (build_uris file_paths []).

(** The loop of [ReadFilePaths] over the lines (lines 121-138). *)
Fixpoint read_lines (lines : list string) (result : list string)
    : list string :=
  match lines with
  | [] => result
  | line :: rest =>
      if empty line then read_lines rest result
      else if negb (empty line) && Ascii.eqb (front line) HASH
      then read_lines rest result
      else
        match g_filename_from_uri (c_str line) with
        | Some filename => read_lines rest (result ++ [filename])
        | None => read_lines rest result
        end
  end.

(** What [ReadFilePaths] returns for the selection bytes [data]
    (lines 120-140). *)
Definition decode_uri_list (data : string) : list string :=
  read_lines (splitLines data) [].

End Codec.

(** ** GLib's file-name/URI conversion *)

(** Modelled from the spec: the URI and path conversion that the session
    interface provides ([g_filename_to_uri] and [g_filename_from_uri] of
    GLib, which is not part of the repository). A path becomes an absolute
    [file://] URI with every byte outside the path-safe ASCII set
    percent-encoded as [%XX] in upper-case hexadecimal; a URI is parsed
    back by undoing the escapes. The model is the Unix behaviour with no
    host name requested by the caller. Host names are validated byte by
    byte: a byte above 127 is never alphanumeric. *)
Module GLib.

Definition PERCENT : ascii := "%"%char.

Definition SLASH : ascii := "/"%char.

(** The bytes [g_escape_uri_string] leaves alone in a path: letters,
    digits, the unreserved marks, and [/ & = : @ + $ ,]. *)
Definition path_safe : string :=
  "!$&'()*+,-./0123456789:=@ABCDEFGHIJKLMNOPQRSTUVWXYZ_abcdefghijklmnopqrstuvwxyz~".

Definition acceptable (c : ascii) : bool := mem c path_safe.

Definition hex_digits : string := "0123456789ABCDEF".

Definition hex_digit (n : N) : ascii :=
  match String.get (N.to_nat n) hex_digits with
  | Some d => d
  | None => NUL
  end.

Fixpoint g_escape_uri_string (s : string) : string :=
  match s with
  | EmptyString => EmptyString
  | String c rest =>
      if acceptable c then String c (g_escape_uri_string rest)
      else
        let n := N_of_ascii c in
        String PERCENT
          (String (hex_digit (N.shiftr n 4))
             (String (hex_digit (N.land n 15)) (g_escape_uri_string rest)))
  end.

(** [g_path_is_absolute] on Unix. *)
Definition g_path_is_absolute (file_name : string) : bool :=
  Ascii.eqb (front file_name) SLASH.

Definition g_escape_file_uri (pathname : string) : string :=
  let escaped_path := g_escape_uri_string pathname in
  "file://" +:+
  (if negb (Ascii.eqb (front escaped_path) SLASH) then "/" else "") +:+
  escaped_path.

(** Modelled from the spec: a path is converted to a [file://] URI with
    percent-encoding; the conversion fails for a path that is not
    absolute. *)
Definition g_filename_to_uri (filename : string) : option string :=
  if negb (g_path_is_absolute filename) then None
  else Some (g_escape_file_uri filename).

(** [g_ascii_xdigit_value] *)
Definition xdigit_value (c : ascii) : option N :=
  let n := N_of_ascii c in
  if (48 <=? n)%N && (n <=? 57)%N then Some (n - 48)%N
  else if (65 <=? n)%N && (n <=? 70)%N then Some (n - 55)%N
  else if (97 <=? n)%N && (n <=? 102)%N then Some (n - 87)%N
  else None.

(** [unescape_character]: the value of two hexadecimal digits. *)
Definition unescape_character (hi lo : ascii) : option N :=
  match xdigit_value hi, xdigit_value lo with
  | Some a, Some b => Some (N.lor (N.shiftl a 4) b)
  | _, _ => None
  end.

(** [g_unescape_uri_string]: [None] for a truncated or malformed escape, an
    escaped NUL, an escaped ASCII byte when those must not be escaped, or an
    escaped byte of [illegal_escaped_characters]. *)
Fixpoint g_unescape_uri_string (escaped : string)
    (illegal_escaped_characters : string) (ascii_must_not_be_escaped : bool)
    : option string :=
  match escaped with
  | EmptyString => Some EmptyString
  | String c rest =>
      if Ascii.eqb c PERCENT then
        match rest with
        | String hi (String lo rest') =>
            match unescape_character hi lo with
            | Some v =>
                if (v =? 0)%N then None
                else if ascii_must_not_be_escaped && (v <=? 127)%N then None
                else if mem (ascii_of_N v) illegal_escaped_characters
                then None
                else
                  String (ascii_of_N v) <$>
                    g_unescape_uri_string rest' illegal_escaped_characters
                      ascii_must_not_be_escaped
            | None => None
            end
        | _ => None
        end
      else
        String c <$>
          g_unescape_uri_string rest illegal_escaped_characters
            ascii_must_not_be_escaped
  end.

(** [g_ascii_tolower] *)
Definition ascii_tolower (c : ascii) : ascii :=
  let n := N_of_ascii c in
  if (65 <=? n)%N && (n <=? 90)%N then ascii_of_N (n + 32) else c.

(** [has_case_prefix]: what is left of [s] after [prefix], compared without
    regard to ASCII case. *)
Fixpoint strip_case_prefix (s prefix : string) {struct prefix}
    : option string :=
  match prefix with
  | EmptyString => Some s
  | String p prefix' =>
      match s with
      | EmptyString => None
      | String c s' =>
          if Ascii.eqb (ascii_tolower c) (ascii_tolower p)
          then strip_case_prefix s' prefix' else None
      end
  end.

Definition has_case_prefix (s prefix : string) : bool :=
  match strip_case_prefix s prefix with Some _ => true | None => false end.

Definition is_asciialpha (c : ascii) : bool :=
  let n := N_of_ascii (ascii_tolower c) in (97 <=? n)%N && (n <=? 122)%N.

Definition is_asciialphanum (c : ascii) : bool :=
  let n := N_of_ascii c in
  is_asciialpha c || ((48 <=? n)%N && (n <=? 57)%N).

(** The label loop of [hostname_validate], after [last_char] was read. *)
Fixpoint hostname_labels (s : string) (first_char last_char : ascii) : bool :=
  match s with
  | EmptyString =>
      if Ascii.eqb last_char "-"%char then false
      else is_asciialpha first_char
  | String c rest =>
      if is_asciialphanum c || Ascii.eqb c "-"%char
      then hostname_labels rest first_char c
      else if Ascii.eqb last_char "-"%char then false
      else if Ascii.eqb c "."%char then
        match rest with
        | EmptyString => is_asciialpha first_char
        | String c' rest' =>
            if is_asciialphanum c' then hostname_labels rest' c' c'
            else false
        end
      else false
  end.

Definition hostname_validate (hostname : string) : bool :=
  match hostname with
  | EmptyString => true
  | String c rest =>
      if is_asciialphanum c then hostname_labels rest c c else false
  end.

(** [strchr (s, '/')]: the bytes before the first slash, and the rest from
    that slash on. *)
Fixpoint split_at_slash (s : string) : option (string * string) :=
  match s with
  | EmptyString => None
  | String c rest =>
      if Ascii.eqb c SLASH then Some (EmptyString, s)
      else
        match split_at_slash rest with
        | Some (host, path) => Some (String c host, path)
        | None => None
        end
  end.

(** Modelled from the spec: a line is parsed as a URI; a successful
    [file://] parse yields the path, anything else fails. A fragment
    ([#]), a malformed escape, an escaped NUL or slash, or an invalid host
    name make the parse fail. *)
Definition g_filename_from_uri (uri : string) : option string :=
  match strip_case_prefix uri "file:" with
  | None => None
  | Some path_part =>
      if negb (has_case_prefix path_part "/") then None
      else if mem HASH path_part then None
      else
        match strip_case_prefix path_part "//" with
        | Some after =>
            if has_case_prefix after "/"
            then g_unescape_uri_string after "/" false
            else
              match split_at_slash after with
              | None => None
              | Some (host_part, path) =>
                  match g_unescape_uri_string host_part "" true with
                  | Some unescaped_hostname =>
                      if hostname_validate unescaped_hostname
                      then g_unescape_uri_string path "/" false
                      else None
                  | None => None
                  end
              end
        | None => g_unescape_uri_string path_part "/" false
        end
  end.

(** What one byte contributes to an escaped path. *)
Definition escape_byte (c : ascii) : string :=
  g_escape_uri_string (String c EmptyString).

(** An escaped byte has no NUL, CR, LF or [#]. *)
Definition byte_ok (c : ascii) : bool :=
  negb (mem NUL (escape_byte c))
  && negb (mem HASH (escape_byte c))
  && negb (mem CR (escape_byte c))
  && negb (mem LF (escape_byte c)).

End GLib.

(** The paths and bytes of the specification's end-to-end scenarios. *)
Module Scenario.

Definition beta_md : string :=
  "/tmp/" +:+ String "206"%char (String "178"%char ".md").

Definition paths : list string := ["/home/a/x.txt"; beta_md].

Definition uri_list_bytes : string :=
  "file:///home/a/x.txt" +:+ CRLF +:+ "file:///tmp/%CE%B2.md" +:+ CRLF.

Definition utf8_string_bytes : string :=
  "/home/a/x.txt" +:+ String LF beta_md.

Definition clipboard_bytes : string :=
  "# comment" +:+ CRLF +:+ "file:///a" +:+ CRLF +:+ CRLF +:+
  "file:///b" +:+ CRLF.

Definition only_comments : string :=
  "# first" +:+ CRLF +:+ "#second" +:+ String LF "# third".

End Scenario.

(** ** Closed forms of the codec *)

(** Every item followed by CRLF. *)
Fixpoint crlf_terminated (items : list string) : string :=
  match items with
  | [] => EmptyString
  | item :: rest => item +:+ CRLF +:+ crlf_terminated rest
  end.

(** A line that [ReadFilePaths] hands to the URI parser: not empty and not
    a comment. *)
Definition uri_line (line : string) : bool :=
  negb (empty line) && negb (Ascii.eqb (front line) HASH).

(** No carriage return and no line feed among the bytes. *)
Definition line_clean (s : string) : bool :=
  negb (mem CR s) && negb (mem LF s).

(** A path without URI-encoding-hostile bytes, for a given pair of
    conversions: the path has a URI, that URI has no line-break byte, is a
    URI line (not empty, not starting with [#]), and converts back to the
    path. *)
Definition uri_friendly
    (g_filename_to_uri g_filename_from_uri : string -> option string)
    (path : string) : Prop :=
  exists uri,
    g_filename_to_uri (c_str path) = Some uri
    /\ line_clean uri = true
    /\ uri_line uri = true
    /\ g_filename_from_uri (c_str uri) = Some path.

(** The lines of a buffer that [ReadFilePaths] hands to the URI parser. *)
Definition uri_lines (data : string) : list string :=
  filter (fun line => uri_line line = true) (splitLines data).

(** ** The JPEG quality (line 223) *)

Module Quality.

(** [float] is IEEE 754 binary32: 24 bits of precision, infinities at
    exponent 128. *)
Definition prec : Z := 24.

Definition emax : Z := 128.

(** The binary32 value [m * 2^e], rounded to nearest. *)
Definition float_of (m e : Z) : spec_float :=
  binary_normalize prec emax m e false.

(** The literal [100.0f]. *)
Definition hundred : spec_float := float_of 100 0.

(** The value of a float with its fraction discarded (rounding toward
    zero); [None] for an infinity or a NaN. *)
Definition truncate (f : spec_float) : option Z :=
  match f with
  | S754_zero _ => Some 0
  | S754_finite s m e =>
      let a := if 0 <=? e then Z.shiftl (Zpos m) e
               else Z.shiftr (Zpos m) (- e) in
      Some (if s then - a else a)
  | S754_infinity _ | S754_nan => None
  end.

(** [compression_factor * 100.0f] *)
Definition product (compression_factor : spec_float) : spec_float :=
  SFmul prec emax compression_factor hundred.

Definition INT_MIN : Z := - 2 ^ 31.

Definition INT_MAX : Z := 2 ^ 31 - 1.

Section Cast.

(** What the conversion instruction leaves in the register when the
    truncated value does not fit an [int] (C++ leaves this case open). *)
Variable unrepresentable : spec_float -> Z.

(** [static_cast<int>(f)] *)
Definition static_cast_int (f : spec_float) : Z :=
  match truncate f with
  | Some z => if (INT_MIN <=? z) && (z <=? INT_MAX) then z
              else unrepresentable f
  | None => unrepresentable f
  end.

(** [std::max(0, std::min(100, static_cast<int>(compression_factor * 100.0f)))] *)
Definition jpeg_quality (compression_factor : spec_float) : Z :=
  Z.max 0 (Z.min 100 (static_cast_int (product compression_factor))).

End Cast.

(** The conversion of x86-64 ([cvttss2si]): the "integer indefinite"
    value. *)
Definition x86_unrepresentable (_ : spec_float) : Z := INT_MIN.

End Quality.

(** ** The program state and the graphical session *)

(** Addresses of objects on the C++ free store; a [gpointer] is an address
    or [nullptr]. *)
Definition addr : Type := positive.

Definition gpointer : Type := option addr.

(** [struct UriListData] (lines 58-61). *)
Record UriListData : Type := mkUriListData {
  uri_list : string;
  plain_text : string;
}.

Record GtkTargetEntry : Type := mkTarget {
  target : string;
  flags : Z;
  info : Z;
}.

(** The selection buffer a provide callback fills: the type atom, the
    granularity in bits, the bytes and their number ([-1] and no bytes
    while nothing was stored). *)
Record GtkSelectionData : Type := mkSelectionData {
  sd_type : string;
  sd_format : Z;
  sd_data : option string;
  sd_length : Z;
}.

Record GdkPixbuf : Type := mkPixbuf {
  width : Z;
  height : Z;
  pixels : string;
}.

(** The callbacks a program can hand to the clipboard are the two of the
    anonymous namespace; a function pointer is the name of its function. *)
Inductive GtkClipboardGetFunc : Type := Fn_clipboard_get_func.

Inductive GtkClipboardClearFunc : Type := Fn_clipboard_clear_func.

(** Modelled from the spec: who holds the clipboard selection. Nobody;
    another application, with what it answers per target, the image it
    delivers when asked for one and whether it advertises an image
    representation (an owner that produces its image on request may
    advertise one and deliver none); this process through
    [gtk_clipboard_set_with_data]; or this process through
    [gtk_clipboard_set_image]. *)
Inductive Owner : Type :=
| NoOwner
| Foreign (contents : string -> option GtkSelectionData)
          (image : option GdkPixbuf) (advertised : bool)
| WithData (targets : list GtkTargetEntry) (get_func : GtkClipboardGetFunc)
           (clear_func : GtkClipboardClearFunc) (user_data : gpointer)
| WithImage (pixbuf : GdkPixbuf).

(** Modelled from the spec: the graphical session, as far as the facade
    can observe it. Whether a display can be attached, whether there is a
    clipboard, its owner, what image files decode to, which saves succeed
    (by path and format), and the pixels that come back from a lossy
    encoding of an image at a quality. *)
Record Session : Type := mkSession {
  display_available : bool;
  clipboard_available : bool;
  owner : Owner;
  image_files : string -> option GdkPixbuf;
  save_succeeds : string -> string -> bool;
  lossy_pixels : GdkPixbuf -> option string -> string;
}.

(** What an operation does to the outside, most recent first: the session
    calls with their arguments, and the allocations and releases of
    payloads. [BadFree] and [BadRead] record a [delete] or an access
    through an address that holds no payload. *)
Inductive Event : Type :=
| Call_gtk_init_check
| Call_gtk_clipboard_get
| Call_gtk_clipboard_wait_for_contents (target : string)
| Call_gtk_clipboard_set_with_data (targets : list GtkTargetEntry)
    (n_targets : Z) (get_func : GtkClipboardGetFunc)
    (clear_func : GtkClipboardClearFunc) (user_data : gpointer)
| Call_gtk_clipboard_store
| Call_gtk_clipboard_clear
| Call_gtk_clipboard_wait_for_image
| Call_gtk_clipboard_wait_is_image_available
| Call_gtk_clipboard_set_image (pixbuf : GdkPixbuf)
| Call_gdk_pixbuf_new_from_file (filename : string)
| Call_gdk_pixbuf_save (pixbuf : GdkPixbuf) (filename type : string)
    (quality : option string)
| Call_gtk_selection_data_set (type : string) (format : Z) (data : string)
    (length : Z)
| Allocated (p : addr)
| Freed (p : addr)
| BadFree (p : addr)
| BadRead (p : addr).

Record World : Type := mkWorld {
  (** the statics of [EnsureGtkInitialized] *)
  attempted : bool;
  initialized : bool;
  (** the free store: live payloads, and the next address [new] returns *)
  heap : gmap addr UriListData;
  next_addr : addr;
  session : Session;
  trace : list Event;
}.

(** The world of a fresh process. *)
Definition initial_world (s : Session) : World :=
  mkWorld false false ∅ 1%positive s [].

(** ** The state monad of the operations *)

Definition M (A : Type) : Type := World -> A * World.

Definition ret {A : Type} (a : A) : M A := fun w => (a, w).

Definition bind {A B : Type} (m : M A) (k : A -> M B) : M B :=
  fun w => let (a, w') := m w in k a w'.

Notation "x <- m ;; k" := (bind m (fun x => k))
  (at level 100, m at next level, right associativity).

Notation "m ;; k" := (bind m (fun _ => k))
  (at level 100, right associativity).

Definition log (e : Event) : M unit := fun w =>
  (tt, mkWorld (attempted w) (initialized w) (heap w) (next_addr w)
         (session w) (e :: trace w)).

Definition load_attempted : M bool := fun w => (attempted w, w).

Definition load_initialized : M bool := fun w => (initialized w, w).

Definition store_attempted (b : bool) : M unit := fun w =>
  (tt, mkWorld b (initialized w) (heap w) (next_addr w) (session w) (trace w)).

Definition store_initialized (b : bool) : M unit := fun w =>
  (tt, mkWorld (attempted w) b (heap w) (next_addr w) (session w) (trace w)).

Definition get_session : M Session := fun w => (session w, w).

Definition set_owner (o : Owner) : M unit := fun w =>
  let s := session w in
  (tt, mkWorld (attempted w) (initialized w) (heap w) (next_addr w)
         (mkSession (display_available s) (clipboard_available s) o
            (image_files s) (save_succeeds s) (lossy_pixels s))
         (trace w)).

(** *** The free store *)

(** [new UriListData()]: a fresh address holding two empty strings. *)
Definition new_UriListData : M addr := fun w =>
  let p := next_addr w in
  (p, mkWorld (attempted w) (initialized w)
        (<[p := mkUriListData EmptyString EmptyString]> (heap w))
        (Pos.succ p) (session w) (Allocated p :: trace w)).

(** A read through [p]. *)
Definition deref (p : addr) : M UriListData := fun w =>
  match heap w !! p with
  | Some payload => (payload, w)
  | None => (mkUriListData EmptyString EmptyString, snd (log (BadRead p) w))
  end.

(** An assignment to a member of [*p]. *)
Definition assign (p : addr) (f : UriListData -> UriListData) : M unit :=
  fun w =>
  match heap w !! p with
  | Some payload =>
      (tt, mkWorld (attempted w) (initialized w) (<[p := f payload]> (heap w))
             (next_addr w) (session w) (trace w))
  | None => log (BadRead p) w
  end.

(** [delete payload]: nothing for [nullptr]. *)
Definition delete_payload (payload : gpointer) : M unit := fun w =>
  match payload with
  | None => (tt, w)
  | Some p =>
      match heap w !! p with
      | Some _ =>
          (tt, mkWorld (attempted w) (initialized w) (delete p (heap w))
                 (next_addr w) (session w) (Freed p :: trace w))
      | None => log (BadFree p) w
      end
  end.

(** [static_cast<int>] of a [size_t]: the value modulo [2^32], read as a
    signed 32-bit integer. *)
Definition int_of_size_t (n : nat) : Z :=
  (Z.of_nat n + 2 ^ 31) mod 2 ^ 32 - 2 ^ 31.

(** The first [n] bytes of a buffer. *)
Definition bytes (data : string) (n : Z) : string :=
  String.substring 0 (Z.to_nat n) data.

(** ** The session's side of the clipboard *)

(** The clipboard handle carries no state of its own. *)
Inductive GtkClipboard : Type := the_clipboard.

(** A selection buffer before a provide callback stored anything. *)
Definition empty_selection : GtkSelectionData :=
  mkSelectionData EmptyString 0 None (-1).

(** Modelled from the spec: [gtk_selection_data_set], the session's way to
    take bytes from a provide callback. It stores the type atom, the
    granularity and [length] bytes of [data] in the buffer. *)
Definition gtk_selection_data_set (selection_data : GtkSelectionData)
    (type : string) (format : Z) (data : string) (length : Z)
    : M GtkSelectionData :=
  log (Call_gtk_selection_data_set type format data length) ;;
  ret (mkSelectionData type format
         (if length <? 0 then None else Some (bytes data length)) length).

(** [clipboard_get_func] (lines 63-83). Atoms are their names. *)
Definition clipboard_get_func (selection_data : GtkSelectionData)
    (info : Z) (user_data : gpointer) : M GtkSelectionData :=
  match user_data with
  | None => ret selection_data
  | Some payload =>
      if info =? 0 then
        object <- deref payload ;;
        let data := uri_list object in
        let target := "text/uri-list" in
        gtk_selection_data_set selection_data target 8 data
          (int_of_size_t (String.length data))
      else
        object <- deref payload ;;
        let text := plain_text object in
        let target := "UTF8_STRING" in
        gtk_selection_data_set selection_data target 8 text
          (int_of_size_t (String.length text))
  end.

(** [clipboard_clear_func] (lines 85-89). *)
Definition clipboard_clear_func (user_data : gpointer) : M unit :=
  delete_payload user_data.

(** A call through a callback pointer. *)
Definition call_get_func (f : GtkClipboardGetFunc)
    : GtkSelectionData -> Z -> gpointer -> M GtkSelectionData :=
  match f with Fn_clipboard_get_func => clipboard_get_func end.

Definition call_clear_func (f : GtkClipboardClearFunc) : gpointer -> M unit :=
  match f with Fn_clipboard_clear_func => clipboard_clear_func end.

(** Modelled from the spec: when the clipboard loses its owner, the session
    invokes the clear callback of an offer published with callbacks, once,
    with the address it was given. *)
Definition release_owner : M unit :=
  s <- get_session ;;
  match owner s with
  | WithData _ _ clear_func user_data => call_clear_func clear_func user_data
  | _ => ret tt
  end.

(** Modelled from the spec: a change of owner releases the previous offer
    before the new one becomes visible. *)
Definition change_owner (o : Owner) : M unit :=
  release_owner ;;
  set_owner o.

(** Modelled from the spec: a request for [target] is served against the
    current offer. An offer published with callbacks is asked through its
    provide callback, with the tag its target table gives the target; a
    buffer the callback left untouched counts as no contents. *)
Definition serve_request (requested : string)
    : M (option GtkSelectionData) :=
  s <- get_session ;;
  match owner s with
  | NoOwner => ret None
  | Foreign contents _ _ => ret (contents requested)
  | WithData targets get_func _ user_data =>
      match List.find (fun e => String.eqb (target e) requested) targets with
      | Some entry =>
          sd <- call_get_func get_func empty_selection (info entry) user_data ;;
          ret (if sd_length sd <? 0 then None else Some sd)
      | None => ret None
      end
  | WithImage _ => ret None
  end.

(** Modelled from the spec: the image the clipboard's image channel
    holds. *)
Definition current_image (s : Session) : option GdkPixbuf :=
  match owner s with
  | Foreign _ image _ => image
  | WithImage pixbuf => Some pixbuf
  | NoOwner | WithData _ _ _ _ => None
  end.

(** Modelled from the spec: whether the clipboard advertises an image
    representation. An image this process published is advertised, a
    text offer is not, and another application says what it offers. *)
Definition advertises_image (s : Session) : bool :=
  match owner s with
  | Foreign _ _ advertised => advertised
  | WithImage _ => true
  | NoOwner | WithData _ _ _ _ => false
  end.

(** Modelled from the spec: attach-with-probe. *)
Definition gtk_init_check : M bool :=
  log Call_gtk_init_check ;;
  s <- get_session ;;
  ret (display_available s).

(** Modelled from the spec: get primary clipboard handle. *)
Definition gtk_clipboard_get : M (option GtkClipboard) :=
  log Call_gtk_clipboard_get ;;
  s <- get_session ;;
  ret (if clipboard_available s then Some the_clipboard else None).

(** Modelled from the spec: wait-for-contents(target). *)
Definition gtk_clipboard_wait_for_contents (clipboard : GtkClipboard)
    (requested : string) : M (option GtkSelectionData) :=
  log (Call_gtk_clipboard_wait_for_contents requested) ;;
  serve_request requested.

(** Modelled from the spec: publish-with-callbacks. The previous offer is
    released, then the first [n_targets] entries are offered. The session
    interface of the specification has no failing publication; the code
    ignores the result. *)
Definition gtk_clipboard_set_with_data (clipboard : GtkClipboard)
    (targets : list GtkTargetEntry) (n_targets : Z)
    (get_func : GtkClipboardGetFunc) (clear_func : GtkClipboardClearFunc)
    (user_data : gpointer) : M bool :=
  log (Call_gtk_clipboard_set_with_data targets n_targets get_func
         clear_func user_data) ;;
  change_owner (WithData (take (Z.to_nat n_targets) targets) get_func
                  clear_func user_data) ;;
  ret true.

(** Modelled from the spec: request-store. *)
Definition gtk_clipboard_store (clipboard : GtkClipboard) : M unit :=
  log Call_gtk_clipboard_store.

(** Modelled from the spec: clear. *)
Definition gtk_clipboard_clear (clipboard : GtkClipboard) : M unit :=
  log Call_gtk_clipboard_clear ;;
  change_owner NoOwner.

(** Modelled from the spec: image channel get. *)
Definition gtk_clipboard_wait_for_image (clipboard : GtkClipboard)
    : M (option GdkPixbuf) :=
  log Call_gtk_clipboard_wait_for_image ;;
  s <- get_session ;;
  ret (current_image s).

(** Modelled from the spec: non-blocking image-availability probe. It
    answers from what the owner advertises and does not fetch the image. *)
Definition gtk_clipboard_wait_is_image_available (clipboard : GtkClipboard)
    : M bool :=
  log Call_gtk_clipboard_wait_is_image_available ;;
  s <- get_session ;;
  ret (advertises_image s).

(** Modelled from the spec: image channel set. *)
Definition gtk_clipboard_set_image (clipboard : GtkClipboard)
    (pixbuf : GdkPixbuf) : M unit :=
  log (Call_gtk_clipboard_set_image pixbuf) ;;
  change_owner (WithImage pixbuf).

(** Modelled from the spec: image decode. *)
Definition gdk_pixbuf_new_from_file (filename : string)
    : M (option GdkPixbuf) :=
  log (Call_gdk_pixbuf_new_from_file filename) ;;
  s <- get_session ;;
  ret (image_files s filename).

(** Modelled from the spec: what the file of a successful save decodes
    to. PNG is lossless; any other format keeps the pixel dimensions, and
    its pixels are the session's to say. *)
Definition saved_image (s : Session) (pixbuf : GdkPixbuf) (type : string)
    (quality : option string) : GdkPixbuf :=
  if String.eqb type "png" then pixbuf
  else mkPixbuf (width pixbuf) (height pixbuf) (lossy_pixels s pixbuf quality).

(** A session in which the file [filename] holds [image]. *)
Definition with_file (filename : string) (image : GdkPixbuf) (s : Session)
    : Session :=
  mkSession (display_available s) (clipboard_available s) (owner s)
    (fun f => if String.eqb f filename then Some image else image_files s f)
    (save_succeeds s) (lossy_pixels s).

Definition write_image_file (filename : string) (image : GdkPixbuf)
    : M unit := fun w =>
  (tt, mkWorld (attempted w) (initialized w) (heap w) (next_addr w)
         (with_file filename image (session w)) (trace w)).

(** Modelled from the spec: image encode. A successful encode writes the
    image to the target path; a failed one writes nothing. *)
Definition gdk_pixbuf_save (pixbuf : GdkPixbuf) (filename type : string)
    (quality : option string) : M bool :=
  log (Call_gdk_pixbuf_save pixbuf filename type quality) ;;
  s <- get_session ;;
  if save_succeeds s filename type then
    write_image_file filename (saved_image s pixbuf type quality) ;;
    ret true
  else ret false.

(** [g_snprintf (buf, size, "%d", n)]: the decimal digits, cut to
    [size - 1] bytes. *)
Definition g_snprintf_d (size : Z) (n : Z) : string :=
  bytes (pretty n) (size - 1).

(** What other clients of the session can do between two operations.
    Modelled from the spec: another application takes the selection or
    drops it, a paster asks for a target, or the display or the clipboard
    comes and goes. *)
Inductive EnvEvent : Type :=
| Env_new_owner (contents : string -> option GtkSelectionData)
                (image : option GdkPixbuf) (advertised : bool)
| Env_no_owner
| Env_paste (requested : string)
| Env_display (available : bool)
| Env_clipboard (available : bool).

Definition set_availability (display clipboard : bool) : M unit := fun w =>
  let s := session w in
  (tt, mkWorld (attempted w) (initialized w) (heap w) (next_addr w)
         (mkSession display clipboard (owner s) (image_files s)
            (save_succeeds s) (lossy_pixels s))
         (trace w)).

Definition env_step (e : EnvEvent) : M unit :=
  match e with
  | Env_new_owner contents image advertised =>
      change_owner (Foreign contents image advertised)
  | Env_no_owner => change_owner NoOwner
  | Env_paste requested => _ <- serve_request requested ;; ret tt
  | Env_display available =>
      s <- get_session ;; set_availability available (clipboard_available s)
  | Env_clipboard available =>
      s <- get_session ;; set_availability (display_available s) available
  end.

(** ** The public operations *)

(** [EnsureGtkInitialized] (lines 11-22). *)
Definition EnsureGtkInitialized : M bool :=
  was_attempted <- load_attempted ;;
  (if negb was_attempted then
     store_attempted true ;;
     result <- gtk_init_check ;;
     store_initialized result
   else ret tt) ;;
  load_initialized.

(** The targets table of [WriteFilePaths] (lines 182-186). *)
Definition write_targets : list GtkTargetEntry :=
  [ mkTarget "text/uri-list" 0 0;
    mkTarget "UTF8_STRING" 0 1;
    mkTarget "STRING" 0 1 ].

Section Facade.

(** GLib's conversions, the conversion of an unrepresentable float, and
    whether the build sees GTK 2.6 or later ([GTK_CHECK_VERSION(2,6,0)]). *)
Variable g_filename_to_uri : string -> option string.

Variable g_filename_from_uri : string -> option string.

Variable unrepresentable : spec_float -> Z.

Variable gtk_2_6 : bool.

(** [ReadFilePaths] (lines 93-141). *)
Definition ReadFilePaths : M (list string) :=
  let result := [] in
  ok <- EnsureGtkInitialized ;;
  if negb ok then ret result else
  clipboard <- gtk_clipboard_get ;;
  match clipboard with
  | None => ret result
  | Some clipboard =>
      let target := "text/uri-list" in
      sel <- gtk_clipboard_wait_for_contents clipboard target ;;
      match sel with
      | None => ret result
      | Some sel =>
          let data_ptr := sd_data sel in
          let length := sd_length sel in
          match data_ptr with
          | None => ret result
          | Some buffer =>
              if length <=? 0 then ret result
              else
                let data := bytes buffer length in
                ret (decode_uri_list g_filename_from_uri data)
          end
      end
  end.

(** [WriteFilePaths] (lines 143-197). *)
Definition WriteFilePaths (file_paths : list string) : M unit :=
  ok <- EnsureGtkInitialized ;;
  if negb ok then ret tt else
  clipboard <- gtk_clipboard_get ;;
  match clipboard with
  | None => ret tt
  | Some clipboard =>
      let uris := build_uris g_filename_to_uri file_paths [] in
      payload <- new_UriListData ;;
      assign payload
        (fun o => mkUriListData (joinWithCrlf uris) (plain_text o)) ;;
      let plain := plain_text_of file_paths in
      assign payload (fun o => mkUriListData (uri_list o) plain) ;;
      let targets := write_targets in
      _ <- gtk_clipboard_set_with_data clipboard targets
             (Z.of_nat (length targets))
             Fn_clipboard_get_func Fn_clipboard_clear_func (Some payload) ;;
      gtk_clipboard_store clipboard
  end.

(** [ClearClipboard] (lines 199-208). *)
Definition ClearClipboard : M unit :=
  ok <- EnsureGtkInitialized ;;
  if negb ok then ret tt else
  clipboard <- gtk_clipboard_get ;;
  match clipboard with
  | None => ret tt
  | Some clipboard => gtk_clipboard_clear clipboard
  end.

(** [SaveClipboardImageAsJpeg] (lines 210-234). *)
Definition SaveClipboardImageAsJpeg (target_path : string)
    (compression_factor : spec_float) : M bool :=
  ok <- EnsureGtkInitialized ;;
  if negb ok then ret false else
  clipboard <- gtk_clipboard_get ;;
  match clipboard with
  | None => ret false
  | Some clipboard =>
      pixbuf <- gtk_clipboard_wait_for_image clipboard ;;
      match pixbuf with
      | None => ret false
      | Some pixbuf =>
          let quality :=
            Quality.jpeg_quality unrepresentable compression_factor in
          let quality_str := g_snprintf_d 8 quality in
          ok <- gdk_pixbuf_save pixbuf (c_str target_path) "jpeg"
                  (Some quality_str) ;;
          ret ok
      end
  end.

(** [SaveClipboardImageAsPng] (lines 236-255). *)
Definition SaveClipboardImageAsPng (target_path : string) : M bool :=
  ok <- EnsureGtkInitialized ;;
  if negb ok then ret false else
  clipboard <- gtk_clipboard_get ;;
  match clipboard with
  | None => ret false
  | Some clipboard =>
      pixbuf <- gtk_clipboard_wait_for_image clipboard ;;
      match pixbuf with
      | None => ret false
      | Some pixbuf =>
          ok <- gdk_pixbuf_save pixbuf (c_str target_path) "png" None ;;
          ret ok
      end
  end.

(** [PutImageIntoClipboard] (lines 257-278). *)
Definition PutImageIntoClipboard (image_path : string) : M bool :=
  ok <- EnsureGtkInitialized ;;
  if negb ok then ret false else
  pixbuf <- gdk_pixbuf_new_from_file (c_str image_path) ;;
  match pixbuf with
  | None => ret false
  | Some pixbuf =>
      clipboard <- gtk_clipboard_get ;;
      match clipboard with
      | None => ret false
      | Some clipboard =>
          gtk_clipboard_set_image clipboard pixbuf ;;
          gtk_clipboard_store clipboard ;;
          ret true
      end
  end.

(** [ClipboardHasImage] (lines 280-298). *)
Definition ClipboardHasImage : M bool :=
  ok <- EnsureGtkInitialized ;;
  if negb ok then ret false else
  clipboard <- gtk_clipboard_get ;;
  match clipboard with
  | None => ret false
  | Some clipboard =>
      if gtk_2_6 then gtk_clipboard_wait_is_image_available clipboard
      else
        pixbuf <- gtk_clipboard_wait_for_image clipboard ;;
        match pixbuf with
        | Some _ => ret true
        | None => ret false
        end
  end.

(** A call of the host into the facade, with its arguments. *)
Inductive Operation : Type :=
| Op_ReadFilePaths
| Op_WriteFilePaths (file_paths : list string)
| Op_ClearClipboard
| Op_SaveClipboardImageAsJpeg (target_path : string)
    (compression_factor : spec_float)
| Op_SaveClipboardImageAsPng (target_path : string)
| Op_PutImageIntoClipboard (image_path : string)
| Op_ClipboardHasImage.

(** What the host sees come back. *)
Inductive Outcome : Type :=
| Paths (result : list string)
| Flag (result : bool)
| Done.

Definition perform (op : Operation) : M Outcome :=
  match op with
  | Op_ReadFilePaths => r <- ReadFilePaths ;; ret (Paths r)
  | Op_WriteFilePaths file_paths => WriteFilePaths file_paths ;; ret Done
  | Op_ClearClipboard => ClearClipboard ;; ret Done
  | Op_SaveClipboardImageAsJpeg target_path compression_factor =>
      r <- SaveClipboardImageAsJpeg target_path compression_factor ;;
      ret (Flag r)
  | Op_SaveClipboardImageAsPng target_path =>
      r <- SaveClipboardImageAsPng target_path ;; ret (Flag r)
  | Op_PutImageIntoClipboard image_path =>
      r <- PutImageIntoClipboard image_path ;; ret (Flag r)
  | Op_ClipboardHasImage => r <- ClipboardHasImage ;; ret (Flag r)
  end.

(** The neutral failure value of each operation. *)
Definition neutral (op : Operation) : Outcome :=
  match op with
  | Op_ReadFilePaths => Paths []
  | Op_WriteFilePaths _ | Op_ClearClipboard => Done
  | Op_SaveClipboardImageAsJpeg _ _ | Op_SaveClipboardImageAsPng _
  | Op_PutImageIntoClipboard _ | Op_ClipboardHasImage => Flag false
  end.

(** One step of a process: the host calls an operation, or the session
    moves on its own. *)
Inductive Step : Type :=
| Host (op : Operation)
| Env (e : EnvEvent).

Definition step (s : Step) (w : World) : World :=
  match s with
  | Host op => snd (perform op w)
  | Env e => snd (env_step e w)
  end.

(** A run: the steps in order. *)
Definition run (steps : list Step) (w : World) : World :=
  fold_left (fun w s => step s w) steps w.

(** The world of a process that started in session [s] and took [steps]. *)
Definition process (steps : list Step) (s : Session) : World :=
  run steps (initial_world s).

(** The world after [WriteFilePaths]. *)
Definition written (file_paths : list string) (w : World) : World :=
  snd (WriteFilePaths file_paths w).

End Facade.

(** ** The session handle *)

(** The state of the session handle, read off the two statics. *)
Inductive Handle : Type := NotAttempted | Acquired | Failed.

Definition handle (w : World) : Handle :=
  if attempted w then (if initialized w then Acquired else Failed)
  else NotAttempted.

Definition is_attach (e : Event) : bool :=
  match e with Call_gtk_init_check => true | _ => false end.

(** How many times the process tried to attach to the session. *)
Definition attach_attempts (w : World) : nat :=
  length (List.filter is_attach (trace w)).

(** ** A program logic for the operations *)

(** [m], started in a world satisfying [P], returns a value and a world
    satisfying [Q]. *)
Definition triple {A : Type} (P : World -> Prop) (m : M A)
    (Q : A -> World -> Prop) : Prop :=
  forall w, P w -> Q (fst (m w)) (snd (m w)).

(** [m] keeps the invariant [I], whatever it returns. *)
Definition preserves {A : Type} (I : World -> Prop) (m : M A) : Prop :=
  triple I m (fun _ => I).

(** *** The statics stay as they are outside [EnsureGtkInitialized] *)

(** [w] has the statics and the number of attach attempts of [w0]. *)
Definition same_handle (w0 w : World) : Prop :=
  attempted w = attempted w0 /\ initialized w = initialized w0
  /\ attach_attempts w = attach_attempts w0.

Create HintDb handle_db.

(** *** The handle moves at most once *)

(** From [w] to [w']: the handle and the number of attach attempts are the
    same, or the handle left "not attempted" and exactly one attempt was
    made. *)
Definition handle_step (w w' : World) : Prop :=
  (handle w' = handle w /\ attach_attempts w' = attach_attempts w)
  \/ (handle w = NotAttempted /\ handle w' <> NotAttempted
      /\ attach_attempts w' = S (attach_attempts w)).

(** ** The lifetime of a Selection Offer Payload *)

Definition is_fault (e : Event) : bool :=
  match e with BadFree _ | BadRead _ => true | _ => false end.

Definition is_alloc (p : addr) (e : Event) : bool :=
  match e with Allocated q => Pos.eqb q p | _ => false end.

Definition is_free (p : addr) (e : Event) : bool :=
  match e with Freed q => Pos.eqb q p | _ => false end.

(** A session call: an event that is neither an allocation, nor a release,
    nor a fault. *)
Definition is_call (e : Event) : bool :=
  match e with
  | Allocated _ | Freed _ | BadFree _ | BadRead _ => false
  | _ => true
  end.

(** The accesses through a dangling address, the [new]s that returned [p]
    and the [delete]s of [p] so far. *)
Definition faults (w : World) : list Event := List.filter is_fault (trace w).

Definition allocations (p : addr) (w : World) : nat :=
  length (List.filter (is_alloc p) (trace w)).

Definition releases (p : addr) (w : World) : nat :=
  length (List.filter (is_free p) (trace w)).

(** The payload an owner references. *)
Definition offer_of (o : Owner) : gset addr :=
  match o with
  | WithData _ _ _ (Some p) => {[p]}
  | _ => ∅
  end.

(** The payload the clipboard holds a reference to. *)
Definition offered (w : World) : gset addr := offer_of (owner (session w)).

(** The payloads on the free store. *)
Definition live (w : World) : gset addr := dom (heap w).

(** The invariant of the free store, with [pending] the payloads that are
    allocated and not yet published: no fault happened; the live payloads
    are the offered one and the pending ones; every address below
    [next_addr] was allocated once, the others never; and an address was
    released once if it was allocated and is not live, never otherwise. *)
Record payload_inv (pending : gset addr) (w : World) : Prop := {
  inv_faults : faults w = [];
  inv_live : live w = offered w ∪ pending;
  inv_disjoint : offered w ## pending;
  inv_below : forall p, p ∈ live w -> (p < next_addr w)%positive;
  inv_allocations : forall p,
    allocations p w = if decide (p < next_addr w)%positive then 1%nat else 0%nat;
  inv_releases : forall p,
    (releases p w + (if decide (p ∈ live w) then 1 else 0))%nat
    = allocations p w;
}.

Create HintDb payload_db.

(** The buffer after the provide callback stored [data] under [type]. *)
Definition provided (type data : string) : GtkSelectionData :=
  mkSelectionData type 8 (Some data) (Z.of_nat (String.length data)).

(** The buffer the provide callback leaves for [data] of any size: the
    length goes through [static_cast<int>] (lines 74 and 80). *)
Definition stored (type data : string) : GtkSelectionData :=
  mkSelectionData type 8
    (if int_of_size_t (String.length data) <? 0 then None
     else Some (bytes data (int_of_size_t (String.length data))))
    (int_of_size_t (String.length data)).

(** A string of [n] bytes [ch], and an absolute path of [S n] bytes. *)
Fixpoint filled (n : nat) (ch : ascii) : string :=
  match n with
  | O => EmptyString
  | S n' => String ch (filled n' ch)
  end.

Definition long_path (n : nat) : string := String "/" (filled n "a").

(** A path of [2^31] bytes. *)
Definition two_gib_path : string := long_path (Z.to_nat (2 ^ 31 - 1)).

(** ** Concrete worlds *)

Module Witness.

(** A session with a display and a clipboard nobody owns; every image
    file decodes to one pixel, every save succeeds and a lossy encoding
    changes the pixel. *)
Definition pixel : GdkPixbuf := mkPixbuf 1 1 "abc".

Definition blurred (pixbuf : GdkPixbuf) (quality : option string) : string :=
  "abd".

Definition desktop : Session :=
  mkSession true true NoOwner (fun _ => Some pixel) (fun _ _ => true)
    blurred.

(** The same without a display. *)
Definition headless : Session :=
  mkSession false true NoOwner (fun _ => Some pixel) (fun _ _ => true)
    blurred.

(** A session in which another application offers an image. *)
Definition with_image : Session :=
  mkSession true true (Foreign (fun _ => None) (Some pixel) true)
    (fun _ => Some pixel) (fun _ _ => true) blurred.

(** A path list with a duplicate, and one with a relative path. *)
Definition twice : list string :=
  ["/home/a/x.txt"; Scenario.beta_md; "/home/a/x.txt"].

Definition with_relative : list string := ["/srv/ok"; "notes/todo.txt"].

(** A process on a desktop whose display appears only after the first
    operation. *)
Definition late_display : list Step :=
  [ Env (Env_display true);
    Host (Op_WriteFilePaths twice);
    Host Op_ClipboardHasImage;
    Host Op_ReadFilePaths ].

(** A process that writes twice, reads, pastes, loses the selection to
    another application, stores an image and clears. *)
Definition busy : list Step :=
  [ Host (Op_WriteFilePaths Scenario.paths);
    Env (Env_paste "UTF8_STRING");
    Host (Op_WriteFilePaths twice);
    Host Op_ReadFilePaths;
    Env (Env_new_owner (fun _ => None) None false);
    Host (Op_WriteFilePaths with_relative);
    Host (Op_PutImageIntoClipboard "/tmp/i.png");
    Host (Op_WriteFilePaths ["/a"]);
    Env (Env_display false);
    Host Op_ClearClipboard ].

End Witness.

(** ** Notions for the further properties *)

(** The bytes of a buffer without its carriage returns. *)
Fixpoint strip_cr (data : string) : string :=
  match data with
  | EmptyString => EmptyString
  | String ch rest =>
      if Ascii.eqb ch CR then strip_cr rest else String ch (strip_cr rest)
  end.

(** The number of line feeds in a buffer. *)
Fixpoint count_lf (data : string) : nat :=
  match data with
  | EmptyString => O
  | String ch rest =>
      if Ascii.eqb ch LF then S (count_lf rest) else count_lf rest
  end.

(** A position at which a line starts: the beginning of the buffer, or
    just after a line feed. *)
Definition at_line_start (before : string) : Prop :=
  before = EmptyString
  \/ exists data, before = data +:+ String LF EmptyString.

(** What [ReadFilePaths] makes of the answer to its request (lines
    106-140): nothing without an answer, without bytes or with a length
    of zero or less, the decoded bytes otherwise. *)
Definition selection_paths (g_filename_from_uri : string -> option string)
    (sel : option GtkSelectionData) : list string :=
  match sel with
  | None => []
  | Some sel =>
      match sd_data sel with
      | None => []
      | Some buffer =>
          if sd_length sel <=? 0 then []
          else decode_uri_list g_filename_from_uri
                 (bytes buffer (sd_length sel))
      end
  end.

(** [w] has the session and the free store of [w0]. *)
Definition kept (w0 w : World) : Prop :=
  session w = session w0 /\ heap w = heap w0.

(** A session with another owner of the clipboard. *)
Definition with_owner (o : Owner) (s : Session) : Session :=
  mkSession (display_available s) (clipboard_available s) o
    (image_files s) (save_succeeds s) (lossy_pixels s).

(** Is there an image on the clipboard's image channel? *)
Definition has_image (s : Session) : bool :=
  match current_image s with Some _ => true | None => false end.

(** What [ClipboardHasImage] asks the session, by build: what the owner
    advertises with the probe of GTK 2.6, what it delivers without. *)
Definition image_answer (gtk_2_6 : bool) (s : Session) : bool :=
  if gtk_2_6 then advertises_image s else has_image s.

(** [w] has the clipboard and the free store of [w0]: the same owner, the
    same availability and the same payloads. Image files may differ. *)
Definition same_clipboard (w0 w : World) : Prop :=
  owner (session w) = owner (session w0)
  /\ clipboard_available (session w) = clipboard_available (session w0)
  /\ display_available (session w) = display_available (session w0)
  /\ heap w = heap w0.

(** A session with a display whose clipboard handle cannot be had, and
    one in which no image file decodes. *)
Definition no_clipboard : Session :=
  mkSession true false (Foreign (fun _ => None) (Some Witness.pixel) true)
    (fun _ => Some Witness.pixel) (fun _ _ => true) Witness.blurred.

(** A session in which only the file [name] decodes, and nobody owns the
    clipboard. *)
Definition no_decoder_but (name : string) : Session :=
  mkSession true true NoOwner
    (fun f => if String.eqb f name then Some Witness.pixel else None)
    (fun _ _ => true) Witness.blurred.

Definition no_decoder : Session :=
  mkSession true true (Foreign (fun _ => None) (Some Witness.pixel) true)
    (fun _ => None) (fun _ _ => true) Witness.blurred.

(** The operations that only ask the clipboard. *)
Definition is_query (op : Operation) : bool :=
  match op with
  | Op_ReadFilePaths | Op_SaveClipboardImageAsJpeg _ _
  | Op_SaveClipboardImageAsPng _ | Op_ClipboardHasImage => true
  | Op_WriteFilePaths _ | Op_ClearClipboard | Op_PutImageIntoClipboard _ =>
      false
  end.

(** Is the clipboard held by another application? *)
Definition is_foreign (o : Owner) : bool :=
  match o with Foreign _ _ _ => true | _ => false end.

(** The saves of the host. *)
Definition is_save (s : Step) : bool :=
  match s with
  | Host (Op_SaveClipboardImageAsJpeg _ _)
  | Host (Op_SaveClipboardImageAsPng _) => true
  | _ => false
  end.

(** A session in which another application advertises an image that it
    does not deliver. *)
Definition lazy_owner : Session :=
  mkSession true true (Foreign (fun _ => None) None true)
    (fun _ => Some Witness.pixel) (fun _ _ => true) Witness.blurred.

(** The steps that only ask: a query of the host, or a paste request of
    another client. *)
Definition is_passive (s : Step) : bool :=
  match s with
  | Host op => is_query op
  | Env (Env_paste _) => true
  | Env _ => false
  end.

(** A float that is not a positive finite number: a zero, a negative
    number, an infinity or a NaN. *)
Definition not_positive (f : spec_float) : bool :=
  match f with
  | S754_finite false _ _ => false
  | _ => true
  end.

(** * Proofs *)

(** ** The model on the specification's examples *)

Example glib_to_uri_ascii :
  GLib.g_filename_to_uri "/home/a/x.txt" = Some "file:///home/a/x.txt".
Proof. reflexivity. Qed.

Example glib_to_uri_beta :
  GLib.g_filename_to_uri Scenario.beta_md = Some "file:///tmp/%CE%B2.md".
Proof. reflexivity. Qed.

Example glib_to_uri_relative : GLib.g_filename_to_uri "a/b" = None.
Proof. reflexivity. Qed.

Example glib_from_uri_beta :
  GLib.g_filename_from_uri "file:///tmp/%CE%B2.md" = Some Scenario.beta_md.
Proof. reflexivity. Qed.

Example glib_from_uri_host :
  GLib.g_filename_from_uri "file://localhost/etc/passwd" = Some "/etc/passwd".
Proof. reflexivity. Qed.

Example glib_from_uri_comment : GLib.g_filename_from_uri "# comment" = None.
Proof. reflexivity. Qed.

Example scenario_encode :
  uri_list_of GLib.g_filename_to_uri Scenario.paths = Scenario.uri_list_bytes
  /\ plain_text_of Scenario.paths = Scenario.utf8_string_bytes.
Proof. split; reflexivity. Qed.

Example scenario_decode :
  decode_uri_list GLib.g_filename_from_uri Scenario.clipboard_bytes
  = ["/a"; "/b"].
Proof. reflexivity. Qed.

Example quality_half :
  Quality.jpeg_quality Quality.x86_unrepresentable (Quality.float_of 1 (-1)) = 50.
Proof. reflexivity. Qed.

Example quality_0_29 :
  Quality.jpeg_quality Quality.x86_unrepresentable
    (SFdiv Quality.prec Quality.emax (Quality.float_of 29 0) Quality.hundred)
  = 29.
Proof. reflexivity. Qed.

Example quality_0_53 :
  Quality.jpeg_quality Quality.x86_unrepresentable
    (SFdiv Quality.prec Quality.emax (Quality.float_of 53 0) Quality.hundred)
  = 52.
Proof. reflexivity. Qed.

Example quality_above_one :
  Quality.jpeg_quality Quality.x86_unrepresentable (Quality.float_of 5 0) = 100.
Proof. reflexivity. Qed.

Example quality_negative :
  Quality.jpeg_quality Quality.x86_unrepresentable
    (SFopp (Quality.float_of 3 0)) = 0.
Proof. reflexivity. Qed.

Example quality_nan :
  Quality.jpeg_quality Quality.x86_unrepresentable S754_nan = 0.
Proof. reflexivity. Qed.

(** Write, then read in the same process: the paths come back; after a
    clear nothing does; and a second write releases the first payload. *)
Example write_then_read :
  fst (ReadFilePaths GLib.g_filename_from_uri
         (written GLib.g_filename_to_uri Witness.twice
            (initial_world Witness.desktop)))
  = Witness.twice.
Proof. vm_compute. reflexivity. Qed.

Example write_clear_read :
  fst (ReadFilePaths GLib.g_filename_from_uri
         (snd (ClearClipboard
                 (written GLib.g_filename_to_uri Witness.twice
                    (initial_world Witness.desktop)))))
  = [].
Proof. vm_compute. reflexivity. Qed.

Example write_write_trace :
  trace (written GLib.g_filename_to_uri ["/b"]
           (written GLib.g_filename_to_uri ["/a"]
              (initial_world Witness.desktop)))
  = [ Call_gtk_clipboard_store; Freed 1%positive;
      Call_gtk_clipboard_set_with_data write_targets 3
        Fn_clipboard_get_func Fn_clipboard_clear_func (Some 2%positive);
      Allocated 2%positive; Call_gtk_clipboard_get;
      Call_gtk_clipboard_store;
      Call_gtk_clipboard_set_with_data write_targets 3
        Fn_clipboard_get_func Fn_clipboard_clear_func (Some 1%positive);
      Allocated 1%positive; Call_gtk_clipboard_get; Call_gtk_init_check ].
Proof. vm_compute. reflexivity. Qed.

(** ** Facts about strings *)

Lemma string_app_cons (c : ascii) (s1 s2 : string) :
  String c s1 +:+ s2 = String c (s1 +:+ s2).
Proof. reflexivity. Qed.

Lemma string_app_nil_l (s : string) : EmptyString +:+ s = s.
Proof. reflexivity. Qed.

Lemma string_app_nil_r (s : string) : s +:+ EmptyString = s.
Proof.
  induction s as [|c s IH]; [reflexivity |].
  now rewrite string_app_cons, IH.
Qed.

Lemma string_app_assoc (s1 s2 s3 : string) :
  (s1 +:+ s2) +:+ s3 = s1 +:+ (s2 +:+ s3).
Proof.
  induction s1 as [|c s1 IH]; [reflexivity |].
  now rewrite !string_app_cons, IH.
Qed.

Lemma empty_true_iff (s : string) : empty s = true <-> s = EmptyString.
Proof. destruct s; simpl; split; congruence. Qed.

Lemma empty_app (s1 s2 : string) : empty (s1 +:+ s2) = empty s1 && empty s2.
Proof. destruct s1; reflexivity. Qed.

Lemma mem_app (ch : ascii) (s1 s2 : string) :
  mem ch (s1 +:+ s2) = mem ch s1 || mem ch s2.
Proof.
  induction s1 as [|c s1 IH]; [reflexivity |].
  rewrite string_app_cons. simpl. now rewrite IH, orb_assoc.
Qed.

Lemma c_str_no_nul (s : string) : mem NUL s = false -> c_str s = s.
Proof.
  induction s as [|c s IH]; simpl; [reflexivity |].
  intros H. apply orb_false_iff in H as [Hc Hs].
  rewrite Hc. now rewrite IH.
Qed.

Lemma c_str_mem_nul (s : string) : mem NUL (c_str s) = false.
Proof.
  induction s as [|c s IH]; simpl; [reflexivity |].
  destruct (Ascii.eqb c NUL) eqn:E; simpl; [reflexivity |].
  now rewrite E.
Qed.

(** ** The loops in closed form *)

Lemma joinWithCrlf_loop_spec (rest done : list string) (oss : string) :
  joinWithCrlf_loop (done ++ rest) (length done) (length rest) oss
  = oss +:+ crlf_terminated rest.
Proof.
  revert done oss.
  induction rest as [|item rest IH]; intros done oss; simpl.
  - now rewrite string_app_nil_r.
  - rewrite nth_middle.
    replace (done ++ item :: rest) with ((done ++ [item]) ++ rest)
      by now rewrite <- app_assoc.
    replace (S (length done)) with (length (done ++ [item]))
      by (rewrite length_app; simpl; lia).
    rewrite IH. now rewrite !string_app_assoc.
Qed.

Lemma joinWithCrlf_spec (items : list string) :
  joinWithCrlf items = crlf_terminated items.
Proof.
  unfold joinWithCrlf.
  exact (joinWithCrlf_loop_spec items [] EmptyString).
Qed.

Lemma plain_text_loop_spec (rest done : list string) (plain : string) :
  plain_text_loop (done ++ rest) (length done) (length rest) plain
  = plain +:+ String.concat (String LF EmptyString) rest.
Proof.
  revert done plain.
  induction rest as [|path rest IH]; intros done plain; simpl.
  - now rewrite string_app_nil_r.
  - rewrite nth_middle.
    replace (done ++ path :: rest) with ((done ++ [path]) ++ rest)
      by now rewrite <- app_assoc.
    replace (S (length done)) with (length (done ++ [path]))
      by (rewrite length_app; simpl; lia).
    rewrite IH. unfold push_back.
    rewrite !length_app. simpl length.
    destruct rest as [|path' rest].
    + simpl. replace (length done + 1 <? length done + 1 + 0)%nat
        with false by (symmetry; apply Nat.ltb_ge; lia).
      now rewrite !string_app_nil_r.
    + replace (length done + 1 <? length done + 1 + length (path' :: rest))%nat
        with true by (symmetry; apply Nat.ltb_lt; simpl; lia).
      now rewrite !string_app_assoc.
Qed.

Lemma plain_text_of_spec (file_paths : list string) :
  plain_text_of file_paths = String.concat (String LF EmptyString) file_paths.
Proof.
  unfold plain_text_of.
  exact (plain_text_loop_spec file_paths [] EmptyString).
Qed.

Section CodecFacts.

Variable g_filename_to_uri : string -> option string.

Variable g_filename_from_uri : string -> option string.

Lemma build_uris_spec (file_paths uris : list string) :
  build_uris g_filename_to_uri file_paths uris
  = uris ++ omap (fun path => g_filename_to_uri (c_str path)) file_paths.
Proof.
  revert uris. induction file_paths as [|path rest IH]; intros uris; simpl.
  - now rewrite app_nil_r.
  - destruct (g_filename_to_uri (c_str path)) as [uri|]; rewrite IH.
    + now rewrite <- app_assoc.
    + reflexivity.
Qed.

Lemma read_lines_spec (lines result : list string) :
  read_lines g_filename_from_uri lines result
  = result ++ omap (fun line => g_filename_from_uri (c_str line))
                (filter (fun line => uri_line line = true) lines).
Proof.
  revert result. induction lines as [|line rest IH]; intros result; simpl.
  - now rewrite app_nil_r.
  - rewrite filter_cons.
    destruct (empty line) eqn:He; simpl.
    + rewrite decide_False; [apply IH |].
      unfold uri_line. rewrite He. discriminate.
    + destruct (Ascii.eqb (front line) HASH) eqn:Hh.
      * rewrite decide_False; [apply IH |].
        unfold uri_line. rewrite He, Hh. discriminate.
      * rewrite decide_True by (unfold uri_line; now rewrite He, Hh).
        simpl.
        destruct (g_filename_from_uri (c_str line)) as [filename|];
          rewrite IH; [now rewrite <- app_assoc | reflexivity].
Qed.

End CodecFacts.

(** ** How [splitLines] reads a CRLF-terminated body *)

Lemma line_clean_cons (c : ascii) (s : string) :
  line_clean (String c s) = true ->
  Ascii.eqb c CR = false /\ Ascii.eqb c LF = false /\ line_clean s = true.
Proof.
  unfold line_clean. simpl. intros H.
  apply andb_true_iff in H as [H1 H2].
  apply negb_true_iff, orb_false_iff in H1 as [H1 H1'].
  apply negb_true_iff, orb_false_iff in H2 as [H2 H2'].
  now rewrite H1, H2, H1', H2'.
Qed.

Lemma line_clean_push_back (s : string) (c : ascii) :
  line_clean s = true -> Ascii.eqb c CR = false -> Ascii.eqb c LF = false ->
  line_clean (push_back s c) = true.
Proof.
  unfold line_clean, push_back. intros H Hcr Hlf.
  rewrite !mem_app. simpl. rewrite Hcr, Hlf.
  now rewrite !orb_false_r.
Qed.

Lemma splitLines_loop_clean (u rest : string) (lines : list string)
    (current : string) :
  line_clean u = true ->
  splitLines_loop (u +:+ rest) lines current
  = splitLines_loop rest lines (current +:+ u).
Proof.
  revert current. induction u as [|c u IH]; intros current Hu.
  - now rewrite string_app_nil_l, string_app_nil_r.
  - apply line_clean_cons in Hu as (Hcr & Hlf & Hu).
    rewrite string_app_cons. simpl. rewrite Hcr, Hlf.
    rewrite IH by exact Hu. unfold push_back.
    now rewrite string_app_assoc.
Qed.

Lemma splitLines_loop_crlf (rest : string) (lines : list string)
    (current : string) :
  splitLines_loop (CRLF +:+ rest) lines current
  = splitLines_loop rest (lines ++ [current]) EmptyString.
Proof.
  unfold CRLF. rewrite !string_app_cons, string_app_nil_l. simpl.
  destruct current; reflexivity.
Qed.

Lemma splitLines_loop_terminated (items lines : list string) :
  Forall (fun u => line_clean u = true) items ->
  splitLines_loop (crlf_terminated items) lines EmptyString = lines ++ items.
Proof.
  intros H. revert lines.
  induction H as [|u items Hu _ IH]; intros lines; simpl.
  - now rewrite app_nil_r.
  - rewrite splitLines_loop_clean by exact Hu.
    rewrite string_app_nil_l, splitLines_loop_crlf, IH.
    now rewrite <- app_assoc.
Qed.

Lemma splitLines_joinWithCrlf (items : list string) :
  Forall (fun u => line_clean u = true) items ->
  splitLines (joinWithCrlf items) = items.
Proof.
  intros H. rewrite joinWithCrlf_spec. unfold splitLines.
  now rewrite splitLines_loop_terminated.
Qed.

(** Whatever the bytes, the lines [splitLines] returns hold no CR and no
    LF. *)
Lemma splitLines_loop_lines_clean (data : string) (lines : list string)
    (current : string) :
  Forall (fun l => line_clean l = true) lines ->
  line_clean current = true ->
  Forall (fun l => line_clean l = true) (splitLines_loop data lines current).
Proof.
  revert lines current.
  induction data as [|ch rest IH]; intros lines current Hl Hc; simpl.
  - destruct (empty current); simpl; [exact Hl |].
    apply Forall_app; split; [exact Hl | now constructor].
  - destruct (Ascii.eqb ch CR) eqn:Hcr; [now apply IH |].
    destruct (Ascii.eqb ch LF) eqn:Hlf.
    + destruct (empty current); simpl; apply IH;
        try (apply Forall_app; split; [exact Hl | now constructor]);
        first [exact Hc | reflexivity].
    + apply IH; [exact Hl | now apply line_clean_push_back].
Qed.

Lemma splitLines_lines_clean (data : string) :
  Forall (fun l => line_clean l = true) (splitLines data).
Proof.
  apply splitLines_loop_lines_clean; [constructor | reflexivity].
Qed.

Lemma omap_cons_Some {A B} (f : A -> option B) (x : A) (y : B) (l : list A) :
  f x = Some y -> omap f (x :: l) = y :: omap f l.
Proof. intros H. change (omap f (x :: l)) with
  (match f x with Some y => y :: omap f l | None => omap f l end).
  now rewrite H.
Qed.

Lemma omap_cons_None {A B} (f : A -> option B) (x : A) (l : list A) :
  f x = None -> omap f (x :: l) = omap f l.
Proof. intros H. change (omap f (x :: l)) with
  (match f x with Some y => y :: omap f l | None => omap f l end).
  now rewrite H.
Qed.

(** ** Round trip through the URI list *)

Section RoundTrip.

Variable g_filename_to_uri : string -> option string.

Variable g_filename_from_uri : string -> option string.

Lemma friendly_uris (P : list string) :
  Forall (uri_friendly g_filename_to_uri g_filename_from_uri) P ->
  exists uris,
    omap (fun path => g_filename_to_uri (c_str path)) P = uris
    /\ Forall (fun u => line_clean u = true) uris
    /\ filter (fun line => uri_line line = true) uris = uris
    /\ omap (fun line => g_filename_from_uri (c_str line)) uris = P.
Proof.
  induction 1 as [|path P (uri & Hto & Hclean & Hline & Hfrom) _ IH].
  - exists []. repeat split; constructor.
  - destruct IH as (uris & Huris & Hall & Hfilter & Hback).
    exists (uri :: uris).
    rewrite (omap_cons_Some _ path uri) by exact Hto.
    rewrite (omap_cons_Some _ uri path) by exact Hfrom.
    rewrite Huris, Hback.
    rewrite filter_cons, decide_True by exact Hline. rewrite Hfilter.
    repeat split. now constructor.
Qed.

Lemma decode_encode_friendly (P : list string) :
  Forall (uri_friendly g_filename_to_uri g_filename_from_uri) P ->
  decode_uri_list g_filename_from_uri (uri_list_of g_filename_to_uri P) = P.
Proof.
  intros HP.
  destruct (friendly_uris P HP) as (uris & Huris & Hall & Hfilter & Hback).
  unfold decode_uri_list, uri_list_of.
  rewrite build_uris_spec, app_nil_l, Huris.
  rewrite splitLines_joinWithCrlf by exact Hall.
  now rewrite read_lines_spec, app_nil_l, Hfilter.
Qed.

End RoundTrip.

(** ** The GLib model is a faithful converter pair *)

Module GLibFacts.

Import GLib.

Lemma g_escape_uri_string_cons (c : ascii) (s : string) :
  g_escape_uri_string (String c s) = escape_byte c +:+ g_escape_uri_string s.
Proof. unfold escape_byte. simpl. destruct (acceptable c); reflexivity. Qed.

Lemma byte_ok_all (c : ascii) : byte_ok c = true.
Proof.
  destruct c as [b0 b1 b2 b3 b4 b5 b6 b7].
  destruct b0, b1, b2, b3, b4, b5, b6, b7; vm_compute; reflexivity.
Qed.

Lemma escape_byte_facts (c : ascii) :
  mem NUL (escape_byte c) = false
  /\ mem HASH (escape_byte c) = false
  /\ line_clean (escape_byte c) = true.
Proof.
  pose proof (byte_ok_all c) as H. unfold byte_ok in H.
  repeat (apply andb_true_iff in H as [H ?]).
  unfold line_clean.
  repeat split; try (now apply negb_true_iff).
  now apply andb_true_iff.
Qed.

Lemma unescape_escape_byte (c : ascii) (rest : string) :
  Ascii.eqb c NUL = false ->
  g_unescape_uri_string (escape_byte c +:+ rest) "/" false
  = String c <$> g_unescape_uri_string rest "/" false.
Proof.
  destruct c as [b0 b1 b2 b3 b4 b5 b6 b7].
  destruct b0, b1, b2, b3, b4, b5, b6, b7; intros Hc;
    first [reflexivity | vm_compute in Hc; discriminate Hc].
Qed.

Lemma escaped_facts (s : string) :
  mem NUL (g_escape_uri_string s) = false
  /\ mem HASH (g_escape_uri_string s) = false
  /\ line_clean (g_escape_uri_string s) = true.
Proof.
  induction s as [|c s (IH1 & IH2 & IH3)]; [repeat split |].
  rewrite g_escape_uri_string_cons.
  destruct (escape_byte_facts c) as (H1 & H2 & H3).
  unfold line_clean in *. rewrite !mem_app.
  apply andb_true_iff in H3 as [H3 H4]. apply andb_true_iff in IH3 as [IH3 IH4].
  apply negb_true_iff in H3, H4, IH3, IH4.
  now rewrite H1, H2, H3, H4, IH1, IH2, IH3, IH4.
Qed.

Lemma unescape_escape (s : string) :
  mem NUL s = false ->
  g_unescape_uri_string (g_escape_uri_string s) "/" false = Some s.
Proof.
  induction s as [|c s IH]; [reflexivity |].
  simpl mem. intros H. apply orb_false_iff in H as [Hc Hs].
  rewrite g_escape_uri_string_cons, unescape_escape_byte by exact Hc.
  now rewrite IH.
Qed.

(** An absolute path without NUL goes to a [file:///] URI and comes back. *)
Lemma absolute_path_friendly (path : string) :
  g_path_is_absolute path = true ->
  mem NUL path = false ->
  uri_friendly g_filename_to_uri g_filename_from_uri path.
Proof.
  intros Habs Hnul.
  destruct path as [|c path]; [discriminate Habs |].
  unfold g_path_is_absolute in Habs. simpl in Habs.
  apply Ascii.eqb_eq in Habs. subst c.
  assert (Hp : mem NUL path = false) by exact Hnul.
  destruct (escaped_facts path) as (E1 & E2 & E3).
  exists ("file:///" +:+ g_escape_uri_string path).
  split; [| split; [| split]].
  - rewrite c_str_no_nul by exact Hnul. reflexivity.
  - unfold line_clean in *. rewrite !mem_app.
    apply andb_true_iff in E3 as [E3 E4]. apply negb_true_iff in E3, E4.
    now rewrite E3, E4.
  - reflexivity.
  - rewrite c_str_no_nul by (rewrite mem_app, E1; reflexivity).
    change (g_filename_from_uri ("file:///" +:+ g_escape_uri_string path))
      with (if mem HASH ("///" +:+ g_escape_uri_string path) then None
            else g_unescape_uri_string
                   (String SLASH (g_escape_uri_string path)) "/" false).
    rewrite mem_app, E2. simpl.
    now rewrite unescape_escape.
Qed.

End GLibFacts.

(** ** The session query *)

Lemma EnsureGtkInitialized_unfold (w : World) :
  EnsureGtkInitialized w
  = if attempted w then (initialized w, w)
    else (display_available (session w),
          mkWorld true (display_available (session w)) (heap w)
            (next_addr w) (session w) (Call_gtk_init_check :: trace w)).
Proof. destruct w as [a i h n s t]. destruct a; reflexivity. Qed.

(** After the query the statics hold its answer, and the session and the
    free store are as before. *)
Lemma EnsureGtkInitialized_effects (w : World) :
  let (ok, w') := EnsureGtkInitialized w in
  attempted w' = true /\ initialized w' = ok
  /\ session w' = session w /\ heap w' = heap w
  /\ next_addr w' = next_addr w
  /\ (trace w' = trace w \/ trace w' = Call_gtk_init_check :: trace w).
Proof.
  rewrite EnsureGtkInitialized_unfold.
  destruct (attempted w) eqn:E; simpl; auto 10.
Qed.

Section FacadeFacts.

Variable g_filename_to_uri : string -> option string.

Variable g_filename_from_uri : string -> option string.

Variable unrepresentable : spec_float -> Z.

Variable gtk_2_6 : bool.

Local Abbreviation perform' :=
  (perform g_filename_to_uri g_filename_from_uri unrepresentable gtk_2_6).

Lemma perform_not_attached (op : Operation) (w : World) :
  fst (EnsureGtkInitialized w) = false ->
  perform' op w = (neutral op, snd (EnsureGtkInitialized w)).
Proof.
  intros H.
  destruct op; unfold perform, ReadFilePaths, WriteFilePaths, ClearClipboard,
    SaveClipboardImageAsJpeg, SaveClipboardImageAsPng, PutImageIntoClipboard,
    ClipboardHasImage, bind;
    destruct (EnsureGtkInitialized w) as [ok w1]; simpl in H; subst ok;
    reflexivity.
Qed.

End FacadeFacts.

(** ** Rules of the program logic *)

Lemma triple_ret {A : Type} (P : World -> Prop) (Q : A -> World -> Prop)
    (a : A) :
  (forall w, P w -> Q a w) -> triple P (ret a) Q.
Proof. intros H w Hw. now apply H. Qed.

Lemma triple_bind {A B : Type} (P : World -> Prop) (Q : A -> World -> Prop)
    (R : B -> World -> Prop) (m : M A) (k : A -> M B) :
  triple P m Q -> (forall a, triple (Q a) (k a) R) -> triple P (bind m k) R.
Proof.
  intros Hm Hk w Hw. unfold bind.
  specialize (Hm w Hw). destruct (m w) as [a w1]. now apply Hk.
Qed.

Lemma triple_weaken {A : Type} (P P' : World -> Prop)
    (Q Q' : A -> World -> Prop) (m : M A) :
  triple P' m Q' -> (forall w, P w -> P' w) ->
  (forall a w, Q' a w -> Q a w) -> triple P m Q.
Proof. intros Hm HP HQ w Hw. apply HQ, Hm, HP, Hw. Qed.

Lemma preserves_ret {A : Type} (I : World -> Prop) (a : A) :
  preserves I (ret a).
Proof. now apply triple_ret. Qed.

Lemma preserves_bind {A B : Type} (I : World -> Prop) (m : M A)
    (k : A -> M B) :
  preserves I m -> (forall a, preserves I (k a)) -> preserves I (bind m k).
Proof. intros Hm Hk. eapply triple_bind; [exact Hm | exact Hk]. Qed.

(** A primitive that only reads the world. *)
Lemma preserves_read {A : Type} (I : World -> Prop) (f : World -> A) :
  preserves I (fun w => (f w, w)).
Proof. intros w Hw. exact Hw. Qed.

(** One step through a composed operation; the leaves are left to a hint
    database. *)
Ltac mstep :=
  lazymatch goal with
  | |- preserves _ (bind _ _) => apply preserves_bind; [| intros ?]
  | |- preserves _ (ret _) => apply preserves_ret
  | |- preserves _ (match ?x with _ => _ end) => destruct x
  | |- preserves _ (let _ := _ in _) => cbv zeta
  end.

Ltac msolve db := repeat mstep; auto with db.

(** ** The statics stay as they are outside [EnsureGtkInitialized] *)

Lemma same_handle_log (w0 : World) (e : Event) :
  is_attach e = false -> preserves (same_handle w0) (log e).
Proof.
  intros He w (Ha & Hi & Hn). unfold same_handle, attach_attempts in *.
  simpl. rewrite He. auto.
Qed.

Lemma same_handle_get_session (w0 : World) :
  preserves (same_handle w0) get_session.
Proof. apply preserves_read. Qed.

Lemma same_handle_set_owner (w0 : World) (o : Owner) :
  preserves (same_handle w0) (set_owner o).
Proof. intros w H. exact H. Qed.

Lemma same_handle_set_availability (w0 : World) (d c : bool) :
  preserves (same_handle w0) (set_availability d c).
Proof. intros w H. exact H. Qed.

Lemma same_handle_write_image_file (w0 : World) (filename : string)
    (image : GdkPixbuf) :
  preserves (same_handle w0) (write_image_file filename image).
Proof. intros w H. exact H. Qed.

Lemma same_handle_new (w0 : World) :
  preserves (same_handle w0) new_UriListData.
Proof. intros w H. exact H. Qed.

Lemma same_handle_deref (w0 : World) (p : addr) :
  preserves (same_handle w0) (deref p).
Proof.
  intros w H. unfold deref. destruct (heap w !! p); [exact H |].
  now apply (same_handle_log w0 (BadRead p)).
Qed.

Lemma same_handle_assign (w0 : World) (p : addr)
    (f : UriListData -> UriListData) :
  preserves (same_handle w0) (assign p f).
Proof.
  intros w H. unfold assign. destruct (heap w !! p); [exact H |].
  now apply (same_handle_log w0 (BadRead p)).
Qed.

Lemma same_handle_delete_payload (w0 : World) (payload : gpointer) :
  preserves (same_handle w0) (delete_payload payload).
Proof.
  intros w H. unfold delete_payload. destruct payload as [p|]; [| exact H].
  destruct (heap w !! p); [exact H |].
  now apply (same_handle_log w0 (BadFree p)).
Qed.

#[local] Hint Resolve same_handle_log same_handle_get_session
  same_handle_set_owner same_handle_set_availability
  same_handle_write_image_file same_handle_new
  same_handle_deref same_handle_assign same_handle_delete_payload
  : handle_db.

Lemma same_handle_selection_data_set (w0 : World) (sd : GtkSelectionData)
    (type : string) (format : Z) (data : string) (length : Z) :
  preserves (same_handle w0) (gtk_selection_data_set sd type format data length).
Proof. unfold gtk_selection_data_set. msolve handle_db. Qed.

#[local] Hint Resolve same_handle_selection_data_set : handle_db.

Lemma same_handle_get_func (w0 : World) (sd : GtkSelectionData) (info : Z)
    (user_data : gpointer) :
  preserves (same_handle w0) (clipboard_get_func sd info user_data).
Proof. unfold clipboard_get_func. msolve handle_db. Qed.

Lemma same_handle_clear_func (w0 : World) (user_data : gpointer) :
  preserves (same_handle w0) (clipboard_clear_func user_data).
Proof. unfold clipboard_clear_func. msolve handle_db. Qed.

Lemma same_handle_call_get_func (w0 : World) (f : GtkClipboardGetFunc)
    (sd : GtkSelectionData) (info : Z) (user_data : gpointer) :
  preserves (same_handle w0) (call_get_func f sd info user_data).
Proof. destruct f. apply same_handle_get_func. Qed.

Lemma same_handle_call_clear_func (w0 : World) (f : GtkClipboardClearFunc)
    (user_data : gpointer) :
  preserves (same_handle w0) (call_clear_func f user_data).
Proof. destruct f. apply same_handle_clear_func. Qed.

#[local] Hint Resolve same_handle_call_get_func same_handle_call_clear_func
  : handle_db.

Lemma same_handle_change_owner (w0 : World) (o : Owner) :
  preserves (same_handle w0) (change_owner o).
Proof.
  unfold change_owner, release_owner. msolve handle_db.
Qed.

Lemma same_handle_serve_request (w0 : World) (requested : string) :
  preserves (same_handle w0) (serve_request requested).
Proof.
  unfold serve_request. msolve handle_db.
Qed.

#[local] Hint Resolve same_handle_change_owner same_handle_serve_request
  : handle_db.

Lemma same_handle_env_step (w0 : World) (e : EnvEvent) :
  preserves (same_handle w0) (env_step e).
Proof. destruct e; unfold env_step; msolve handle_db. Qed.

Lemma same_handle_gtk_clipboard_get (w0 : World) :
  preserves (same_handle w0) gtk_clipboard_get.
Proof. unfold gtk_clipboard_get. msolve handle_db. Qed.

Lemma same_handle_wait_for_contents (w0 : World) (c : GtkClipboard)
    (requested : string) :
  preserves (same_handle w0) (gtk_clipboard_wait_for_contents c requested).
Proof. unfold gtk_clipboard_wait_for_contents. msolve handle_db. Qed.

Lemma same_handle_set_with_data (w0 : World) (c : GtkClipboard)
    (targets : list GtkTargetEntry) (n : Z) (g : GtkClipboardGetFunc)
    (f : GtkClipboardClearFunc) (user_data : gpointer) :
  preserves (same_handle w0)
    (gtk_clipboard_set_with_data c targets n g f user_data).
Proof. unfold gtk_clipboard_set_with_data. msolve handle_db. Qed.

Lemma same_handle_store (w0 : World) (c : GtkClipboard) :
  preserves (same_handle w0) (gtk_clipboard_store c).
Proof. unfold gtk_clipboard_store. msolve handle_db. Qed.

Lemma same_handle_clear (w0 : World) (c : GtkClipboard) :
  preserves (same_handle w0) (gtk_clipboard_clear c).
Proof. unfold gtk_clipboard_clear. msolve handle_db. Qed.

Lemma same_handle_wait_for_image (w0 : World) (c : GtkClipboard) :
  preserves (same_handle w0) (gtk_clipboard_wait_for_image c).
Proof. unfold gtk_clipboard_wait_for_image. msolve handle_db. Qed.

Lemma same_handle_wait_is_image_available (w0 : World) (c : GtkClipboard) :
  preserves (same_handle w0) (gtk_clipboard_wait_is_image_available c).
Proof. unfold gtk_clipboard_wait_is_image_available. msolve handle_db. Qed.

Lemma same_handle_set_image (w0 : World) (c : GtkClipboard)
    (pixbuf : GdkPixbuf) :
  preserves (same_handle w0) (gtk_clipboard_set_image c pixbuf).
Proof. unfold gtk_clipboard_set_image. msolve handle_db. Qed.

Lemma same_handle_new_from_file (w0 : World) (filename : string) :
  preserves (same_handle w0) (gdk_pixbuf_new_from_file filename).
Proof. unfold gdk_pixbuf_new_from_file. msolve handle_db. Qed.

Lemma same_handle_pixbuf_save (w0 : World) (pixbuf : GdkPixbuf)
    (filename type : string) (quality : option string) :
  preserves (same_handle w0) (gdk_pixbuf_save pixbuf filename type quality).
Proof. unfold gdk_pixbuf_save. msolve handle_db. Qed.

#[local] Hint Resolve same_handle_gtk_clipboard_get
  same_handle_wait_for_contents same_handle_set_with_data same_handle_store
  same_handle_clear same_handle_wait_for_image
  same_handle_wait_is_image_available same_handle_set_image
  same_handle_new_from_file same_handle_pixbuf_save same_handle_env_step
  : handle_db.

(** ** The handle moves at most once *)

Lemma handle_step_refl (w : World) : handle_step w w.
Proof. left. split; reflexivity. Qed.

Lemma handle_step_same (w w1 w2 : World) :
  handle_step w w1 -> same_handle w1 w2 -> handle_step w w2.
Proof.
  intros H (Ha & Hi & Hn).
  assert (Hh : handle w2 = handle w1) by (unfold handle; now rewrite Ha, Hi).
  destruct H as [(H1 & H2) | (H1 & H2 & H3)]; [left | right];
    rewrite Hh, Hn; auto.
Qed.

Lemma handle_step_lift {A : Type} (w : World) (m : M A) :
  (forall w0, preserves (same_handle w0) m) -> preserves (handle_step w) m.
Proof.
  intros Hm w1 H1. eapply handle_step_same; [exact H1 |].
  apply Hm. repeat split.
Qed.

Lemma handle_step_EnsureGtkInitialized (w : World) :
  preserves (handle_step w) EnsureGtkInitialized.
Proof.
  intros w1 H1. rewrite EnsureGtkInitialized_unfold.
  destruct (attempted w1) eqn:Ea; [exact H1 |].
  assert (Hh1 : handle w1 = NotAttempted) by (unfold handle; now rewrite Ea).
  right. simpl.
  destruct H1 as [(H1 & H2) | (H1 & H2 & H3)]; [| congruence].
  repeat split.
  - congruence.
  - unfold handle. simpl. now destruct (display_available (session w1)).
  - unfold attach_attempts in *. simpl. now rewrite H2.
Qed.

#[local] Hint Resolve handle_step_EnsureGtkInitialized : handle_db.

#[local] Hint Extern 5 (preserves (handle_step _) _) =>
  (apply handle_step_lift; intros ?) : handle_db.

Section HandleFacts.

Variable g_filename_to_uri : string -> option string.

Variable g_filename_from_uri : string -> option string.

Variable unrepresentable : spec_float -> Z.

Variable gtk_2_6 : bool.

Local Abbreviation perform' :=
  (perform g_filename_to_uri g_filename_from_uri unrepresentable gtk_2_6).

Local Abbreviation step' :=
  (step g_filename_to_uri g_filename_from_uri unrepresentable gtk_2_6).

Local Abbreviation run' :=
  (run g_filename_to_uri g_filename_from_uri unrepresentable gtk_2_6).

Lemma handle_step_perform (w : World) (op : Operation) :
  preserves (handle_step w) (perform' op).
Proof.
  destruct op; unfold perform, ReadFilePaths, WriteFilePaths, ClearClipboard,
    SaveClipboardImageAsJpeg, SaveClipboardImageAsPng, PutImageIntoClipboard,
    ClipboardHasImage; msolve handle_db.
Qed.

Lemma handle_step_step (w w1 : World) (s : Step) :
  handle_step w w1 -> handle_step w (step' s w1).
Proof.
  intros H. destruct s as [op | e]; simpl.
  - now apply handle_step_perform.
  - apply (handle_step_lift w (env_step e)); [| exact H].
    intros w0. apply same_handle_env_step.
Qed.

Lemma handle_step_run (steps : list Step) (w w1 : World) :
  handle_step w w1 -> handle_step w (run' steps w1).
Proof.
  revert w1. induction steps as [|s steps IH]; intros w1 H; simpl.
  - exact H.
  - apply IH. now apply handle_step_step.
Qed.

End HandleFacts.

(** ** The invariant of the free store *)

Lemma payload_inv_initial (s : Session) :
  offer_of (owner s) = ∅ -> payload_inv ∅ (initial_world s).
Proof.
  intros Hs. split; unfold faults, live, offered, allocations, releases; simpl.
  - reflexivity.
  - rewrite Hs. set_solver.
  - rewrite Hs. set_solver.
  - intros p Hp. set_solver.
  - intros p. rewrite decide_False by lia. reflexivity.
  - intros p. rewrite decide_False by set_solver. reflexivity.
Qed.

(** An operation that leaves the free store and the owner alone and adds
    only session calls to the trace keeps the invariant. *)
Lemma payload_inv_frame (X : gset addr) (w w' : World) :
  heap w' = heap w -> next_addr w' = next_addr w ->
  owner (session w') = owner (session w) ->
  List.filter (fun e => negb (is_call e)) (trace w')
  = List.filter (fun e => negb (is_call e)) (trace w) ->
  payload_inv X w -> payload_inv X w'.
Proof.
  intros Hh Hn Ho Ht [I1 I2 I3 I4 I5 I6].
  assert (F : forall (f : Event -> bool),
             (forall e, f e = true -> is_call e = false) ->
             List.filter f (trace w') = List.filter f (trace w)).
  { intros f Hf.
    assert (G : forall t, List.filter f t
                = List.filter f (List.filter (fun e => negb (is_call e)) t)).
    { induction t as [|e t IH]; [reflexivity |]. simpl.
      destruct (f e) eqn:Ef.
      - rewrite (Hf e Ef). simpl. rewrite Ef. now rewrite IH.
      - destruct (negb (is_call e)); simpl; [rewrite Ef |]; exact IH. }
    rewrite (G (trace w')), (G (trace w)). now rewrite Ht. }
  assert (Ff := F is_fault). assert (Fa := fun p => F (is_alloc p)).
  assert (Fr := fun p => F (is_free p)).
  split; unfold faults, live, offered, allocations, releases in *;
    rewrite ?Hh, ?Hn, ?Ho; try assumption.
  - rewrite Ff; [exact I1 | now intros []].
  - intros p. rewrite Fa; [apply I5 | now intros []].
  - intros p. rewrite Fa, Fr; [apply I6 | now intros [] | now intros []].
Qed.

Lemma payload_inv_log (X : gset addr) (e : Event) :
  is_call e = true -> preserves (payload_inv X) (log e).
Proof.
  intros He w H. apply (payload_inv_frame X w); try reflexivity; [| exact H].
  simpl. now rewrite He.
Qed.

Lemma payload_inv_get_session (X : gset addr) :
  preserves (payload_inv X) get_session.
Proof. apply preserves_read. Qed.

Lemma payload_inv_set_availability (X : gset addr) (d c : bool) :
  preserves (payload_inv X) (set_availability d c).
Proof.
  intros w H. now apply (payload_inv_frame X w).
Qed.

Lemma payload_inv_write_image_file (X : gset addr) (filename : string)
    (image : GdkPixbuf) :
  preserves (payload_inv X) (write_image_file filename image).
Proof.
  intros w H. now apply (payload_inv_frame X w).
Qed.

Lemma payload_inv_EnsureGtkInitialized (X : gset addr) :
  preserves (payload_inv X) EnsureGtkInitialized.
Proof.
  intros w H. rewrite EnsureGtkInitialized_unfold.
  destruct (attempted w); [exact H |].
  now apply (payload_inv_frame X w).
Qed.

#[local] Hint Resolve payload_inv_log payload_inv_get_session
  payload_inv_set_availability payload_inv_write_image_file
  payload_inv_EnsureGtkInitialized : payload_db.

Lemma live_lookup (w : World) (p : addr) :
  p ∈ live w -> exists v, heap w !! p = Some v.
Proof. unfold live. intros H. now apply elem_of_dom in H. Qed.

(** [new] returns an address that was not live and is now pending. *)
Lemma payload_inv_new (X : gset addr) :
  triple (payload_inv X) new_UriListData
    (fun p w => payload_inv ({[p]} ∪ X) w).
Proof.
  intros w [I1 I2 I3 I4 I5 I6].
  unfold faults, live, offered, allocations, releases in *. simpl.
  set (p := next_addr w) in *.
  assert (Hp : p ∉ dom (heap w)).
  { intros Hp. apply I4 in Hp. lia. }
  split; unfold faults, live, offered, allocations, releases; simpl;
    fold p.
  - exact I1.
  - rewrite dom_insert_L, I2. set_solver.
  - rewrite I2 in Hp. set_solver.
  - intros q Hq. rewrite dom_insert_L in Hq.
    apply elem_of_union in Hq as [Hq | Hq].
    + apply elem_of_singleton in Hq. subst q. lia.
    + apply I4 in Hq. lia.
  - intros q. specialize (I5 q).
    destruct (Pos.eqb_spec p q) as [-> | Hne]; simpl; rewrite I5.
    + rewrite decide_False by lia. rewrite decide_True by lia. reflexivity.
    + destruct (decide (q < p)%positive).
      * rewrite decide_True by lia. reflexivity.
      * rewrite decide_False by lia. reflexivity.
  - intros q. specialize (I6 q). specialize (I5 q).
    rewrite dom_insert_L.
    destruct (Pos.eqb_spec p q) as [-> | Hne]; simpl.
    + rewrite decide_True by set_solver.
      rewrite decide_False in I6 by exact Hp. lia.
    + destruct (decide (q ∈ dom (heap w))).
      * rewrite decide_True by set_solver. exact I6.
      * rewrite decide_False by set_solver. exact I6.
Qed.

(** An assignment through a pending address. *)
Lemma payload_inv_assign (X : gset addr) (p : addr)
    (f : UriListData -> UriListData) :
  p ∈ X -> preserves (payload_inv X) (assign p f).
Proof.
  intros Hp w H.
  assert (Hl : p ∈ live w) by (rewrite (inv_live X w H); set_solver).
  destruct (live_lookup w p Hl) as [v Hv].
  unfold assign. rewrite Hv. simpl.
  assert (Hd : dom (<[p := f v]> (heap w)) = dom (heap w)).
  { rewrite dom_insert_L. unfold live in Hl. set_solver. }
  destruct H as [I1 I2 I3 I4 I5 I6].
  split; unfold faults, live, offered, allocations, releases in *; simpl;
    rewrite ?Hd; assumption.
Qed.

(** The provide callback reads the payload it is given, which is live when
    it is the offered one. *)
Lemma payload_inv_get_func (X : gset addr) (sd : GtkSelectionData)
    (info : Z) (user_data : gpointer) :
  triple (fun w => payload_inv X w /\
                   match user_data with Some p => p ∈ live w | None => True end)
    (clipboard_get_func sd info user_data)
    (fun _ => payload_inv X).
Proof.
  intros w [H Hu]. unfold clipboard_get_func.
  destruct user_data as [p|]; [| exact H].
  destruct (live_lookup w p Hu) as [v Hv].
  destruct (info =? 0); unfold bind, deref; rewrite Hv;
    unfold gtk_selection_data_set, bind, ret; simpl;
    (eapply (payload_inv_frame X w); [..| exact H]; reflexivity).
Qed.

(** A change of owner releases the offered payload; the new owner may
    reference a pending one, which is then offered. *)
Lemma payload_inv_change_owner (X : gset addr) (o : Owner) :
  offer_of o ⊆ X ->
  triple (payload_inv X) (change_owner o)
    (fun _ => payload_inv (X ∖ offer_of o)).
Proof.
  intros Ho w [I1 I2 I3 I4 I5 I6].
  unfold faults, live, offered, allocations, releases in *.
  unfold change_owner, release_owner, bind, get_session.
  destruct w as [a i h n [d c ow files saves lossy] t]. simpl in *.
  assert (Quiet : offer_of ow = ∅ ->
    payload_inv (X ∖ offer_of o)
      (mkWorld a i h n (mkSession d c o files saves lossy) t)).
  { intros He. rewrite He in *.
    split; unfold faults, live, offered, allocations, releases; simpl.
    - exact I1.
    - rewrite I2. clear -Ho. apply set_eq. intros x.
      destruct (decide (x ∈ offer_of o)); set_solver.
    - clear. set_solver.
    - exact I4.
    - exact I5.
    - exact I6. }
  destruct ow as [| contents image advertised | targets g f [q|] | pixbuf];
    try (destruct f); simpl; try (apply Quiet; reflexivity).
  unfold clipboard_clear_func, delete_payload. simpl in *.
  assert (Hq : q ∈ dom h) by (rewrite I2; clear; set_solver).
  apply elem_of_dom in Hq as [v Hv]. rewrite Hv. simpl.
  assert (HqX : q ∉ X) by (clear -I3; set_solver).
  split; unfold faults, live, offered, allocations, releases; simpl.
  - exact I1.
  - rewrite dom_delete_L, I2. clear -Ho HqX. apply set_eq. intros x.
    destruct (decide (x ∈ offer_of o)); set_solver.
  - clear. set_solver.
  - intros p Hp. apply I4. rewrite dom_delete_L in Hp.
    clear -Hp. set_solver.
  - exact I5.
  - intros p. specialize (I6 p). rewrite dom_delete_L.
    destruct (Pos.eqb_spec q p) as [-> | Hne]; simpl.
    + rewrite decide_False by (clear; set_solver).
      rewrite decide_True in I6 by (apply elem_of_dom; eauto). lia.
    + destruct (decide (p ∈ dom h)) as [Hin | Hout].
      * rewrite decide_True by (clear -Hin Hne; set_solver). exact I6.
      * rewrite decide_False by (clear -Hout; set_solver). exact I6.
Qed.

Lemma payload_inv_change_owner_plain (o : Owner) :
  offer_of o = ∅ -> preserves (payload_inv ∅) (change_owner o).
Proof.
  intros Ho w H.
  pose proof (payload_inv_change_owner ∅ o) as T.
  rewrite Ho in T. replace (∅ ∖ ∅ : gset addr) with (∅ : gset addr) in T
    by set_solver.
  apply T; [set_solver | exact H].
Qed.

(** A request is served through the provide callback with the offered
    payload. *)
Lemma payload_inv_serve_request (X : gset addr) (requested : string) :
  preserves (payload_inv X) (serve_request requested).
Proof.
  intros w H. unfold serve_request, bind, get_session.
  destruct (owner (session w)) as [| contents image advertised | targets g f ud | pixbuf]
    eqn:Eo; try exact H.
  destruct (List.find _ targets) as [entry|]; [| exact H].
  destruct g. simpl.
  pose proof (payload_inv_get_func X empty_selection (info entry) ud w) as T.
  destruct (clipboard_get_func empty_selection (info entry) ud w) as [sd w'].
  apply T. split; [exact H |].
  destruct ud as [p|]; [| exact I].
  rewrite (inv_live X w H). unfold offered. rewrite Eo. set_solver.
Qed.

#[local] Hint Resolve payload_inv_serve_request : payload_db.

#[local] Hint Extern 2 (preserves (payload_inv ∅) (change_owner _)) =>
  (apply payload_inv_change_owner_plain; reflexivity) : payload_db.

Lemma payload_inv_gtk_clipboard_get (X : gset addr) :
  preserves (payload_inv X) gtk_clipboard_get.
Proof. unfold gtk_clipboard_get. msolve payload_db. Qed.

Lemma payload_inv_wait_for_contents (X : gset addr) (c : GtkClipboard)
    (requested : string) :
  preserves (payload_inv X) (gtk_clipboard_wait_for_contents c requested).
Proof. unfold gtk_clipboard_wait_for_contents. msolve payload_db. Qed.

Lemma payload_inv_store (X : gset addr) (c : GtkClipboard) :
  preserves (payload_inv X) (gtk_clipboard_store c).
Proof. unfold gtk_clipboard_store. msolve payload_db. Qed.

Lemma payload_inv_clear (c : GtkClipboard) :
  preserves (payload_inv ∅) (gtk_clipboard_clear c).
Proof. unfold gtk_clipboard_clear. msolve payload_db. Qed.

Lemma payload_inv_wait_for_image (X : gset addr) (c : GtkClipboard) :
  preserves (payload_inv X) (gtk_clipboard_wait_for_image c).
Proof. unfold gtk_clipboard_wait_for_image. msolve payload_db. Qed.

Lemma payload_inv_wait_is_image_available (X : gset addr)
    (c : GtkClipboard) :
  preserves (payload_inv X) (gtk_clipboard_wait_is_image_available c).
Proof. unfold gtk_clipboard_wait_is_image_available. msolve payload_db. Qed.

Lemma payload_inv_set_image (c : GtkClipboard) (pixbuf : GdkPixbuf) :
  preserves (payload_inv ∅) (gtk_clipboard_set_image c pixbuf).
Proof. unfold gtk_clipboard_set_image. msolve payload_db. Qed.

Lemma payload_inv_new_from_file (X : gset addr) (filename : string) :
  preserves (payload_inv X) (gdk_pixbuf_new_from_file filename).
Proof. unfold gdk_pixbuf_new_from_file. msolve payload_db. Qed.

Lemma payload_inv_pixbuf_save (X : gset addr) (pixbuf : GdkPixbuf)
    (filename type : string) (quality : option string) :
  preserves (payload_inv X) (gdk_pixbuf_save pixbuf filename type quality).
Proof. unfold gdk_pixbuf_save. msolve payload_db. Qed.

#[local] Hint Resolve payload_inv_gtk_clipboard_get
  payload_inv_wait_for_contents payload_inv_store payload_inv_clear
  payload_inv_wait_for_image payload_inv_wait_is_image_available
  payload_inv_set_image payload_inv_new_from_file payload_inv_pixbuf_save
  : payload_db.

(** Publication: the pending payload becomes the offered one, and the
    payload offered before is released. *)
Lemma payload_inv_set_with_data (c : GtkClipboard)
    (targets : list GtkTargetEntry) (n : Z) (g : GtkClipboardGetFunc)
    (f : GtkClipboardClearFunc) (p : addr) :
  triple (payload_inv {[p]})
    (gtk_clipboard_set_with_data c targets n g f (Some p))
    (fun _ => payload_inv ∅).
Proof.
  unfold gtk_clipboard_set_with_data.
  eapply triple_bind; [apply payload_inv_log; reflexivity | intros ?].
  eapply triple_bind; [| intros ?; apply preserves_ret].
  eapply triple_weaken;
    [apply (payload_inv_change_owner {[p]}) | auto | ]; simpl.
  - set_solver.
  - intros ? w H. replace (∅ : gset addr) with ({[p]} ∖ {[p]} : gset addr)
      by set_solver. exact H.
Qed.

Lemma payload_inv_env_step (e : EnvEvent) :
  preserves (payload_inv ∅) (env_step e).
Proof. destruct e; unfold env_step; msolve payload_db. Qed.

Section PayloadFacts.

Variable g_filename_to_uri : string -> option string.

Variable g_filename_from_uri : string -> option string.

Variable unrepresentable : spec_float -> Z.

Variable gtk_2_6 : bool.

Local Abbreviation perform' :=
  (perform g_filename_to_uri g_filename_from_uri unrepresentable gtk_2_6).

Local Abbreviation step' :=
  (step g_filename_to_uri g_filename_from_uri unrepresentable gtk_2_6).

Local Abbreviation run' :=
  (run g_filename_to_uri g_filename_from_uri unrepresentable gtk_2_6).

Lemma payload_inv_WriteFilePaths (file_paths : list string) :
  preserves (payload_inv ∅) (WriteFilePaths g_filename_to_uri file_paths).
Proof.
  unfold WriteFilePaths.
  mstep; [auto with payload_db |]. mstep; [apply preserves_ret |].
  mstep; [auto with payload_db |]. mstep; [| apply preserves_ret].
  cbv zeta. unfold preserves.
  eapply triple_bind; [apply payload_inv_new | intros p; simpl].
  replace ({[p]} ∪ ∅ : gset addr) with ({[p]} : gset addr) by set_solver.
  eapply triple_bind;
    [apply payload_inv_assign; set_solver | intros ?; simpl].
  eapply triple_bind;
    [apply payload_inv_assign; set_solver | intros ?; simpl].
  eapply triple_bind; [apply payload_inv_set_with_data | intros ?; simpl].
  apply payload_inv_store.
Qed.

Lemma payload_inv_perform (op : Operation) :
  preserves (payload_inv ∅) (perform' op).
Proof.
  destruct op; unfold perform;
    try (mstep; [apply payload_inv_WriteFilePaths | apply preserves_ret]);
    unfold ReadFilePaths, ClearClipboard, SaveClipboardImageAsJpeg,
      SaveClipboardImageAsPng, PutImageIntoClipboard, ClipboardHasImage;
    msolve payload_db.
Qed.

Lemma payload_inv_step (s : Step) (w : World) :
  payload_inv ∅ w -> payload_inv ∅ (step' s w).
Proof.
  intros H. destruct s as [op | e]; simpl.
  - now apply payload_inv_perform.
  - now apply payload_inv_env_step.
Qed.

Lemma payload_inv_run (steps : list Step) (w : World) :
  payload_inv ∅ w -> payload_inv ∅ (run' steps w).
Proof.
  revert w. induction steps as [|s steps IH]; intros w H; simpl.
  - exact H.
  - apply IH. now apply payload_inv_step.
Qed.

End PayloadFacts.

(** ** What the callbacks hand to the session *)

Lemma int_of_size_t_small (n : nat) :
  Z.of_nat n < 2 ^ 31 -> int_of_size_t n = Z.of_nat n.
Proof.
  intros H. unfold int_of_size_t.
  rewrite Z.mod_small by lia. lia.
Qed.

Lemma substring_all (s : string) : String.substring 0 (String.length s) s = s.
Proof. induction s as [|c s IH]; simpl; [reflexivity | now rewrite IH]. Qed.

Lemma bytes_all (s : string) : bytes s (Z.of_nat (String.length s)) = s.
Proof. unfold bytes. rewrite Nat2Z.id. apply substring_all. Qed.

Lemma gtk_selection_data_set_small (sd : GtkSelectionData)
    (type data : string) (w : World) :
  Z.of_nat (String.length data) < 2 ^ 31 ->
  gtk_selection_data_set sd type 8 data (int_of_size_t (String.length data)) w
  = (provided type data,
     snd (log (Call_gtk_selection_data_set type 8 data
                 (Z.of_nat (String.length data))) w)).
Proof.
  intros H. rewrite int_of_size_t_small by exact H.
  unfold gtk_selection_data_set, bind, ret, provided. simpl.
  replace (Z.of_nat (String.length data) <? 0) with false
    by (symmetry; apply Z.ltb_ge; lia).
  now rewrite bytes_all.
Qed.

Lemma clipboard_get_func_live (sd : GtkSelectionData) (info : Z) (p : addr)
    (payload : UriListData) (w : World) :
  heap w !! p = Some payload ->
  Z.of_nat (String.length (uri_list payload)) < 2 ^ 31 ->
  Z.of_nat (String.length (plain_text payload)) < 2 ^ 31 ->
  fst (clipboard_get_func sd info (Some p) w)
  = if info =? 0 then provided "text/uri-list" (uri_list payload)
    else provided "UTF8_STRING" (plain_text payload).
Proof.
  intros Hp Hu Ht. unfold clipboard_get_func.
  destruct (info =? 0); unfold bind, deref; rewrite Hp;
    now rewrite gtk_selection_data_set_small.
Qed.

(** Whatever the sizes, the provide callback leaves the representation
    its tag selects, with the length it computed. *)
Lemma clipboard_get_func_stores (sd : GtkSelectionData) (info : Z) (p : addr)
    (payload : UriListData) (w : World) :
  heap w !! p = Some payload ->
  fst (clipboard_get_func sd info (Some p) w)
  = if info =? 0 then stored "text/uri-list" (uri_list payload)
    else stored "UTF8_STRING" (plain_text payload).
Proof.
  intros Hp. unfold clipboard_get_func.
  destruct (info =? 0); unfold bind, deref; rewrite Hp; reflexivity.
Qed.

Lemma stored_small (type data : string) :
  Z.of_nat (String.length data) < 2 ^ 31 -> stored type data = provided type data.
Proof.
  intros H. unfold stored, provided.
  rewrite int_of_size_t_small by exact H.
  replace (Z.of_nat (String.length data) <? 0) with false
    by (symmetry; apply Z.ltb_ge; lia).
  now rewrite bytes_all.
Qed.

(** At [2^31] bytes the length wraps to [INT_MIN] and no byte is handed
    over. *)
Lemma stored_wrapped (type data : string) :
  Z.of_nat (String.length data) = 2 ^ 31 ->
  stored type data = mkSelectionData type 8 None (- 2 ^ 31).
Proof.
  intros H. unfold stored, int_of_size_t. rewrite H. reflexivity.
Qed.

Lemma filled_length (n : nat) (ch : ascii) : String.length (filled n ch) = n.
Proof. induction n as [|n IH]; simpl; [reflexivity | now rewrite IH]. Qed.

Lemma long_path_length (n : nat) : String.length (long_path n) = S n.
Proof. unfold long_path. cbn [String.length]. now rewrite filled_length. Qed.

Lemma plain_text_of_single (path : string) : plain_text_of [path] = path.
Proof. rewrite plain_text_of_spec. reflexivity. Qed.

Section WriteFacts.

Variable g_filename_to_uri : string -> option string.

(** The world a successful [WriteFilePaths] leaves: the clipboard offers
    the three targets with the two callbacks and the address of a payload
    that holds both representations. *)
Lemma WriteFilePaths_publishes (file_paths : list string) (w : World) :
  payload_inv ∅ w ->
  fst (EnsureGtkInitialized w) = true ->
  clipboard_available (session w) = true ->
  owner (session (written g_filename_to_uri file_paths w))
  = WithData write_targets Fn_clipboard_get_func Fn_clipboard_clear_func
      (Some (next_addr w))
  /\ heap (written g_filename_to_uri file_paths w) !! next_addr w
     = Some (mkUriListData (uri_list_of g_filename_to_uri file_paths)
               (plain_text_of file_paths)).
Proof.
  intros Hinv Hok Hclip. unfold written.
  pose proof (EnsureGtkInitialized_effects w) as He.
  unfold WriteFilePaths, bind.
  destruct (EnsureGtkInitialized w) as [ok w1]. simpl in Hok. subst ok.
  destruct He as (_ & _ & Hs & Hh & Hn & _). simpl.
  assert (Hbelow : forall q, q ∈ offered w -> q <> next_addr w).
  { intros q Hq Heq. subst q.
    assert (Hl : next_addr w ∈ live w)
      by (rewrite (inv_live ∅ w Hinv); set_solver).
    apply (inv_below ∅ w Hinv) in Hl. lia. }
  unfold offered in Hbelow. rewrite <- Hs, <- Hn in Hbelow.
  clear Hinv. rewrite <- Hs in Hclip. rewrite <- Hn. clear Hs Hh Hn.
  destruct w1 as [a i h n [d c ow files saves lossy] t]. simpl in *. subst c.
  unfold assign, new_UriListData. simpl.
  rewrite lookup_insert_eq. simpl. rewrite lookup_insert_eq. simpl.
  unfold gtk_clipboard_set_with_data, gtk_clipboard_store, change_owner,
    release_owner, bind, get_session, log, set_owner, ret. simpl.
  destruct ow as [| contents image advertised | targets g f [q|] | pixbuf];
    try (destruct f); simpl;
    try (split; [reflexivity | now rewrite lookup_insert_eq]).
  unfold clipboard_clear_func, delete_payload, log. simpl.
  assert (Hq : q <> n) by (apply Hbelow; set_solver).
  rewrite !lookup_insert_ne by congruence.
  destruct (h !! q); simpl;
    (split; [reflexivity |]);
    rewrite ?lookup_delete_ne by congruence; now rewrite lookup_insert_eq.
Qed.

End WriteFacts.

(** A request for an offered target is answered with the representation
    that the target's tag selects. *)
Lemma serve_request_offered (requested : string) (w : World)
    (targets : list GtkTargetEntry) (f : GtkClipboardClearFunc) (p : addr)
    (payload : UriListData) (entry : GtkTargetEntry) :
  owner (session w) = WithData targets Fn_clipboard_get_func f (Some p) ->
  heap w !! p = Some payload ->
  List.find (fun e => String.eqb (target e) requested) targets = Some entry ->
  Z.of_nat (String.length (uri_list payload)) < 2 ^ 31 ->
  Z.of_nat (String.length (plain_text payload)) < 2 ^ 31 ->
  fst (serve_request requested w)
  = Some (if info entry =? 0
          then provided "text/uri-list" (uri_list payload)
          else provided "UTF8_STRING" (plain_text payload)).
Proof.
  intros Ho Hp Hf Hu Ht.
  unfold serve_request, bind, get_session. cbv beta iota.
  rewrite Ho, Hf. unfold call_get_func.
  pose proof (clipboard_get_func_live empty_selection (info entry) p payload
                w Hp Hu Ht) as Hg.
  destruct (clipboard_get_func empty_selection (info entry) (Some p) w)
    as [sd w']. unfold ret. cbn [fst snd] in *. subst sd.
  assert (Hlen : forall type data,
             (sd_length (provided type data) <? 0) = false).
  { intros type data. apply Z.ltb_ge. unfold provided. simpl. lia. }
  destruct (info entry =? 0); now rewrite Hlen.
Qed.

(** The decimal digits of a quality fit the buffer of eight bytes. *)
Lemma g_snprintf_d_quality (q : Z) :
  0 <= q <= 100 -> g_snprintf_d 8 q = pretty q.
Proof.
  intros Hq.
  assert (H : forallb (fun n => String.eqb (g_snprintf_d 8 (Z.of_nat n))
                                  (pretty (Z.of_nat n))) (seq 0 101) = true)
    by (vm_compute; reflexivity).
  rewrite forallb_forall in H.
  specialize (H (Z.to_nat q)). rewrite Z2Nat.id in H by lia.
  apply String.eqb_eq, H, in_seq. lia.
Qed.

Lemma jpeg_quality_range (unrepresentable : spec_float -> Z)
    (compression_factor : spec_float) :
  0 <= Quality.jpeg_quality unrepresentable compression_factor <= 100.
Proof. unfold Quality.jpeg_quality. lia. Qed.

(** The product with [100.0f] is IEEE 754 binary32 multiplication. *)
Lemma product_binary32 (compression_factor : spec_float) :
  Quality.product compression_factor
  = SFmul 24 128 compression_factor (S754_finite false 13107200 (-17)).
Proof. reflexivity. Qed.

(** When the product is the finite number [m * 2^e], negated for [s], and
    its whole part fits an [int], the quality is that whole part clamped. *)
Lemma jpeg_quality_finite (unrepresentable : spec_float -> Z)
    (compression_factor : spec_float) (s : bool) (m : positive) (e : Z) :
  Quality.product compression_factor = S754_finite s m e ->
  (if 0 <=? e then Z.pos m * 2 ^ e else Z.pos m / 2 ^ (- e)) <= 2 ^ 31 - 1 ->
  Quality.jpeg_quality unrepresentable compression_factor
  = if s then 0
    else Z.min 100 (if 0 <=? e then Z.pos m * 2 ^ e
                    else Z.pos m / 2 ^ (- e)).
Proof.
  intros Hp Hfit.
  unfold Quality.jpeg_quality, Quality.static_cast_int. rewrite Hp.
  cbn [Quality.truncate].
  assert (Hwhole : (if 0 <=? e then Z.shiftl (Z.pos m) e
                    else Z.shiftr (Z.pos m) (- e))
                   = (if 0 <=? e then Z.pos m * 2 ^ e
                      else Z.pos m / 2 ^ (- e))).
  { destruct (0 <=? e) eqn:E.
    - apply Z.shiftl_mul_pow2. lia.
    - apply Z.shiftr_div_pow2. lia. }
  rewrite Hwhole.
  assert (Hpos : 0 <= (if 0 <=? e then Z.pos m * 2 ^ e
                       else Z.pos m / 2 ^ (- e))).
  { destruct (0 <=? e) eqn:E.
    - apply Z.mul_nonneg_nonneg; [lia | apply Z.pow_nonneg; lia].
    - apply Z.div_pos; [lia | apply Z.pow_pos_nonneg; lia]. }
  unfold Quality.INT_MIN, Quality.INT_MAX.
  destruct s.
  - replace ((- 2 ^ 31 <=? - _) && (- _ <=? 2 ^ 31 - 1)) with true
      by (symmetry; apply andb_true_iff; split; apply Z.leb_le; lia).
    lia.
  - replace ((- 2 ^ 31 <=? _) && (_ <=? 2 ^ 31 - 1)) with true
      by (symmetry; apply andb_true_iff; split; apply Z.leb_le; lia).
    lia.
Qed.

(** The factors [k / 2^j] with [j <= 6] and [|k| <= 1024], checked one by
    one against exact arithmetic: the quality is [100 * k / 2^j] with its
    fraction dropped, clamped. *)
Lemma jpeg_quality_dyadic (unrepresentable : spec_float -> Z) (j k : Z) :
  0 <= j <= 6 -> - 1024 <= k <= 1024 ->
  Quality.jpeg_quality unrepresentable (Quality.float_of k (- j))
  = Z.max 0 (Z.min 100 (Z.quot (100 * k) (2 ^ j))).
Proof.
  intros Hj Hk.
  assert (H : forallb
                (fun a =>
                   forallb
                     (fun b =>
                        Quality.jpeg_quality unrepresentable
                          (Quality.float_of (Z.of_nat b - 1024)
                             (- Z.of_nat a))
                        =? Z.max 0
                             (Z.min 100
                                (Z.quot (100 * (Z.of_nat b - 1024))
                                   (2 ^ Z.of_nat a))))
                     (seq 0 2049))
                (seq 0 7) = true)
    by (vm_compute; reflexivity).
  rewrite forallb_forall in H.
  specialize (H (Z.to_nat j)). rewrite forallb_forall in H.
  specialize (H ltac:(apply in_seq; lia) (Z.to_nat (k + 1024))
                ltac:(apply in_seq; lia)).
  rewrite !Z2Nat.id in H by lia.
  replace (k + 1024 - 1024) with k in H by lia.
  now apply Z.eqb_eq.
Qed.

Section SaveFacts.

Variable unrepresentable : spec_float -> Z.

(** With a session, a clipboard and an image, [SaveClipboardImageAsJpeg]
    calls the encoder once, with the quality in decimal. *)
Lemma SaveClipboardImageAsJpeg_encodes (target_path : string)
    (compression_factor : spec_float) (pixbuf : GdkPixbuf) (w : World) :
  fst (EnsureGtkInitialized w) = true ->
  clipboard_available (session w) = true ->
  current_image (session w) = Some pixbuf ->
  fst (SaveClipboardImageAsJpeg unrepresentable target_path
         compression_factor w)
  = save_succeeds (session w) (c_str target_path) "jpeg"
  /\ trace (snd (SaveClipboardImageAsJpeg unrepresentable target_path
                   compression_factor w))
     = Call_gdk_pixbuf_save pixbuf (c_str target_path) "jpeg"
         (Some (pretty (Quality.jpeg_quality unrepresentable
                          compression_factor)))
       :: Call_gtk_clipboard_wait_for_image :: Call_gtk_clipboard_get
       :: trace (snd (EnsureGtkInitialized w)).
Proof.
  intros Hok Hclip Himg.
  pose proof (EnsureGtkInitialized_effects w) as He.
  unfold SaveClipboardImageAsJpeg, bind.
  destruct (EnsureGtkInitialized w) as [ok w1]. simpl in Hok. subst ok.
  destruct He as (_ & _ & Hs & _).
  destruct w1 as [a i h n s t]. simpl in Hs. subst s.
  unfold gtk_clipboard_get, gtk_clipboard_wait_for_image, gdk_pixbuf_save,
    bind, get_session, log, ret. simpl.
  rewrite Hclip. simpl. rewrite Himg. simpl.
  rewrite g_snprintf_d_quality by apply jpeg_quality_range.
  destruct (save_succeeds (session w) (c_str target_path) "jpeg");
    split; reflexivity.
Qed.

End SaveFacts.

(** ** The properties of the specification *)

Lemma omap_length_le {A B : Type} (f : A -> option B) (l : list A) :
  (length (omap f l) <= length l)%nat.
Proof.
  induction l as [|x l IH]; [reflexivity |].
  destruct (f x) as [y|] eqn:E.
  - rewrite (omap_cons_Some f x y l E). simpl. lia.
  - rewrite (omap_cons_None f x l E). simpl. lia.
Qed.

Lemma omap_length_lt {A B : Type} (f : A -> option B) (l : list A) (x : A) :
  x ∈ l -> f x = None -> (length (omap f l) < length l)%nat.
Proof.
  intros Hx Hf. induction l as [|y l IH]; [inversion Hx |].
  apply elem_of_cons in Hx as [<- | Hx].
  - rewrite (omap_cons_None f x l Hf). pose proof (omap_length_le f l).
    simpl. lia.
  - specialize (IH Hx). destruct (f y) as [z|] eqn:E.
    + rewrite (omap_cons_Some f y z l E). simpl. lia.
    + rewrite (omap_cons_None f y l E). simpl. lia.
Qed.

(** With GLib's conversions, every list of absolute paths without a NUL
    byte survives the round trip. *)
Lemma glib_decode_encode (P : list string) :
  Forall (fun path => GLib.g_path_is_absolute path = true
                      /\ mem NUL path = false) P ->
  decode_uri_list GLib.g_filename_from_uri
    (uri_list_of GLib.g_filename_to_uri P) = P.
Proof.
  intros H. apply decode_encode_friendly.
  eapply Forall_impl; [exact H |].
  intros path [Ha Hn]. now apply GLibFacts.absolute_path_friendly.
Qed.

(** C1. For every sequence [P] of paths that the URI conversion handles
    (each path has a URI, the URI holds no line break, is not empty, does
    not start with [#], and converts back to the path), decoding the
    CRLF-terminated URI list that encoding [P] produces yields exactly [P]:
    same order, duplicates kept. With GLib's conversions these are all the
    absolute paths without a NUL byte ([absolute_path_friendly]). *)
Theorem decode_encode_roundtrip
    (g_filename_to_uri g_filename_from_uri : string -> option string)
    (P : list string) :
  Forall (uri_friendly g_filename_to_uri g_filename_from_uri) P ->
  decode_uri_list g_filename_from_uri (uri_list_of g_filename_to_uri P) = P.
Proof.
  intros HP.
  destruct (friendly_uris g_filename_to_uri g_filename_from_uri P HP)
    as (uris & Huris & Hclean & Hkept & Hback).
  unfold uri_list_of. rewrite build_uris_spec, app_nil_l, Huris.
  unfold decode_uri_list.
  rewrite (splitLines_joinWithCrlf uris Hclean).
  rewrite read_lines_spec, app_nil_l, Hkept.
  exact Hback.
Qed.

Lemma decode_encode_roundtrip_witness :
  Forall (uri_friendly GLib.g_filename_to_uri GLib.g_filename_from_uri)
    Witness.twice
  /\ decode_uri_list GLib.g_filename_from_uri
       (uri_list_of GLib.g_filename_to_uri Witness.twice) = Witness.twice.
Proof.
  assert (H : Forall (uri_friendly GLib.g_filename_to_uri
                        GLib.g_filename_from_uri) Witness.twice).
  { repeat constructor; eexists; repeat split; reflexivity. }
  split; [exact H |].
  exact (decode_encode_roundtrip GLib.g_filename_to_uri
           GLib.g_filename_from_uri Witness.twice H).
Defined.

(** C2. For the paths [/home/a/x.txt] and [/tmp/β.md], whose URIs are
    [file:///home/a/x.txt] and [file:///tmp/%CE%B2.md], [WriteFilePaths]
    builds the URI list with a CRLF after every entry, the last included,
    and the plain text with a single LF between the two paths and none at
    the end; a paster asking for [text/uri-list] or for [UTF8_STRING] then
    receives exactly these bytes. *)
Theorem write_scenario_representations
    (g_filename_to_uri : string -> option string) (w : World) :
  g_filename_to_uri "/home/a/x.txt" = Some "file:///home/a/x.txt" ->
  g_filename_to_uri Scenario.beta_md = Some "file:///tmp/%CE%B2.md" ->
  payload_inv ∅ w ->
  fst (EnsureGtkInitialized w) = true ->
  clipboard_available (session w) = true ->
  uri_list_of g_filename_to_uri Scenario.paths = Scenario.uri_list_bytes
  /\ plain_text_of Scenario.paths = Scenario.utf8_string_bytes
  /\ fst (serve_request "text/uri-list"
            (written g_filename_to_uri Scenario.paths w))
     = Some (provided "text/uri-list" Scenario.uri_list_bytes)
  /\ fst (serve_request "UTF8_STRING"
            (written g_filename_to_uri Scenario.paths w))
     = Some (provided "UTF8_STRING" Scenario.utf8_string_bytes).
Proof.
  intros H1 H2 Hinv Hok Hclip.
  assert (Hu : uri_list_of g_filename_to_uri Scenario.paths
               = Scenario.uri_list_bytes).
  { unfold uri_list_of, Scenario.paths. rewrite build_uris_spec, app_nil_l.
    rewrite (omap_cons_Some _ _ "file:///home/a/x.txt") by exact H1.
    rewrite (omap_cons_Some _ _ "file:///tmp/%CE%B2.md") by exact H2.
    reflexivity. }
  assert (Hp : plain_text_of Scenario.paths = Scenario.utf8_string_bytes)
    by reflexivity.
  destruct (WriteFilePaths_publishes g_filename_to_uri Scenario.paths w
              Hinv Hok Hclip) as [Ho Hh].
  rewrite Hu, Hp in Hh.
  repeat split; try assumption.
  - now rewrite (serve_request_offered _ _ _ _ _ _
                   (mkTarget "text/uri-list" 0 0) Ho Hh).
  - now rewrite (serve_request_offered _ _ _ _ _ _
                   (mkTarget "UTF8_STRING" 0 1) Ho Hh).
Qed.

Lemma write_scenario_representations_witness :
  uri_list_of GLib.g_filename_to_uri Scenario.paths = Scenario.uri_list_bytes
  /\ plain_text_of Scenario.paths = Scenario.utf8_string_bytes
  /\ fst (serve_request "text/uri-list"
            (written GLib.g_filename_to_uri Scenario.paths
               (initial_world Witness.desktop)))
     = Some (provided "text/uri-list" Scenario.uri_list_bytes)
  /\ fst (serve_request "UTF8_STRING"
            (written GLib.g_filename_to_uri Scenario.paths
               (initial_world Witness.desktop)))
     = Some (provided "UTF8_STRING" Scenario.utf8_string_bytes).
Proof.
  apply (write_scenario_representations GLib.g_filename_to_uri
           (initial_world Witness.desktop)).
  - reflexivity.
  - reflexivity.
  - apply payload_inv_initial. reflexivity.
  - reflexivity.
  - reflexivity.
Defined.

(** C3. The decoder is a total function of the byte buffer. Its output is
    the URI conversion of exactly those lines that are left once carriage
    returns are discarded and lines are cut at line feeds, and that are
    neither empty nor start with [#]: no entry stems from an empty line or
    from a comment line. *)
Theorem decode_skips_empty_and_comment_lines
    (g_filename_from_uri : string -> option string) (B : string) :
  decode_uri_list g_filename_from_uri B
  = omap (fun line => g_filename_from_uri (c_str line)) (uri_lines B)
  /\ Forall (fun line => empty line = false
                         /\ Ascii.eqb (front line) HASH = false
                         /\ mem CR line = false /\ mem LF line = false)
       (uri_lines B).
Proof.
  split.
  - unfold decode_uri_list, uri_lines.
    now rewrite read_lines_spec, app_nil_l.
  - apply Forall_forall. intros line Hl.
    apply list_elem_of_filter in Hl as [Hu Hl].
    pose proof (splitLines_lines_clean B) as Hc.
    rewrite Forall_forall in Hc. specialize (Hc line Hl).
    unfold uri_line in Hu. apply andb_true_iff in Hu as [Hu1 Hu2].
    unfold line_clean in Hc. apply andb_true_iff in Hc as [Hc1 Hc2].
    repeat split; now apply negb_true_iff.
Qed.

(** C4. The bytes [# comment CRLF file:///a CRLF CRLF file:///b CRLF]
    decode to [/a; /b] (for a conversion that maps the two URIs to the two
    paths); the empty buffer decodes to the empty sequence; and so does
    every buffer all of whose lines are comments. *)
Theorem decode_scenarios (g_filename_from_uri : string -> option string) :
  g_filename_from_uri "file:///a" = Some "/a" ->
  g_filename_from_uri "file:///b" = Some "/b" ->
  decode_uri_list g_filename_from_uri Scenario.clipboard_bytes = ["/a"; "/b"]
  /\ decode_uri_list g_filename_from_uri EmptyString = []
  /\ forall B,
       Forall (fun line => Ascii.eqb (front line) HASH = true) (splitLines B) ->
       decode_uri_list g_filename_from_uri B = [].
Proof.
  intros Ha Hb. split; [| split].
  - unfold decode_uri_list.
    change (splitLines Scenario.clipboard_bytes)
      with ["# comment"; "file:///a"; ""; "file:///b"].
    simpl. now rewrite Ha, Hb.
  - reflexivity.
  - intros B HB. unfold decode_uri_list.
    induction HB as [|line lines Hl _ IH]; [reflexivity |].
    simpl. rewrite Hl, andb_true_r.
    now destruct (empty line).
Qed.

Lemma decode_scenarios_witness :
  decode_uri_list GLib.g_filename_from_uri Scenario.clipboard_bytes
  = ["/a"; "/b"]
  /\ decode_uri_list GLib.g_filename_from_uri EmptyString = []
  /\ decode_uri_list GLib.g_filename_from_uri Scenario.only_comments = [].
Proof.
  destruct (decode_scenarios GLib.g_filename_from_uri) as (H1 & H2 & H3).
  - reflexivity.
  - reflexivity.
  - split; [exact H1 | split; [exact H2 |]].
    apply H3. repeat constructor.
Defined.

(** C10. The plain-text fallback is every input path, in order, with a
    single LF between neighbours, whatever the URI conversion says; the
    URI list has an entry only for the paths the conversion accepts. So a
    path whose conversion fails is in the plain text and not in the URI
    list, and the URI list then has fewer entries than the plain text. *)
Theorem plain_text_keeps_rejected_paths
    (g_filename_to_uri : string -> option string) (file_paths : list string) :
  plain_text_of file_paths = String.concat (String LF EmptyString) file_paths
  /\ uri_list_of g_filename_to_uri file_paths
     = crlf_terminated
         (omap (fun path => g_filename_to_uri (c_str path)) file_paths)
  /\ (length (build_uris g_filename_to_uri file_paths []) <= length file_paths)%nat
  /\ forall path,
       path ∈ file_paths -> g_filename_to_uri (c_str path) = None ->
       (length (build_uris g_filename_to_uri file_paths [])
        < length file_paths)%nat.
Proof.
  split; [apply plain_text_of_spec |].
  unfold uri_list_of. rewrite joinWithCrlf_spec, build_uris_spec, app_nil_l.
  split; [reflexivity |]. split; [apply omap_length_le |].
  intros path Hin Hnone.
  now apply (omap_length_lt _ _ path).
Qed.

Lemma plain_text_keeps_rejected_paths_witness :
  plain_text_of Witness.with_relative
  = "/srv/ok" +:+ String LF "notes/todo.txt"
  /\ uri_list_of GLib.g_filename_to_uri Witness.with_relative
     = "file:///srv/ok" +:+ CRLF
  /\ (length (build_uris GLib.g_filename_to_uri Witness.with_relative [])
      < length Witness.with_relative)%nat.
Proof.
  destruct (plain_text_keeps_rejected_paths GLib.g_filename_to_uri
              Witness.with_relative) as (H1 & H2 & _ & H4).
  split; [rewrite H1; reflexivity |].
  split; [rewrite H2; reflexivity |].
  apply (H4 "notes/todo.txt").
  - unfold Witness.with_relative. set_solver.
  - reflexivity.
Defined.

Section SessionProperties.

Variable g_filename_to_uri : string -> option string.

Variable g_filename_from_uri : string -> option string.

Variable unrepresentable : spec_float -> Z.

Variable gtk_2_6 : bool.

Local Abbreviation perform' :=
  (perform g_filename_to_uri g_filename_from_uri unrepresentable gtk_2_6).

Local Abbreviation run' :=
  (run g_filename_to_uri g_filename_from_uri unrepresentable gtk_2_6).

Local Abbreviation process' :=
  (process g_filename_to_uri g_filename_from_uri unrepresentable gtk_2_6).

(** C5. When the session query answers "not usable", every public
    operation returns its neutral failure value (the empty sequence for
    [ReadFilePaths], [false] for the four image operations, nothing for
    [WriteFilePaths] and [ClearClipboard]) and does not touch the
    clipboard: the session and the free store are as before, and the
    trace grew by the attach probe at most. *)
Theorem neutral_without_session (op : Operation) (w : World) :
  fst (EnsureGtkInitialized w) = false ->
  fst (perform' op w) = neutral op
  /\ session (snd (perform' op w)) = session w
  /\ heap (snd (perform' op w)) = heap w
  /\ (trace (snd (perform' op w)) = trace w
      \/ trace (snd (perform' op w)) = Call_gtk_init_check :: trace w).
Proof.
  intros H. rewrite (perform_not_attached _ _ _ _ op w H).
  pose proof (EnsureGtkInitialized_effects w) as He.
  destruct (EnsureGtkInitialized w) as [ok w1]. simpl.
  destruct He as (_ & _ & Hs & Hh & _ & Ht). auto.
Qed.



(** C8. A successful [WriteFilePaths] publishes exactly three targets:
    [text/uri-list] with tag 0, [UTF8_STRING] and [STRING] with tag 1,
    with the two callbacks and the address of the payload that holds both
    representations. Asked with tag 0, the provide callback stores the
    URI-list bytes under [text/uri-list]; asked with any other tag, the
    plain-text bytes under [UTF8_STRING]; in both cases in units of 8
    bits, provided the representation asked for is shorter than [2^31]
    bytes: its length goes to the session as an [int]. *)
Theorem write_publishes_three_targets (file_paths : list string)
    (w : World) :
  payload_inv ∅ w ->
  fst (EnsureGtkInitialized w) = true ->
  clipboard_available (session w) = true ->
  owner (session (written g_filename_to_uri file_paths w))
  = WithData [ mkTarget "text/uri-list" 0 0;
               mkTarget "UTF8_STRING" 0 1;
               mkTarget "STRING" 0 1 ]
      Fn_clipboard_get_func Fn_clipboard_clear_func (Some (next_addr w))
  /\ heap (written g_filename_to_uri file_paths w) !! next_addr w
     = Some (mkUriListData (uri_list_of g_filename_to_uri file_paths)
               (plain_text_of file_paths))
  /\ forall (selection_data : GtkSelectionData) (tag : Z),
       Z.of_nat (String.length
                   (if tag =? 0
                    then uri_list_of g_filename_to_uri file_paths
                    else plain_text_of file_paths))
       < 2 ^ 31 ->
       fst (clipboard_get_func selection_data tag (Some (next_addr w))
              (written g_filename_to_uri file_paths w))
       = if tag =? 0
         then mkSelectionData "text/uri-list" 8
                (Some (uri_list_of g_filename_to_uri file_paths))
                (Z.of_nat (String.length
                             (uri_list_of g_filename_to_uri file_paths)))
         else mkSelectionData "UTF8_STRING" 8
                (Some (plain_text_of file_paths))
                (Z.of_nat (String.length (plain_text_of file_paths))).
Proof.
  intros Hinv Hok Hclip.
  destruct (WriteFilePaths_publishes g_filename_to_uri file_paths w
              Hinv Hok Hclip) as [Ho Hh].
  split; [exact Ho | split; [exact Hh |]].
  intros selection_data tag Hsize.
  rewrite (clipboard_get_func_stores selection_data tag _ _ _ Hh).
  cbn [uri_list plain_text].
  destruct (tag =? 0); now rewrite stored_small.
Qed.


End SessionProperties.

Lemma neutral_without_session_witness :
  fst (EnsureGtkInitialized (initial_world Witness.headless)) = false
  /\ fst (perform GLib.g_filename_to_uri GLib.g_filename_from_uri
            Quality.x86_unrepresentable true
            (Op_WriteFilePaths Scenario.paths)
            (initial_world Witness.headless)) = Done
  /\ trace (snd (perform GLib.g_filename_to_uri GLib.g_filename_from_uri
                   Quality.x86_unrepresentable true
                   (Op_WriteFilePaths Scenario.paths)
                   (initial_world Witness.headless)))
     = [Call_gtk_init_check].
Proof.
  destruct (neutral_without_session GLib.g_filename_to_uri
              GLib.g_filename_from_uri Quality.x86_unrepresentable true
              (Op_WriteFilePaths Scenario.paths)
              (initial_world Witness.headless))
    as (H1 & _ & _ & _).
  - reflexivity.
  - split; [reflexivity | split; [exact H1 | reflexivity]].
Defined.



Lemma write_publishes_three_targets_witness :
  owner (session (written GLib.g_filename_to_uri Scenario.paths
                    (initial_world Witness.desktop)))
  = WithData [ mkTarget "text/uri-list" 0 0;
               mkTarget "UTF8_STRING" 0 1;
               mkTarget "STRING" 0 1 ]
      Fn_clipboard_get_func Fn_clipboard_clear_func (Some 1%positive)
  /\ fst (clipboard_get_func empty_selection 0 (Some 1%positive)
            (written GLib.g_filename_to_uri Scenario.paths
               (initial_world Witness.desktop)))
     = mkSelectionData "text/uri-list" 8 (Some Scenario.uri_list_bytes) 45
  /\ fst (clipboard_get_func empty_selection 1 (Some 1%positive)
            (written GLib.g_filename_to_uri Scenario.paths
               (initial_world Witness.desktop)))
     = mkSelectionData "UTF8_STRING" 8 (Some Scenario.utf8_string_bytes) 24.
Proof.
  destruct (write_publishes_three_targets GLib.g_filename_to_uri
              Scenario.paths (initial_world Witness.desktop))
    as (H1 & _ & H3).
  - apply payload_inv_initial. reflexivity.
  - reflexivity.
  - reflexivity.
  - split; [exact H1 |].
    split; [apply (H3 empty_selection 0) | apply (H3 empty_selection 1)];
      reflexivity.
Defined.

(** C8, as stated, fails for a representation of [2^31] bytes. After
    [WriteFilePaths] of one path of that size the plain text is the path;
    asked for it, the provide callback computes the length [INT_MIN] and
    hands over no byte. *)
Lemma write_publishes_three_targets_counterexample :
  Z.of_nat (String.length (plain_text_of [two_gib_path])) = 2 ^ 31
  /\ fst (clipboard_get_func empty_selection 1 (Some 1%positive)
            (written GLib.g_filename_to_uri [two_gib_path]
               (initial_world Witness.desktop)))
     = mkSelectionData "UTF8_STRING" 8 None (- 2 ^ 31)
  /\ fst (clipboard_get_func empty_selection 1 (Some 1%positive)
            (written GLib.g_filename_to_uri [two_gib_path]
               (initial_world Witness.desktop)))
     <> mkSelectionData "UTF8_STRING" 8
          (Some (plain_text_of [two_gib_path]))
          (Z.of_nat (String.length (plain_text_of [two_gib_path]))).
Proof.
  assert (Hlen : Z.of_nat (String.length (plain_text_of [two_gib_path]))
                 = 2 ^ 31).
  { rewrite plain_text_of_single. unfold two_gib_path.
    rewrite long_path_length, Nat2Z.inj_succ, Z2Nat.id by lia.
    reflexivity. }
  destruct (WriteFilePaths_publishes GLib.g_filename_to_uri [two_gib_path]
              (initial_world Witness.desktop)) as [_ Hh];
    [apply payload_inv_initial; reflexivity | reflexivity | reflexivity |].
  pose proof (clipboard_get_func_stores empty_selection 1 _ _ _ Hh) as Hget.
  change (next_addr (initial_world Witness.desktop)) with 1%positive in Hget.
  change (1 =? 0) with false in Hget. cbv iota in Hget.
  cbn [plain_text] in Hget.
  pose proof (eq_trans Hget (stored_wrapped "UTF8_STRING" _ Hlen)) as Hnone.
  split; [exact Hlen | split; [exact Hnone |]].
  intros H. pose proof (eq_trans (eq_sym Hnone) H) as Hsome.
  apply (f_equal sd_data) in Hsome. cbn [sd_data] in Hsome.
  discriminate Hsome.
Qed.



(** ** Further properties of the codec *)

Lemma splitLines_loop_acc (data : string) (lines : list string)
    (current : string) :
  splitLines_loop data lines current
  = lines ++ splitLines_loop data [] current.
Proof.
  revert lines current.
  induction data as [|ch rest IH]; intros lines current; simpl.
  - destruct (negb (empty current)); [reflexivity | now rewrite app_nil_r].
  - destruct (Ascii.eqb ch CR); [apply IH |].
    destruct (Ascii.eqb ch LF); [| apply IH].
    destruct (negb (empty current));
      rewrite IH, (IH [_]); now rewrite app_assoc.
Qed.

Lemma splitLines_loop_strip_cr (data : string) (lines : list string)
    (current : string) :
  splitLines_loop (strip_cr data) lines current
  = splitLines_loop data lines current.
Proof.
  revert lines current.
  induction data as [|ch rest IH]; intros lines current; simpl;
    [reflexivity |].
  destruct (Ascii.eqb ch CR) eqn:Hcr; [apply IH |].
  simpl. rewrite Hcr.
  destruct (Ascii.eqb ch LF); [destruct (negb (empty current)) |]; apply IH.
Qed.

(** A line feed ends the line that is being read, whatever it holds. *)
Lemma splitLines_loop_lf (rest : string) (lines : list string)
    (current : string) :
  splitLines_loop (String LF rest) lines current
  = splitLines_loop rest (lines ++ [current]) EmptyString.
Proof. simpl. destruct current; reflexivity. Qed.

Lemma splitLines_loop_cut (before after : string) (lines : list string)
    (current : string) :
  splitLines_loop (before +:+ String LF after) lines current
  = splitLines_loop (before +:+ String LF EmptyString) lines current
    ++ splitLines after.
Proof.
  revert lines current.
  induction before as [|ch before IH]; intros lines current.
  - rewrite !string_app_nil_l, !splitLines_loop_lf.
    rewrite splitLines_loop_acc. reflexivity.
  - rewrite !string_app_cons. simpl.
    destruct (Ascii.eqb ch CR); [apply IH |].
    destruct (Ascii.eqb ch LF); [| apply IH].
    destruct (negb (empty current)); apply IH.
Qed.

Lemma splitLines_loop_count (data : string) (lines : list string)
    (current : string) :
  (length lines + count_lf data
   <= length (splitLines_loop data lines current)
   <= length lines + count_lf data + 1)%nat.
Proof.
  revert lines current.
  induction data as [|ch rest IH]; intros lines current; simpl.
  - destruct (negb (empty current)); rewrite ?length_app; simpl; lia.
  - destruct (Ascii.eqb ch CR) eqn:Hcr.
    + assert (Hlf : Ascii.eqb ch LF = false).
      { apply Ascii.eqb_eq in Hcr. subst ch. reflexivity. }
      rewrite Hlf. apply IH.
    + destruct (Ascii.eqb ch LF); [| apply IH].
      destruct (negb (empty current));
        match goal with
        | |- context [splitLines_loop rest ?l ?c] =>
            specialize (IH l c); rewrite length_app in IH; simpl in IH; lia
        end.
Qed.

Lemma crlf_terminated_app (a b : list string) :
  crlf_terminated (a ++ b) = crlf_terminated a +:+ crlf_terminated b.
Proof.
  induction a as [|item a IH]; simpl; [reflexivity |].
  now rewrite IH, !string_app_assoc.
Qed.

Lemma c_str_idempotent (s : string) : c_str (c_str s) = c_str s.
Proof. apply c_str_no_nul, c_str_mem_nul. Qed.

Lemma strip_cr_app (a b : string) :
  strip_cr (a +:+ b) = strip_cr a +:+ strip_cr b.
Proof.
  induction a as [|ch a IH]; [reflexivity |].
  rewrite string_app_cons. simpl.
  destruct (Ascii.eqb ch CR); [exact IH |].
  now rewrite string_app_cons, IH.
Qed.

Lemma strip_cr_clean (s : string) :
  mem LF s = false -> line_clean (strip_cr s) = true.
Proof.
  induction s as [|ch s IH]; [reflexivity |].
  simpl. intros H. apply orb_false_iff in H as [Hc Hs].
  destruct (Ascii.eqb ch CR) eqn:Hcr; [now apply IH |].
  specialize (IH Hs). unfold line_clean in *. simpl.
  rewrite Hcr, Hc. exact IH.
Qed.

(** One line, with its line feed: the line without its carriage
    returns. *)
Lemma splitLines_one_line (u : string) :
  mem LF u = false ->
  splitLines (u +:+ String LF EmptyString) = [strip_cr u].
Proof.
  intros Hu. unfold splitLines.
  rewrite <- splitLines_loop_strip_cr, strip_cr_app.
  rewrite splitLines_loop_clean by now apply strip_cr_clean.
  change (strip_cr (String LF EmptyString)) with (String LF EmptyString).
  now rewrite string_app_nil_l, splitLines_loop_lf.
Qed.

Lemma decode_as_lines (g_filename_from_uri : string -> option string)
    (data : string) :
  decode_uri_list g_filename_from_uri data
  = omap (fun line => g_filename_from_uri (c_str line))
      (filter (fun line => uri_line line = true) (splitLines data)).
Proof. unfold decode_uri_list. now rewrite read_lines_spec, app_nil_l. Qed.

Lemma decode_cut (g_filename_from_uri : string -> option string)
    (before after : string) :
  decode_uri_list g_filename_from_uri (before +:+ String LF after)
  = decode_uri_list g_filename_from_uri (before +:+ String LF EmptyString)
    ++ decode_uri_list g_filename_from_uri after.
Proof.
  rewrite !decode_as_lines. unfold splitLines at 1.
  rewrite splitLines_loop_cut. fold (splitLines (before +:+ String LF "")).
  now rewrite filter_app, omap_app.
Qed.

(** X1. Carriage returns count for nothing, wherever they stand: a buffer
    and the same buffer without its CR bytes split into the same lines and
    decode to the same paths. *)
Theorem carriage_returns_are_discarded
    (g_filename_from_uri : string -> option string) (data : string) :
  splitLines (strip_cr data) = splitLines data
  /\ decode_uri_list g_filename_from_uri (strip_cr data)
     = decode_uri_list g_filename_from_uri data.
Proof.
  assert (H : splitLines (strip_cr data) = splitLines data)
    by apply splitLines_loop_strip_cr.
  split; [exact H |]. unfold decode_uri_list. now rewrite H.
Qed.

(** X2. The codec works line by line: the lines of a buffer cut after a
    line feed are the lines of the part up to that line feed followed by
    the lines of the rest, and the decoded paths likewise. *)
Theorem cut_at_line_feed
    (g_filename_from_uri : string -> option string) (before after : string) :
  splitLines (before +:+ String LF after)
  = splitLines (before +:+ String LF EmptyString) ++ splitLines after
  /\ decode_uri_list g_filename_from_uri (before +:+ String LF after)
     = decode_uri_list g_filename_from_uri (before +:+ String LF EmptyString)
       ++ decode_uri_list g_filename_from_uri after.
Proof.
  assert (H : splitLines (before +:+ String LF after)
              = splitLines (before +:+ String LF EmptyString)
                ++ splitLines after)
    by apply splitLines_loop_cut.
  split; [exact H |].
  rewrite !decode_as_lines, H.
  now rewrite filter_app, omap_app.
Qed.

(** X3. Every line feed gives one line, empty lines included, and the
    bytes after the last line feed give at most one more; a read returns
    at most one path per line. *)
Theorem splitLines_line_count
    (g_filename_from_uri : string -> option string) (data : string) :
  (count_lf data <= length (splitLines data) <= count_lf data + 1)%nat
  /\ (length (decode_uri_list g_filename_from_uri data)
      <= length (splitLines data))%nat.
Proof.
  split.
  - pose proof (splitLines_loop_count data [] EmptyString) as H.
    simpl in H. exact H.
  - rewrite decode_as_lines.
    etransitivity; [apply omap_length_le | apply length_filter].
Qed.

(** X4. Joining lines with CRLF and splitting the result gives the lines
    back, empty ones included, provided no line holds a CR or an LF. *)
Theorem lines_round_trip (items : list string) :
  Forall (fun item => line_clean item = true) items ->
  splitLines (joinWithCrlf items) = items.
Proof.
  intros H. rewrite joinWithCrlf_spec. unfold splitLines.
  rewrite (splitLines_loop_terminated items [] H). reflexivity.
Qed.

Lemma lines_round_trip_witness :
  splitLines (joinWithCrlf ["file:///a"; ""; "# note"])
  = ["file:///a"; ""; "# note"].
Proof.
  apply (lines_round_trip ["file:///a"; ""; "# note"]).
  repeat constructor.
Defined.

(** X5. Encoding is compatible with concatenation: the URI list of two
    path lists one after the other is the URI list of the first followed
    by that of the second, and likewise for [joinWithCrlf]. *)
Theorem encode_concatenation
    (g_filename_to_uri : string -> option string) (a b : list string) :
  uri_list_of g_filename_to_uri (a ++ b)
  = uri_list_of g_filename_to_uri a +:+ uri_list_of g_filename_to_uri b
  /\ joinWithCrlf (a ++ b) = joinWithCrlf a +:+ joinWithCrlf b.
Proof.
  unfold uri_list_of.
  rewrite !joinWithCrlf_spec, !build_uris_spec, !app_nil_l, omap_app.
  split; apply crlf_terminated_app.
Qed.

(** X6. A line that is empty or a comment once its carriage returns are
    removed contributes nothing: taking the line out of the buffer, with
    its line feed, does not change what is decoded. *)
Theorem skipped_line_changes_nothing
    (g_filename_from_uri : string -> option string)
    (before line after : string) :
  at_line_start before ->
  mem LF line = false ->
  uri_line (strip_cr line) = false ->
  decode_uri_list g_filename_from_uri
    (before +:+ line +:+ String LF after)
  = decode_uri_list g_filename_from_uri (before +:+ after).
Proof.
  intros Hb Hl Hu.
  assert (Hline : decode_uri_list g_filename_from_uri
                    (line +:+ String LF after)
                  = decode_uri_list g_filename_from_uri after).
  { rewrite decode_cut, decode_as_lines, splitLines_one_line by exact Hl.
    rewrite filter_cons, decide_False by (rewrite Hu; discriminate).
    reflexivity. }
  destruct Hb as [-> | [data ->]].
  - now rewrite !string_app_nil_l.
  - rewrite !string_app_assoc, !string_app_cons, !string_app_nil_l.
    rewrite decode_cut, Hline. symmetry. apply decode_cut.
Qed.

Lemma skipped_line_changes_nothing_witness :
  decode_uri_list GLib.g_filename_from_uri
    (("file:///a" +:+ String LF EmptyString)
     +:+ String CR "# a comment" +:+ String LF "file:///b")
  = decode_uri_list GLib.g_filename_from_uri
      (("file:///a" +:+ String LF EmptyString) +:+ "file:///b").
Proof.
  apply (skipped_line_changes_nothing GLib.g_filename_from_uri
           ("file:///a" +:+ String LF EmptyString)
           (String CR "# a comment") "file:///b").
  - right. exists "file:///a". reflexivity.
  - reflexivity.
  - reflexivity.
Defined.

(** X7. The URI list is built from the C strings of the paths: a path is
    converted up to its first NUL byte only, so the paths and the paths
    cut at their first NUL have the same URI list. *)
Theorem uri_list_stops_at_nul
    (g_filename_to_uri : string -> option string) (file_paths : list string) :
  uri_list_of g_filename_to_uri (map c_str file_paths)
  = uri_list_of g_filename_to_uri file_paths.
Proof.
  unfold uri_list_of. f_equal. rewrite !build_uris_spec, !app_nil_l.
  induction file_paths as [|path rest IH]; [reflexivity |].
  change (map c_str (path :: rest)) with (c_str path :: map c_str rest).
  destruct (g_filename_to_uri (c_str path)) as [uri|] eqn:E.
  - rewrite (omap_cons_Some _ (c_str path) uri)
      by (rewrite c_str_idempotent; exact E).
    rewrite (omap_cons_Some _ path uri) by exact E. now rewrite IH.
  - rewrite (omap_cons_None _ (c_str path))
      by (rewrite c_str_idempotent; exact E).
    rewrite (omap_cons_None _ path) by exact E. exact IH.
Qed.

(** X8. The plain-text fallback can be cut back into the paths: when no
    path is empty or holds a CR or an LF, splitting the plain text into
    lines gives exactly the paths. *)
Theorem plain_text_lines (file_paths : list string) :
  Forall (fun path => line_clean path = true /\ empty path = false)
    file_paths ->
  splitLines (plain_text_of file_paths) = file_paths.
Proof.
  intros H. rewrite plain_text_of_spec.
  induction H as [|path rest [Hc He] Hrest IH]; [reflexivity |].
  destruct rest as [|next rest].
  - simpl. unfold splitLines.
    rewrite <- (string_app_nil_r path) at 1.
    rewrite splitLines_loop_clean by exact Hc.
    rewrite string_app_nil_l. simpl. now rewrite He.
  - change (String.concat (String LF EmptyString) (path :: next :: rest))
      with (path +:+ String LF EmptyString
            +:+ String.concat (String LF EmptyString) (next :: rest)).
    rewrite string_app_cons, string_app_nil_l.
    unfold splitLines at 1. rewrite splitLines_loop_cut.
    fold (splitLines (path +:+ String LF EmptyString)).
    rewrite IH.
    rewrite splitLines_one_line.
    + f_equal. simpl. f_equal.
      clear -Hc. unfold line_clean in Hc.
      apply andb_true_iff in Hc as [Hcr _]. apply negb_true_iff in Hcr.
      induction path as [|ch path IHp]; [reflexivity |].
      simpl in *. apply orb_false_iff in Hcr as [H1 H2].
      rewrite H1. now rewrite IHp.
    + unfold line_clean in Hc. apply andb_true_iff in Hc as [_ Hlf].
      now apply negb_true_iff.
Qed.

Lemma plain_text_lines_witness :
  splitLines (plain_text_of Scenario.paths) = Scenario.paths.
Proof.
  apply (plain_text_lines Scenario.paths).
  repeat constructor.
Defined.

(** ** Further properties of the operations *)

Lemma kept_log (w0 : World) (e : Event) : preserves (kept w0) (log e).
Proof. intros w H. exact H. Qed.

Lemma kept_get_session (w0 : World) : preserves (kept w0) get_session.
Proof. apply preserves_read. Qed.

Lemma kept_EnsureGtkInitialized (w0 : World) :
  preserves (kept w0) EnsureGtkInitialized.
Proof.
  intros w H. rewrite EnsureGtkInitialized_unfold.
  destruct (attempted w); exact H.
Qed.

Lemma kept_deref (w0 : World) (p : addr) : preserves (kept w0) (deref p).
Proof. intros w H. unfold deref. destruct (heap w !! p); exact H. Qed.

Create HintDb kept_db.

#[local] Hint Resolve kept_log kept_get_session kept_EnsureGtkInitialized
  kept_deref : kept_db.

Lemma kept_selection_data_set (w0 : World) (sd : GtkSelectionData)
    (type : string) (format : Z) (data : string) (length : Z) :
  preserves (kept w0) (gtk_selection_data_set sd type format data length).
Proof. unfold gtk_selection_data_set. msolve kept_db. Qed.

#[local] Hint Resolve kept_selection_data_set : kept_db.

Lemma kept_call_get_func (w0 : World) (f : GtkClipboardGetFunc)
    (sd : GtkSelectionData) (info : Z) (user_data : gpointer) :
  preserves (kept w0) (call_get_func f sd info user_data).
Proof. destruct f. unfold call_get_func, clipboard_get_func. msolve kept_db. Qed.

#[local] Hint Resolve kept_call_get_func : kept_db.

Lemma kept_serve_request (w0 : World) (requested : string) :
  preserves (kept w0) (serve_request requested).
Proof. unfold serve_request. msolve kept_db. Qed.

#[local] Hint Resolve kept_serve_request : kept_db.

Lemma kept_gtk_clipboard_get (w0 : World) :
  preserves (kept w0) gtk_clipboard_get.
Proof. unfold gtk_clipboard_get. msolve kept_db. Qed.

Lemma kept_wait_for_contents (w0 : World) (c : GtkClipboard)
    (requested : string) :
  preserves (kept w0) (gtk_clipboard_wait_for_contents c requested).
Proof. unfold gtk_clipboard_wait_for_contents. msolve kept_db. Qed.

Lemma kept_wait_for_image (w0 : World) (c : GtkClipboard) :
  preserves (kept w0) (gtk_clipboard_wait_for_image c).
Proof. unfold gtk_clipboard_wait_for_image. msolve kept_db. Qed.

Lemma kept_wait_is_image_available (w0 : World) (c : GtkClipboard) :
  preserves (kept w0) (gtk_clipboard_wait_is_image_available c).
Proof. unfold gtk_clipboard_wait_is_image_available. msolve kept_db. Qed.

Lemma kept_new_from_file (w0 : World) (filename : string) :
  preserves (kept w0) (gdk_pixbuf_new_from_file filename).
Proof. unfold gdk_pixbuf_new_from_file. msolve kept_db. Qed.

#[local] Hint Resolve kept_gtk_clipboard_get kept_wait_for_contents
  kept_wait_for_image kept_wait_is_image_available kept_new_from_file
  : kept_db.

Lemma EnsureGtkInitialized_acquired (w : World) :
  attempted w = true -> initialized w = true ->
  EnsureGtkInitialized w = (true, w).
Proof.
  intros Ha Hi. rewrite EnsureGtkInitialized_unfold, Ha, Hi. reflexivity.
Qed.

Lemma kept_refl (w : World) : kept w w.
Proof. split; reflexivity. Qed.

(** What a request is answered depends on the owner of the clipboard and
    on the free store only. *)
Lemma serve_request_owner (requested : string) (w1 w2 : World) :
  owner (session w1) = owner (session w2) -> heap w1 = heap w2 ->
  fst (serve_request requested w1) = fst (serve_request requested w2).
Proof.
  intros Ho Hh. unfold serve_request, bind, get_session. cbv beta iota.
  rewrite Ho.
  destruct (owner (session w2))
    as [| contents image advertised | targets g f ud | pixbuf];
    try reflexivity.
  destruct (List.find _ targets) as [entry|]; [| reflexivity].
  destruct g. unfold call_get_func, clipboard_get_func.
  destruct ud as [p|]; [| reflexivity].
  destruct (info entry =? 0); unfold bind, deref; rewrite Hh;
    destruct (heap w2 !! p); reflexivity.
Qed.

Lemma serve_request_frame (requested : string) (w1 w2 : World) :
  session w1 = session w2 -> heap w1 = heap w2 ->
  fst (serve_request requested w1) = fst (serve_request requested w2).
Proof.
  intros Hs Hh. apply serve_request_owner; [now rewrite Hs | exact Hh].
Qed.

(** *** The clipboard stays as it is where only files are written *)

Lemma same_clipboard_refl (w : World) : same_clipboard w w.
Proof. repeat split; reflexivity. Qed.

Lemma same_clipboard_lift {A : Type} (m : M A) :
  (forall w0, preserves (kept w0) m) ->
  forall w0, preserves (same_clipboard w0) m.
Proof.
  intros Hm w0 w (Ho & Hc & Hd & Hh).
  destruct (Hm w w (kept_refl w)) as [Hs Hh'].
  unfold same_clipboard. now rewrite Hs, Hh'.
Qed.

Lemma same_clipboard_pixbuf_save (w0 : World) (pixbuf : GdkPixbuf)
    (filename type : string) (quality : option string) :
  preserves (same_clipboard w0)
    (gdk_pixbuf_save pixbuf filename type quality).
Proof.
  intros w H. unfold gdk_pixbuf_save, bind, get_session, log.
  cbn [fst snd session].
  destruct (save_succeeds (session w) filename type); exact H.
Qed.

Create HintDb clip_db.

#[local] Hint Resolve same_clipboard_pixbuf_save : clip_db.

#[local] Hint Extern 5 (preserves (same_clipboard _) _) =>
  (apply same_clipboard_lift; intros; solve [auto with kept_db]) : clip_db.

Lemma change_owner_world (o : Owner) (w : World) :
  attempted (snd (change_owner o w)) = attempted w
  /\ initialized (snd (change_owner o w)) = initialized w
  /\ session (snd (change_owner o w)) = with_owner o (session w).
Proof.
  unfold change_owner, release_owner, bind, get_session. cbv beta iota.
  destruct w as [a i h n [d c ow files saves lossy] t]. simpl.
  destruct ow as [| contents image advertised | targets g f [q|] | pixbuf];
    try (destruct f); simpl; try (repeat split; reflexivity).
  unfold clipboard_clear_func, delete_payload. simpl.
  destruct (h !! q); simpl; repeat split; reflexivity.
Qed.

Lemma bind_run {A B : Type} (m : M A) (k : A -> M B) (w : World) :
  bind m k w = k (fst (m w)) (snd (m w)).
Proof. unfold bind. now destruct (m w). Qed.

Lemma gtk_clipboard_get_value (w : World) :
  fst (gtk_clipboard_get w)
  = if clipboard_available (session w) then Some the_clipboard else None.
Proof. reflexivity. Qed.

Lemma gtk_clipboard_wait_for_image_value (c : GtkClipboard) (w : World) :
  fst (gtk_clipboard_wait_for_image c w) = current_image (session w).
Proof. reflexivity. Qed.

Lemma gtk_clipboard_wait_is_image_available_value (c : GtkClipboard)
    (w : World) :
  fst (gtk_clipboard_wait_is_image_available c w)
  = advertises_image (session w).
Proof. reflexivity. Qed.

Lemma gdk_pixbuf_save_value (pixbuf : GdkPixbuf) (filename type : string)
    (quality : option string) (w : World) :
  fst (gdk_pixbuf_save pixbuf filename type quality w)
  = save_succeeds (session w) filename type.
Proof.
  unfold gdk_pixbuf_save, bind, get_session, log. cbn [fst snd session].
  now destruct (save_succeeds (session w) filename type).
Qed.

Lemma gdk_pixbuf_new_from_file_value (filename : string) (w : World) :
  fst (gdk_pixbuf_new_from_file filename w) = image_files (session w) filename.
Proof. reflexivity. Qed.

(** The rest of [ReadFilePaths] after its request. *)
Lemma selection_paths_tail (g_filename_from_uri : string -> option string)
    (m : M (option GtkSelectionData)) (w : World) :
  fst (bind m
         (fun sel =>
            match sel with
            | None => ret []
            | Some sel =>
                match sd_data sel with
                | None => ret []
                | Some buffer =>
                    if sd_length sel <=? 0 then ret []
                    else ret (decode_uri_list g_filename_from_uri
                                (bytes buffer (sd_length sel)))
                end
            end) w)
  = selection_paths g_filename_from_uri (fst (m w)).
Proof.
  rewrite bind_run. unfold selection_paths.
  destruct (fst (m w)) as [sel|]; [| reflexivity].
  destruct (sd_data sel); [| reflexivity].
  destruct (sd_length sel <=? 0); reflexivity.
Qed.

Section OperationFacts.

Variable g_filename_to_uri : string -> option string.
Variable g_filename_from_uri : string -> option string.
Variable unrepresentable : spec_float -> Z.
Variable gtk_2_6 : bool.

Local Abbreviation perform' :=
  (perform g_filename_to_uri g_filename_from_uri unrepresentable gtk_2_6).

(** What [ReadFilePaths] returns, in terms of the answer to its
    request. *)
Lemma ReadFilePaths_value (w : World) :
  fst (ReadFilePaths g_filename_from_uri w)
  = if fst (EnsureGtkInitialized w) && clipboard_available (session w)
    then selection_paths g_filename_from_uri
           (fst (serve_request "text/uri-list" w))
    else [].
Proof.
  unfold ReadFilePaths. cbv zeta. rewrite bind_run.
  pose proof (kept_EnsureGtkInitialized w w (kept_refl w)) as [Hs Hh].
  destruct (fst (EnsureGtkInitialized w)); [| reflexivity].
  cbn [negb andb]. rewrite bind_run, gtk_clipboard_get_value, Hs.
  pose proof (kept_gtk_clipboard_get w _ (conj Hs Hh)) as [Hs2 Hh2].
  destruct (clipboard_available (session w)); [| reflexivity].
  cbn [negb andb].
  rewrite (selection_paths_tail g_filename_from_uri). f_equal.
  unfold gtk_clipboard_wait_for_contents. rewrite bind_run.
  apply serve_request_frame; simpl; assumption.
Qed.

(** What the four boolean operations return. *)
Lemma ClipboardHasImage_value (w : World) :
  fst (ClipboardHasImage gtk_2_6 w)
  = fst (EnsureGtkInitialized w) && clipboard_available (session w)
    && image_answer gtk_2_6 (session w).
Proof.
  unfold ClipboardHasImage. rewrite bind_run.
  pose proof (kept_EnsureGtkInitialized w w (kept_refl w)) as [Hs Hh].
  destruct (fst (EnsureGtkInitialized w)); [| reflexivity].
  cbn [negb andb]. rewrite bind_run, gtk_clipboard_get_value, Hs.
  pose proof (kept_gtk_clipboard_get w _ (conj Hs Hh)) as [Hs2 Hh2].
  destruct (clipboard_available (session w)); [| reflexivity].
  cbn [negb andb].
  destruct gtk_2_6; cbn [image_answer].
  - now rewrite gtk_clipboard_wait_is_image_available_value, Hs2.
  - rewrite bind_run, gtk_clipboard_wait_for_image_value, Hs2.
    unfold has_image. now destruct (current_image (session w)).
Qed.

Lemma SaveClipboardImageAsPng_value (target_path : string) (w : World) :
  fst (SaveClipboardImageAsPng target_path w)
  = fst (EnsureGtkInitialized w) && clipboard_available (session w)
    && has_image (session w)
    && save_succeeds (session w) (c_str target_path) "png".
Proof.
  unfold SaveClipboardImageAsPng. rewrite bind_run.
  pose proof (kept_EnsureGtkInitialized w w (kept_refl w)) as [Hs Hh].
  destruct (fst (EnsureGtkInitialized w)); [| reflexivity].
  cbn [negb andb]. rewrite bind_run, gtk_clipboard_get_value, Hs.
  pose proof (kept_gtk_clipboard_get w _ (conj Hs Hh)) as [Hs2 Hh2].
  destruct (clipboard_available (session w)); [| reflexivity].
  cbn [negb andb].
  rewrite bind_run, gtk_clipboard_wait_for_image_value, Hs2.
  pose proof (kept_wait_for_image w the_clipboard _ (conj Hs2 Hh2))
    as [Hs3 Hh3].
  unfold has_image. destruct (current_image (session w)); [| reflexivity].
  now rewrite bind_run, gdk_pixbuf_save_value, Hs3.
Qed.

Lemma SaveClipboardImageAsJpeg_value (target_path : string)
    (compression_factor : spec_float) (w : World) :
  fst (SaveClipboardImageAsJpeg unrepresentable target_path
         compression_factor w)
  = fst (EnsureGtkInitialized w) && clipboard_available (session w)
    && has_image (session w)
    && save_succeeds (session w) (c_str target_path) "jpeg".
Proof.
  unfold SaveClipboardImageAsJpeg. rewrite bind_run.
  pose proof (kept_EnsureGtkInitialized w w (kept_refl w)) as [Hs Hh].
  destruct (fst (EnsureGtkInitialized w)); [| reflexivity].
  cbn [negb andb]. rewrite bind_run, gtk_clipboard_get_value, Hs.
  pose proof (kept_gtk_clipboard_get w _ (conj Hs Hh)) as [Hs2 Hh2].
  destruct (clipboard_available (session w)); [| reflexivity].
  cbn [negb andb].
  rewrite bind_run, gtk_clipboard_wait_for_image_value, Hs2.
  pose proof (kept_wait_for_image w the_clipboard _ (conj Hs2 Hh2))
    as [Hs3 Hh3].
  unfold has_image. destruct (current_image (session w)); [| reflexivity].
  cbv zeta. now rewrite bind_run, gdk_pixbuf_save_value, Hs3.
Qed.

Lemma PutImageIntoClipboard_value (image_path : string) (w : World) :
  fst (PutImageIntoClipboard image_path w)
  = fst (EnsureGtkInitialized w)
    && match image_files (session w) (c_str image_path) with
       | Some _ => true
       | None => false
       end
    && clipboard_available (session w).
Proof.
  unfold PutImageIntoClipboard. rewrite bind_run.
  pose proof (kept_EnsureGtkInitialized w w (kept_refl w)) as [Hs Hh].
  destruct (fst (EnsureGtkInitialized w)); [| reflexivity].
  cbn [negb andb].
  rewrite bind_run, gdk_pixbuf_new_from_file_value, Hs.
  pose proof (kept_new_from_file w (c_str image_path) _ (conj Hs Hh))
    as [Hs2 Hh2].
  destruct (image_files (session w) (c_str image_path)); [| reflexivity].
  rewrite bind_run, gtk_clipboard_get_value, Hs2.
  destruct (clipboard_available (session w)); [| reflexivity].
  rewrite !bind_run. reflexivity.
Qed.

End OperationFacts.

Lemma selection_paths_provided
    (g_filename_from_uri : string -> option string) (type data : string) :
  selection_paths g_filename_from_uri (Some (provided type data))
  = decode_uri_list g_filename_from_uri data.
Proof.
  unfold selection_paths, provided. simpl.
  destruct data as [|ch data]; [reflexivity |].
  replace (Z.of_nat (String.length (String ch data)) <=? 0) with false
    by (symmetry; apply Z.leb_gt; simpl; lia).
  now rewrite bytes_all.
Qed.

Lemma serve_request_not_offered (requested : string) (w : World)
    (targets : list GtkTargetEntry) (g : GtkClipboardGetFunc)
    (f : GtkClipboardClearFunc) (user_data : gpointer) :
  owner (session w) = WithData targets g f user_data ->
  List.find (fun e => String.eqb (target e) requested) targets = None ->
  fst (serve_request requested w) = None.
Proof.
  intros Ho Hf. unfold serve_request, bind, get_session. cbv beta iota.
  now rewrite Ho, Hf.
Qed.

(** A request for an offered target is answered with what the provide
    callback stored, unless the length it stored is negative. *)
Lemma serve_request_stores (requested : string) (w : World)
    (targets : list GtkTargetEntry) (f : GtkClipboardClearFunc) (p : addr)
    (payload : UriListData) (entry : GtkTargetEntry) :
  owner (session w) = WithData targets Fn_clipboard_get_func f (Some p) ->
  heap w !! p = Some payload ->
  List.find (fun e => String.eqb (target e) requested) targets = Some entry ->
  fst (serve_request requested w)
  = if info entry =? 0
    then (if sd_length (stored "text/uri-list" (uri_list payload)) <? 0
          then None
          else Some (stored "text/uri-list" (uri_list payload)))
    else (if sd_length (stored "UTF8_STRING" (plain_text payload)) <? 0
          then None
          else Some (stored "UTF8_STRING" (plain_text payload))).
Proof.
  intros Ho Hp Hf.
  unfold serve_request, bind, get_session. cbv beta iota.
  rewrite Ho, Hf. unfold call_get_func.
  pose proof (clipboard_get_func_stores empty_selection (info entry) p
                payload w Hp) as Hg.
  destruct (clipboard_get_func empty_selection (info entry) (Some p) w)
    as [sd w']. unfold ret. cbn [fst snd] in *. subst sd.
  now destruct (info entry =? 0).
Qed.

Lemma served_small (type data : string) :
  Z.of_nat (String.length data) < 2 ^ 31 ->
  (if sd_length (stored type data) <? 0 then None
   else Some (stored type data))
  = Some (provided type data).
Proof.
  intros H. rewrite stored_small by exact H.
  replace (sd_length (provided type data) <? 0) with false; [reflexivity |].
  symmetry. apply Z.ltb_ge. unfold provided. simpl. lia.
Qed.

Section MutatorFacts.

Variable g_filename_to_uri : string -> option string.

(** The statics and the session after a successful [WriteFilePaths]. *)
Lemma WriteFilePaths_world (file_paths : list string) (w : World) :
  fst (EnsureGtkInitialized w) = true ->
  clipboard_available (session w) = true ->
  attempted (written g_filename_to_uri file_paths w) = true
  /\ initialized (written g_filename_to_uri file_paths w) = true
  /\ session (written g_filename_to_uri file_paths w)
     = with_owner
         (WithData write_targets Fn_clipboard_get_func
            Fn_clipboard_clear_func (Some (next_addr w)))
         (session w).
Proof.
  intros Hok Hclip.
  pose proof (EnsureGtkInitialized_effects w) as He.
  unfold written, WriteFilePaths, bind.
  destruct (EnsureGtkInitialized w) as [ok w1]. simpl in Hok. subst ok.
  destruct He as (Ha & Hi & Hs & Hh & Hn & _). simpl.
  rewrite <- Hs, <- Hn. rewrite <- Hs in Hclip. clear Hs Hh Hn.
  destruct w1 as [a i h n [d c ow files saves lossy] t]. simpl in *. subst a i c.
  unfold assign, new_UriListData. simpl.
  rewrite lookup_insert_eq. simpl. rewrite lookup_insert_eq. simpl.
  unfold gtk_clipboard_set_with_data, gtk_clipboard_store, change_owner,
    release_owner, bind, get_session, log, set_owner, ret. simpl.
  destruct ow as [| contents image advertised | targets g f [q|] | pixbuf];
    try (destruct f); simpl; try (repeat split; reflexivity).
  unfold clipboard_clear_func, delete_payload, log. simpl.
  destruct (_ !! q); simpl; repeat split; reflexivity.
Qed.

End MutatorFacts.

(** The statics and the session once an owner has been replaced. *)
Ltac replace_owner ow :=
  unfold gtk_clipboard_get, gtk_clipboard_clear, gtk_clipboard_set_image,
    gdk_pixbuf_new_from_file, gtk_clipboard_store, change_owner,
    release_owner, bind, get_session, log, set_owner, ret; simpl;
  repeat match goal with
         | H : _ = _ |- _ => rewrite H; simpl
         end;
  destruct ow as [| ? ? | ? ? [] [?|] | ?]; simpl;
  try (repeat split; reflexivity);
  unfold clipboard_clear_func, delete_payload, log; simpl;
  destruct (_ !! _); simpl; repeat split; reflexivity.

(** The statics and the session after a successful [ClearClipboard]. *)
Lemma ClearClipboard_world (w : World) :
  fst (EnsureGtkInitialized w) = true ->
  clipboard_available (session w) = true ->
  attempted (snd (ClearClipboard w)) = true
  /\ initialized (snd (ClearClipboard w)) = true
  /\ session (snd (ClearClipboard w)) = with_owner NoOwner (session w).
Proof.
  intros Hok Hclip.
  pose proof (EnsureGtkInitialized_effects w) as He.
  unfold ClearClipboard, bind.
  destruct (EnsureGtkInitialized w) as [ok w1]. simpl in Hok. subst ok.
  destruct He as (Ha & Hi & Hs & _). simpl.
  rewrite <- Hs. rewrite <- Hs in Hclip. clear Hs.
  destruct w1 as [a i h n [d c ow files saves lossy] t]. simpl in *. subst a i c.
  replace_owner ow.
Qed.

(** The statics and the session after a successful
    [PutImageIntoClipboard]. *)
Lemma PutImageIntoClipboard_world (image_path : string) (pixbuf : GdkPixbuf)
    (w : World) :
  fst (EnsureGtkInitialized w) = true ->
  clipboard_available (session w) = true ->
  image_files (session w) (c_str image_path) = Some pixbuf ->
  attempted (snd (PutImageIntoClipboard image_path w)) = true
  /\ initialized (snd (PutImageIntoClipboard image_path w)) = true
  /\ session (snd (PutImageIntoClipboard image_path w))
     = with_owner (WithImage pixbuf) (session w).
Proof.
  intros Hok Hclip Himg.
  pose proof (EnsureGtkInitialized_effects w) as He.
  unfold PutImageIntoClipboard, bind.
  destruct (EnsureGtkInitialized w) as [ok w1]. simpl in Hok. subst ok.
  destruct He as (Ha & Hi & Hs & _). simpl.
  rewrite <- Hs. rewrite <- Hs in Hclip, Himg. clear Hs.
  destruct w1 as [a i h n [d c ow files saves lossy] t]. simpl in *. subst a i c.
  replace_owner ow.
Qed.

(** With a session, a clipboard and an image, [SaveClipboardImageAsPng]
    calls the encoder once, without a quality. *)
Lemma SaveClipboardImageAsPng_encodes (target_path : string)
    (pixbuf : GdkPixbuf) (w : World) :
  fst (EnsureGtkInitialized w) = true ->
  clipboard_available (session w) = true ->
  current_image (session w) = Some pixbuf ->
  trace (snd (SaveClipboardImageAsPng target_path w))
  = Call_gdk_pixbuf_save pixbuf (c_str target_path) "png" None
    :: Call_gtk_clipboard_wait_for_image :: Call_gtk_clipboard_get
    :: trace (snd (EnsureGtkInitialized w)).
Proof.
  intros Hok Hclip Himg.
  pose proof (EnsureGtkInitialized_effects w) as He.
  unfold SaveClipboardImageAsPng, bind.
  destruct (EnsureGtkInitialized w) as [ok w1]. simpl in Hok. subst ok.
  destruct He as (_ & _ & Hs & _).
  destruct w1 as [a i h n s t]. simpl in Hs. subst s.
  unfold gtk_clipboard_get, gtk_clipboard_wait_for_image, gdk_pixbuf_save,
    bind, get_session, log, ret. simpl.
  rewrite Hclip. simpl. rewrite Himg. simpl.
  now destruct (save_succeeds (session w) (c_str target_path) "png").
Qed.

(** The session after a save that found an image. *)
Lemma SaveClipboardImageAsPng_session (target_path : string)
    (pixbuf : GdkPixbuf) (w : World) :
  fst (EnsureGtkInitialized w) = true ->
  clipboard_available (session w) = true ->
  current_image (session w) = Some pixbuf ->
  session (snd (SaveClipboardImageAsPng target_path w))
  = if save_succeeds (session w) (c_str target_path) "png"
    then with_file (c_str target_path) pixbuf (session w)
    else session w.
Proof.
  intros Hok Hclip Himg.
  pose proof (EnsureGtkInitialized_effects w) as He.
  unfold SaveClipboardImageAsPng, bind.
  destruct (EnsureGtkInitialized w) as [ok w1]. simpl in Hok. subst ok.
  destruct He as (_ & _ & Hs & _).
  destruct w1 as [a i h n s t]. simpl in Hs. subst s.
  unfold gtk_clipboard_get, gtk_clipboard_wait_for_image, gdk_pixbuf_save,
    bind, get_session, log, ret. simpl.
  rewrite Hclip. simpl. rewrite Himg. simpl.
  now destruct (save_succeeds (session w) (c_str target_path) "png").
Qed.

Lemma SaveClipboardImageAsJpeg_session
    (unrepresentable : spec_float -> Z) (target_path : string)
    (compression_factor : spec_float) (pixbuf : GdkPixbuf) (w : World) :
  fst (EnsureGtkInitialized w) = true ->
  clipboard_available (session w) = true ->
  current_image (session w) = Some pixbuf ->
  session (snd (SaveClipboardImageAsJpeg unrepresentable target_path
                  compression_factor w))
  = if save_succeeds (session w) (c_str target_path) "jpeg"
    then with_file (c_str target_path)
           (mkPixbuf (width pixbuf) (height pixbuf)
              (lossy_pixels (session w) pixbuf
                 (Some (pretty (Quality.jpeg_quality unrepresentable
                                  compression_factor)))))
           (session w)
    else session w.
Proof.
  intros Hok Hclip Himg.
  pose proof (EnsureGtkInitialized_effects w) as He.
  unfold SaveClipboardImageAsJpeg, bind.
  destruct (EnsureGtkInitialized w) as [ok w1]. simpl in Hok. subst ok.
  destruct He as (_ & _ & Hs & _).
  destruct w1 as [a i h n s t]. simpl in Hs. subst s.
  unfold gtk_clipboard_get, gtk_clipboard_wait_for_image, gdk_pixbuf_save,
    bind, get_session, log, ret. simpl.
  rewrite Hclip. simpl. rewrite Himg. simpl.
  rewrite g_snprintf_d_quality by apply jpeg_quality_range.
  now destruct (save_succeeds (session w) (c_str target_path) "jpeg").
Qed.

(** ** What the operations do to the clipboard *)

Section OperationProperties.

Variable g_filename_to_uri : string -> option string.

Variable g_filename_from_uri : string -> option string.

Variable unrepresentable : spec_float -> Z.

Variable gtk_2_6 : bool.

Local Abbreviation perform' :=
  (perform g_filename_to_uri g_filename_from_uri unrepresentable gtk_2_6).

Local Abbreviation step' :=
  (step g_filename_to_uri g_filename_from_uri unrepresentable gtk_2_6).

Local Abbreviation run' :=
  (run g_filename_to_uri g_filename_from_uri unrepresentable gtk_2_6).


(** X10. When the session is attached but gives no clipboard handle, every
    operation returns its neutral value and leaves the session and the
    free store as they were; [PutImageIntoClipboard] too, although it has
    decoded the file by then. *)
Theorem no_clipboard_is_neutral (op : Operation) (w : World) :
  clipboard_available (session w) = false ->
  fst (perform' op w) = neutral op
  /\ session (snd (perform' op w)) = session w
  /\ heap (snd (perform' op w)) = heap w.
Proof.
  intros Hclip.
  pose proof (EnsureGtkInitialized_effects w) as He.
  destruct op;
    unfold perform, ReadFilePaths, WriteFilePaths, ClearClipboard,
      SaveClipboardImageAsJpeg, SaveClipboardImageAsPng,
      PutImageIntoClipboard, ClipboardHasImage, bind;
    destruct (EnsureGtkInitialized w) as [ok w1];
    destruct He as (_ & _ & Hs & Hh & _);
    destruct w1 as [a i h n s t]; simpl in Hs, Hh; subst s h;
    destruct ok; simpl; rewrite ?Hclip; simpl; auto;
    destruct (image_files (session w) (c_str image_path)); simpl;
    rewrite ?Hclip; auto.
Qed.

(** X11. [ClipboardHasImage] built with the availability probe of GTK 2.6
    answers what the owner of the clipboard advertises; built without it,
    it answers whether an image is delivered. The two builds agree when
    this process or nobody owns the clipboard, and each leaves the session
    and the free store as they were. *)
Theorem has_image_builds (w : World) :
  fst (ClipboardHasImage true w)
  = fst (EnsureGtkInitialized w) && clipboard_available (session w)
    && advertises_image (session w)
  /\ fst (ClipboardHasImage false w)
     = fst (EnsureGtkInitialized w) && clipboard_available (session w)
       && has_image (session w)
  /\ (is_foreign (owner (session w)) = false ->
      fst (ClipboardHasImage true w) = fst (ClipboardHasImage false w))
  /\ session (snd (ClipboardHasImage gtk_2_6 w)) = session w
  /\ heap (snd (ClipboardHasImage gtk_2_6 w)) = heap w.
Proof.
  rewrite !ClipboardHasImage_value. cbn [image_answer].
  split; [reflexivity | split; [reflexivity | split]].
  - intros Hown. f_equal. unfold advertises_image, has_image, current_image.
    now destruct (owner (session w)).
  - assert (H : preserves (kept w) (ClipboardHasImage gtk_2_6))
      by (unfold ClipboardHasImage; msolve kept_db).
    exact (H w (kept_refl w)).
Qed.

(** X12. With a session, a clipboard and an image on it, a save returns
    what the encoder returns for the target path as a C string. A
    successful PNG save leaves at that path a file that decodes to the
    image of the clipboard, a successful JPEG save one that decodes to an
    image of the same dimensions; no other file changes, and a failed save
    leaves the session as it was. *)
Theorem save_writes_file (target_path : string)
    (compression_factor : spec_float) (pixbuf : GdkPixbuf) (w : World) :
  fst (EnsureGtkInitialized w) = true ->
  clipboard_available (session w) = true ->
  current_image (session w) = Some pixbuf ->
  fst (SaveClipboardImageAsPng target_path w)
  = save_succeeds (session w) (c_str target_path) "png"
  /\ fst (SaveClipboardImageAsJpeg unrepresentable target_path
            compression_factor w)
     = save_succeeds (session w) (c_str target_path) "jpeg"
  /\ (save_succeeds (session w) (c_str target_path) "png" = true ->
      image_files (session (snd (SaveClipboardImageAsPng target_path w)))
        (c_str target_path)
      = Some pixbuf)
  /\ (save_succeeds (session w) (c_str target_path) "jpeg" = true ->
      exists image,
        image_files
          (session (snd (SaveClipboardImageAsJpeg unrepresentable
                           target_path compression_factor w)))
          (c_str target_path)
        = Some image
        /\ width image = width pixbuf /\ height image = height pixbuf)
  /\ (forall other, other <> c_str target_path ->
      image_files (session (snd (SaveClipboardImageAsPng target_path w)))
        other
      = image_files (session w) other
      /\ image_files
           (session (snd (SaveClipboardImageAsJpeg unrepresentable
                            target_path compression_factor w)))
           other
         = image_files (session w) other)
  /\ (save_succeeds (session w) (c_str target_path) "png" = false ->
      session (snd (SaveClipboardImageAsPng target_path w)) = session w)
  /\ (save_succeeds (session w) (c_str target_path) "jpeg" = false ->
      session (snd (SaveClipboardImageAsJpeg unrepresentable target_path
                      compression_factor w))
      = session w).
Proof.
  intros Hok Hclip Himg.
  rewrite (SaveClipboardImageAsPng_session target_path pixbuf w Hok Hclip
             Himg).
  rewrite (SaveClipboardImageAsJpeg_session unrepresentable target_path
             compression_factor pixbuf w Hok Hclip Himg).
  rewrite SaveClipboardImageAsPng_value, SaveClipboardImageAsJpeg_value.
  rewrite Hok, Hclip. unfold has_image. rewrite Himg. cbn [andb].
  split; [reflexivity | split; [reflexivity |]].
  split; [| split; [| split; [| split]]].
  - intros Hsave. rewrite Hsave. cbn [with_file image_files].
    now rewrite String.eqb_refl.
  - intros Hsave. rewrite Hsave. cbn [with_file image_files].
    rewrite String.eqb_refl. eexists. split; [reflexivity |].
    split; reflexivity.
  - intros other Hother. apply String.eqb_neq in Hother.
    split; destruct (save_succeeds _ _ _); cbn [with_file image_files];
      now rewrite ?Hother.
  - intros Hsave. now rewrite Hsave.
  - intros Hsave. now rewrite Hsave.
Qed.

(** X13. [ReadFilePaths] right after a successful [WriteFilePaths] returns
    the decoding of the URI list that was published; when every path goes
    through the URI conversion and back, these are the paths written. *)
Theorem read_after_write (file_paths : list string) (w : World) :
  payload_inv ∅ w ->
  fst (EnsureGtkInitialized w) = true ->
  clipboard_available (session w) = true ->
  Z.of_nat (String.length (uri_list_of g_filename_to_uri file_paths))
  < 2 ^ 31 ->
  Z.of_nat (String.length (plain_text_of file_paths)) < 2 ^ 31 ->
  fst (ReadFilePaths g_filename_from_uri
         (written g_filename_to_uri file_paths w))
  = decode_uri_list g_filename_from_uri
      (uri_list_of g_filename_to_uri file_paths)
  /\ (Forall (uri_friendly g_filename_to_uri g_filename_from_uri) file_paths ->
      fst (ReadFilePaths g_filename_from_uri
             (written g_filename_to_uri file_paths w))
      = file_paths).
Proof.
  intros Hinv Hok Hclip Hu Ht.
  destruct (WriteFilePaths_publishes g_filename_to_uri file_paths w
              Hinv Hok Hclip) as [Ho Hh].
  destruct (WriteFilePaths_world g_filename_to_uri file_paths w Hok Hclip)
    as (Ha & Hi & Hs).
  assert (Hread :
    fst (ReadFilePaths g_filename_from_uri
           (written g_filename_to_uri file_paths w))
    = decode_uri_list g_filename_from_uri
        (uri_list_of g_filename_to_uri file_paths)).
  { rewrite ReadFilePaths_value, (EnsureGtkInitialized_acquired _ Ha Hi).
    rewrite Hs. cbn [with_owner clipboard_available fst andb].
    rewrite Hclip.
    rewrite (serve_request_offered "text/uri-list" _ write_targets
               Fn_clipboard_clear_func (next_addr w) _
               (mkTarget "text/uri-list" 0 0) Ho Hh eq_refl Hu Ht).
    apply selection_paths_provided. }
  split; [exact Hread |].
  intros Hfriendly. rewrite Hread.
  now apply decode_encode_friendly.
Qed.

(** X14. After a successful [WriteFilePaths] a request for [text/uri-list]
    is answered with the URI list when that is shorter than [2^31] bytes,
    a request for [UTF8_STRING] or for [STRING] with the plain text typed
    [UTF8_STRING] when that is shorter than [2^31] bytes, and a request
    for any other target is not answered, whatever the sizes. *)
Theorem served_targets (file_paths : list string) (requested : string)
    (w : World) :
  payload_inv ∅ w ->
  fst (EnsureGtkInitialized w) = true ->
  clipboard_available (session w) = true ->
  (requested = "text/uri-list" ->
   Z.of_nat (String.length (uri_list_of g_filename_to_uri file_paths))
   < 2 ^ 31 ->
   fst (serve_request requested (written g_filename_to_uri file_paths w))
   = Some (provided "text/uri-list"
             (uri_list_of g_filename_to_uri file_paths)))
  /\ (requested = "UTF8_STRING" \/ requested = "STRING" ->
      Z.of_nat (String.length (plain_text_of file_paths)) < 2 ^ 31 ->
      fst (serve_request requested (written g_filename_to_uri file_paths w))
      = Some (provided "UTF8_STRING" (plain_text_of file_paths)))
  /\ (requested <> "text/uri-list" -> requested <> "UTF8_STRING" ->
      requested <> "STRING" ->
      fst (serve_request requested (written g_filename_to_uri file_paths w))
      = None).
Proof.
  intros Hinv Hok Hclip.
  destruct (WriteFilePaths_publishes g_filename_to_uri file_paths w
              Hinv Hok Hclip) as [Ho Hh].
  pose proof (fun entry =>
                serve_request_stores requested _ write_targets
                  Fn_clipboard_clear_func (next_addr w) _ entry Ho Hh)
    as Hserve.
  split; [| split].
  - intros -> Hu.
    rewrite (Hserve (mkTarget "text/uri-list" 0 0) eq_refl).
    now apply served_small.
  - intros [-> | ->] Ht.
    + rewrite (Hserve (mkTarget "UTF8_STRING" 0 1) eq_refl).
      now apply served_small.
    + rewrite (Hserve (mkTarget "STRING" 0 1) eq_refl).
      now apply served_small.
  - intros H1 H2 H3.
    apply (serve_request_not_offered requested _ _ _ _ _ Ho).
    unfold write_targets. cbn [List.find target].
    apply not_eq_sym, String.eqb_neq in H1, H2, H3.
    now rewrite H1, H2, H3.
Qed.

(** X15. After a successful [ClearClipboard] the clipboard has no owner,
    no payload is left on the free store, [ReadFilePaths] returns no
    path, [ClipboardHasImage] is false and a save returns false. *)
Theorem clear_empties_clipboard (target_path : string) (w : World) :
  payload_inv ∅ w ->
  fst (EnsureGtkInitialized w) = true ->
  clipboard_available (session w) = true ->
  owner (session (snd (ClearClipboard w))) = NoOwner
  /\ heap (snd (ClearClipboard w)) = ∅
  /\ fst (ReadFilePaths g_filename_from_uri (snd (ClearClipboard w))) = []
  /\ fst (ClipboardHasImage gtk_2_6 (snd (ClearClipboard w))) = false
  /\ fst (SaveClipboardImageAsPng target_path (snd (ClearClipboard w)))
     = false.
Proof.
  intros Hinv Hok Hclip.
  destruct (ClearClipboard_world w Hok Hclip) as (Ha & Hi & Hs).
  assert (Ho : owner (session (snd (ClearClipboard w))) = NoOwner)
    by now rewrite Hs.
  assert (Himg : has_image (session (snd (ClearClipboard w))) = false)
    by now rewrite Hs.
  assert (Hans : image_answer gtk_2_6 (session (snd (ClearClipboard w)))
                 = false)
    by (rewrite Hs; now destruct gtk_2_6).
  split; [exact Ho | split; [| split; [| split]]].
  - pose proof (payload_inv_perform g_filename_to_uri g_filename_from_uri
                  unrepresentable gtk_2_6 Op_ClearClipboard w Hinv) as Hinv'.
    unfold perform in Hinv'. rewrite bind_run in Hinv'.
    cbn [ret snd] in Hinv'.
    pose proof (inv_live _ _ Hinv') as Hlive.
    unfold live, offered in Hlive. rewrite Ho in Hlive.
    apply dom_empty_inv_L. rewrite Hlive. clear. set_solver.
  - rewrite ReadFilePaths_value.
    assert (Hnone : fst (serve_request "text/uri-list"
                           (snd (ClearClipboard w))) = None).
    { unfold serve_request, bind, get_session. cbv beta iota.
      now rewrite Ho. }
    rewrite Hnone. now destruct (_ && _).
  - rewrite ClipboardHasImage_value, Hans. apply andb_false_r.
  - rewrite SaveClipboardImageAsPng_value, Himg.
    now rewrite andb_false_r.
Qed.

(** X16. After a successful [PutImageIntoClipboard] the clipboard holds
    the decoded image: [ClipboardHasImage] is true, [ReadFilePaths]
    returns no path, and [SaveClipboardImageAsPng] hands that image to
    the encoder. *)
Theorem image_round_trip (image_path target_path : string)
    (pixbuf : GdkPixbuf) (w : World) :
  fst (EnsureGtkInitialized w) = true ->
  clipboard_available (session w) = true ->
  image_files (session w) (c_str image_path) = Some pixbuf ->
  fst (PutImageIntoClipboard image_path w) = true
  /\ fst (ClipboardHasImage gtk_2_6 (snd (PutImageIntoClipboard image_path w)))
     = true
  /\ fst (ReadFilePaths g_filename_from_uri
            (snd (PutImageIntoClipboard image_path w)))
     = []
  /\ trace (snd (SaveClipboardImageAsPng target_path
                   (snd (PutImageIntoClipboard image_path w))))
     = Call_gdk_pixbuf_save pixbuf (c_str target_path) "png" None
       :: Call_gtk_clipboard_wait_for_image :: Call_gtk_clipboard_get
       :: trace (snd (PutImageIntoClipboard image_path w)).
Proof.
  intros Hok Hclip Hfile.
  destruct (PutImageIntoClipboard_world image_path pixbuf w Hok Hclip Hfile)
    as (Ha & Hi & Hs).
  pose proof (EnsureGtkInitialized_acquired _ Ha Hi) as He.
  assert (Hc : clipboard_available
                 (session (snd (PutImageIntoClipboard image_path w))) = true)
    by now rewrite Hs.
  split; [| split; [| split]].
  - now rewrite PutImageIntoClipboard_value, Hok, Hfile, Hclip.
  - rewrite ClipboardHasImage_value, He, Hc, Hs. now destruct gtk_2_6.
  - rewrite ReadFilePaths_value.
    assert (Hnone : fst (serve_request "text/uri-list"
                           (snd (PutImageIntoClipboard image_path w)))
                    = None).
    { unfold serve_request, bind, get_session. cbv beta iota.
      now rewrite Hs. }
    rewrite Hnone. now destruct (_ && _).
  - rewrite (SaveClipboardImageAsPng_encodes target_path pixbuf).
    + now rewrite He.
    + now rewrite He.
    + exact Hc.
    + now rewrite Hs.
Qed.

(** X17. A successful [WriteFilePaths] takes the image channel away:
    afterwards [ClipboardHasImage] is false and both saves return
    false, whatever was on the clipboard before. *)
Theorem write_replaces_image (file_paths : list string)
    (target_path : string) (compression_factor : spec_float) (w : World) :
  fst (EnsureGtkInitialized w) = true ->
  clipboard_available (session w) = true ->
  fst (ClipboardHasImage gtk_2_6 (written g_filename_to_uri file_paths w))
  = false
  /\ fst (SaveClipboardImageAsPng target_path
            (written g_filename_to_uri file_paths w))
     = false
  /\ fst (SaveClipboardImageAsJpeg unrepresentable target_path
            compression_factor (written g_filename_to_uri file_paths w))
     = false.
Proof.
  intros Hok Hclip.
  destruct (WriteFilePaths_world g_filename_to_uri file_paths w Hok Hclip)
    as (_ & _ & Hs).
  assert (Himg : has_image (session (written g_filename_to_uri file_paths w))
                 = false) by now rewrite Hs.
  assert (Hans : image_answer gtk_2_6
                   (session (written g_filename_to_uri file_paths w))
                 = false)
    by (rewrite Hs; now destruct gtk_2_6).
  rewrite ClipboardHasImage_value, SaveClipboardImageAsPng_value,
    SaveClipboardImageAsJpeg_value, Himg, Hans.
  rewrite andb_false_r. repeat split; reflexivity.
Qed.

(** X18. When the image file does not decode, [PutImageIntoClipboard]
    returns false without asking for the clipboard: the decode call is
    its only session call, and the owner of the clipboard and the free
    store stay as they were. *)
Theorem undecodable_image_leaves_clipboard (image_path : string)
    (w : World) :
  fst (EnsureGtkInitialized w) = true ->
  image_files (session w) (c_str image_path) = None ->
  fst (PutImageIntoClipboard image_path w) = false
  /\ session (snd (PutImageIntoClipboard image_path w)) = session w
  /\ heap (snd (PutImageIntoClipboard image_path w)) = heap w
  /\ trace (snd (PutImageIntoClipboard image_path w))
     = Call_gdk_pixbuf_new_from_file (c_str image_path)
       :: trace (snd (EnsureGtkInitialized w)).
Proof.
  intros Hok Hfile.
  pose proof (EnsureGtkInitialized_effects w) as He.
  unfold PutImageIntoClipboard, bind.
  destruct (EnsureGtkInitialized w) as [ok w1]. simpl in Hok. subst ok.
  destruct He as (_ & _ & Hs & Hh & _).
  destruct w1 as [a i h n s t]. simpl in Hs, Hh. subst s h.
  unfold gdk_pixbuf_new_from_file, bind, get_session, log, ret. simpl.
  rewrite Hfile. simpl. repeat split; reflexivity.
Qed.

(** X19. When no path has a URI, a successful [WriteFilePaths] still takes
    the clipboard: it offers an empty URI list, which [ReadFilePaths]
    reads as no path, while the plain text lists every path (and is
    handed to a paster when it is shorter than [2^31] bytes). *)
Theorem write_without_uris (file_paths : list string) (w : World) :
  payload_inv ∅ w ->
  fst (EnsureGtkInitialized w) = true ->
  clipboard_available (session w) = true ->
  Forall (fun path => g_filename_to_uri (c_str path) = None) file_paths ->
  fst (serve_request "text/uri-list"
         (written g_filename_to_uri file_paths w))
  = Some (provided "text/uri-list" EmptyString)
  /\ fst (ReadFilePaths g_filename_from_uri
            (written g_filename_to_uri file_paths w))
     = []
  /\ heap (written g_filename_to_uri file_paths w) !! next_addr w
     = Some (mkUriListData EmptyString (plain_text_of file_paths))
  /\ (Z.of_nat (String.length (plain_text_of file_paths)) < 2 ^ 31 ->
      fst (serve_request "UTF8_STRING"
             (written g_filename_to_uri file_paths w))
      = Some (provided "UTF8_STRING" (plain_text_of file_paths))).
Proof.
  intros Hinv Hok Hclip Hnone.
  assert (Hnil : uri_list_of g_filename_to_uri file_paths = EmptyString).
  { unfold uri_list_of. rewrite build_uris_spec, app_nil_l.
    replace (omap (fun path => g_filename_to_uri (c_str path)) file_paths)
      with (@nil string); [reflexivity |].
    induction Hnone as [|path rest Hpath _ IH]; [reflexivity |].
    rewrite (omap_cons_None (fun path => g_filename_to_uri (c_str path))
               path rest Hpath).
    exact IH. }
  destruct (WriteFilePaths_publishes g_filename_to_uri file_paths w
              Hinv Hok Hclip) as [Ho Hh].
  rewrite Hnil in Hh.
  pose proof (fun requested entry =>
                serve_request_stores requested _ write_targets
                  Fn_clipboard_clear_func (next_addr w) _ entry Ho Hh)
    as Hserve.
  pose proof (Hserve "text/uri-list" (mkTarget "text/uri-list" 0 0) eq_refl)
    as Huri.
  cbn [info uri_list Z.eqb] in Huri.
  rewrite served_small in Huri by (simpl; lia).
  split; [exact Huri | split; [| split; [exact Hh |]]].
  - rewrite ReadFilePaths_value, Huri. now destruct (_ && _).
  - intros Ht.
    rewrite (Hserve "UTF8_STRING" (mkTarget "UTF8_STRING" 0 1) eq_refl).
    now apply served_small.
Qed.

End OperationProperties.


Lemma no_clipboard_is_neutral_witness :
  fst (perform GLib.g_filename_to_uri GLib.g_filename_from_uri
         Quality.x86_unrepresentable true
         (Op_PutImageIntoClipboard "/tmp/i.png") (initial_world no_clipboard))
  = Flag false
  /\ fst (perform GLib.g_filename_to_uri GLib.g_filename_from_uri
            Quality.x86_unrepresentable true
            Op_ClipboardHasImage (initial_world no_clipboard))
     = Flag false.
Proof.
  split.
  - apply (no_clipboard_is_neutral GLib.g_filename_to_uri
             GLib.g_filename_from_uri Quality.x86_unrepresentable true
             (Op_PutImageIntoClipboard "/tmp/i.png")
             (initial_world no_clipboard)).
    reflexivity.
  - apply (no_clipboard_is_neutral GLib.g_filename_to_uri
             GLib.g_filename_from_uri Quality.x86_unrepresentable true
             Op_ClipboardHasImage (initial_world no_clipboard)).
    reflexivity.
Defined.

Lemma has_image_builds_witness :
  fst (ClipboardHasImage true
         (snd (PutImageIntoClipboard "/tmp/i.png"
                 (initial_world Witness.desktop))))
  = fst (ClipboardHasImage false
           (snd (PutImageIntoClipboard "/tmp/i.png"
                   (initial_world Witness.desktop)))).
Proof.
  destruct (has_image_builds true
              (snd (PutImageIntoClipboard "/tmp/i.png"
                      (initial_world Witness.desktop))))
    as (_ & _ & H & _).
  apply H. reflexivity.
Defined.

(** With an owner that advertises an image and delivers none, the two
    builds of [ClipboardHasImage] differ. *)
Example has_image_builds_differ :
  fst (ClipboardHasImage true (initial_world lazy_owner)) = true
  /\ fst (ClipboardHasImage false (initial_world lazy_owner)) = false.
Proof. split; reflexivity. Qed.

Lemma save_writes_file_witness :
  image_files
    (session
       (snd (SaveClipboardImageAsPng "/tmp/copy.png"
               (snd (PutImageIntoClipboard "/tmp/i.png"
                       (initial_world (no_decoder_but "/tmp/i.png")))))))
    "/tmp/copy.png"
  = Some Witness.pixel.
Proof.
  destruct (save_writes_file Quality.x86_unrepresentable "/tmp/copy.png"
              S754_nan Witness.pixel
              (snd (PutImageIntoClipboard "/tmp/i.png"
                      (initial_world (no_decoder_but "/tmp/i.png")))))
    as (_ & _ & H & _).
  - reflexivity.
  - reflexivity.
  - reflexivity.
  - apply H. reflexivity.
Defined.

Lemma read_after_write_witness :
  fst (ReadFilePaths GLib.g_filename_from_uri
         (written GLib.g_filename_to_uri Scenario.paths
            (initial_world Witness.desktop)))
  = Scenario.paths.
Proof.
  destruct (read_after_write GLib.g_filename_to_uri GLib.g_filename_from_uri
              Scenario.paths (initial_world Witness.desktop))
    as [_ H].
  - apply payload_inv_initial. reflexivity.
  - reflexivity.
  - reflexivity.
  - reflexivity.
  - reflexivity.
  - apply H. repeat constructor;
      apply GLibFacts.absolute_path_friendly; reflexivity.
Defined.

Lemma served_targets_witness :
  fst (serve_request "STRING"
         (written GLib.g_filename_to_uri Scenario.paths
            (initial_world Witness.desktop)))
  = Some (provided "UTF8_STRING" Scenario.utf8_string_bytes)
  /\ fst (serve_request "image/png"
            (written GLib.g_filename_to_uri Scenario.paths
               (initial_world Witness.desktop)))
     = None.
Proof.
  split.
  - destruct (served_targets GLib.g_filename_to_uri Scenario.paths "STRING"
                (initial_world Witness.desktop)) as (_ & H & _);
      [apply payload_inv_initial; reflexivity | reflexivity | reflexivity |].
    apply H; [now right | reflexivity].
  - destruct (served_targets GLib.g_filename_to_uri Scenario.paths
                "image/png" (initial_world Witness.desktop)) as (_ & _ & H);
      [apply payload_inv_initial; reflexivity | reflexivity | reflexivity |].
    apply H; discriminate.
Defined.

Lemma clear_empties_clipboard_witness :
  heap (snd (ClearClipboard
               (written GLib.g_filename_to_uri Scenario.paths
                  (initial_world Witness.desktop))))
  = ∅
  /\ fst (ReadFilePaths GLib.g_filename_from_uri
            (snd (ClearClipboard
                    (written GLib.g_filename_to_uri Scenario.paths
                       (initial_world Witness.desktop)))))
     = [].
Proof.
  destruct (clear_empties_clipboard GLib.g_filename_to_uri
              GLib.g_filename_from_uri Quality.x86_unrepresentable true
              "/tmp/out.png"
              (written GLib.g_filename_to_uri Scenario.paths
                 (initial_world Witness.desktop)))
    as (_ & H2 & H3 & _).
  - change (payload_inv ∅
              (run GLib.g_filename_to_uri GLib.g_filename_from_uri
                 Quality.x86_unrepresentable true
                 [Host (Op_WriteFilePaths Scenario.paths)]
                 (initial_world Witness.desktop))).
    apply payload_inv_run, payload_inv_initial. reflexivity.
  - reflexivity.
  - reflexivity.
  - split; [exact H2 | exact H3].
Defined.

Lemma image_round_trip_witness :
  fst (ClipboardHasImage true
         (snd (PutImageIntoClipboard "/tmp/i.png"
                 (initial_world Witness.desktop))))
  = true.
Proof.
  destruct (image_round_trip GLib.g_filename_from_uri true
              "/tmp/i.png" "/tmp/out.png" Witness.pixel
              (initial_world Witness.desktop))
    as (_ & H & _).
  - reflexivity.
  - reflexivity.
  - reflexivity.
  - exact H.
Defined.

Lemma write_replaces_image_witness :
  fst (ClipboardHasImage true
         (written GLib.g_filename_to_uri Scenario.paths
            (initial_world Witness.with_image)))
  = false.
Proof.
  destruct (write_replaces_image GLib.g_filename_to_uri
              Quality.x86_unrepresentable true Scenario.paths
              "/tmp/out.jpg" S754_nan (initial_world Witness.with_image))
    as (H & _).
  - reflexivity.
  - reflexivity.
  - exact H.
Defined.

Lemma undecodable_image_leaves_clipboard_witness :
  fst (PutImageIntoClipboard "/tmp/broken.png" (initial_world no_decoder))
  = false
  /\ session (snd (PutImageIntoClipboard "/tmp/broken.png"
                     (initial_world no_decoder)))
     = no_decoder.
Proof.
  destruct (undecodable_image_leaves_clipboard "/tmp/broken.png"
              (initial_world no_decoder))
    as (H1 & H2 & _).
  - reflexivity.
  - reflexivity.
  - split; [exact H1 | exact H2].
Defined.

Lemma write_without_uris_witness :
  fst (ReadFilePaths GLib.g_filename_from_uri
         (written GLib.g_filename_to_uri ["notes/todo.txt"; "a.txt"]
            (initial_world Witness.with_image)))
  = []
  /\ fst (serve_request "UTF8_STRING"
            (written GLib.g_filename_to_uri ["notes/todo.txt"; "a.txt"]
               (initial_world Witness.with_image)))
     = Some (provided "UTF8_STRING" ("notes/todo.txt" +:+ String LF "a.txt")).
Proof.
  destruct (write_without_uris GLib.g_filename_to_uri
              GLib.g_filename_from_uri ["notes/todo.txt"; "a.txt"]
              (initial_world Witness.with_image))
    as (_ & H2 & _ & H4).
  - apply payload_inv_initial. reflexivity.
  - reflexivity.
  - reflexivity.
  - repeat constructor.
  - split; [exact H2 | apply H4; reflexivity].
Defined.

(** ** The quality outside the scale *)

(** The product with [100.0f] of a float that is not positive is not
    positive. *)
Lemma product_not_positive (f : spec_float) :
  not_positive f = true -> not_positive (Quality.product f) = true.
Proof.
  intros Hf. unfold Quality.product.
  change Quality.hundred with (S754_finite false 13107200 (-17)).
  destruct f as [s | s | | [] m e]; try discriminate Hf; try reflexivity.
  unfold SFmul, binary_round_aux.
  destruct (shr_fexp _ _ _ _ _) as [mrs' e'].
  destruct (shr_fexp _ _ _ _ _) as [mrs'' e''].
  destruct (shr_m mrs''); [reflexivity | | reflexivity].
  now destruct (_ <=? _).
Qed.

(** X20. A compression factor that is not a positive finite number (a
    zero, a negative number, an infinity of either sign or a NaN) gives
    quality 0 wherever the conversion of an unrepresentable float yields
    no positive [int], as on x86-64; [+infinity] does not give 100. *)
Theorem quality_outside_scale (unrepresentable : spec_float -> Z)
    (compression_factor : spec_float) :
  (forall f, unrepresentable f <= 0) ->
  not_positive compression_factor = true ->
  Quality.jpeg_quality unrepresentable compression_factor = 0.
Proof.
  intros Hu Hf. apply product_not_positive in Hf.
  unfold Quality.jpeg_quality, Quality.static_cast_int.
  specialize (Hu (Quality.product compression_factor)).
  destruct (Quality.product compression_factor) as [s | s | | [] m e];
    try discriminate Hf; cbn [Quality.truncate]; try lia;
    [reflexivity |].
  assert (Ha : 0 <= (if 0 <=? e then Z.shiftl (Z.pos m) e
                     else Z.shiftr (Z.pos m) (- e))).
  { destruct (0 <=? e) eqn:E.
    - apply Z.shiftl_nonneg. lia.
    - apply Z.shiftr_nonneg. lia. }
  destruct (_ && _); lia.
Qed.

Lemma quality_outside_scale_witness :
  Quality.jpeg_quality Quality.x86_unrepresentable (S754_infinity false) = 0
  /\ Quality.jpeg_quality Quality.x86_unrepresentable
       (Quality.float_of (-1) (-1)) = 0.
Proof.
  split.
  - apply (quality_outside_scale Quality.x86_unrepresentable
             (S754_infinity false)).
    + intros f. unfold Quality.x86_unrepresentable, Quality.INT_MIN. lia.
    + reflexivity.
  - apply (quality_outside_scale Quality.x86_unrepresentable
             (Quality.float_of (-1) (-1))).
    + intros f. unfold Quality.x86_unrepresentable, Quality.INT_MIN. lia.
    + reflexivity.
Defined.
